(** * LLMStudio: provider core, stream normalizers and response aggregation

    A shallow embedding of the provider abstraction of LLMStudio:

    - [ProviderCore.chat], [validate_model], [join_chunks],
      [handle_response_stream] and [calculate_cost]
      (libs/core/llmstudio_core/providers/provider.py);
    - [AnthropicProvider.parse_response]
      (libs/core/llmstudio_core/providers/anthropic.py);
    - [VertexAIProvider.parse_response]
      (llmstudio/engine/providers/vertexai.py).

    Python values that the code inspects dynamically (stream chunks, decoded
    JSON events) are values of [pyval]; exceptions are explicit results. *)

From Stdlib Require Import String Ascii List ZArith QArith Bool Lia DecimalString.
Import ListNotations.
Local Open Scope string_scope.
Local Open Scope Z_scope.

(** ** Python values and exceptions *)

Module Py.

(** The exception classes the embedded code can raise or let through. *)
Inductive exn_class :=
| ValidationError
| ProviderError
| TypeError
| AttributeError
| IndexError
| KeyError
| RuntimeError
| ValueError
| OtherException.

(** An exception object: its class and [str(e)] (the interpreter's own
    messages are abridged). *)
Record exn := Exc { exn_cls : exn_class; exn_str : string }.

Definition exn_class_eqb (a b : exn_class) : bool :=
  match a, b with
  | ValidationError, ValidationError | ProviderError, ProviderError
  | TypeError, TypeError | AttributeError, AttributeError
  | IndexError, IndexError | KeyError, KeyError
  | RuntimeError, RuntimeError | ValueError, ValueError
  | OtherException, OtherException => true
  | _, _ => false
  end.

(** A computation either returns a value or raises. *)
Inductive res (A : Type) :=
| Ok (a : A)
| Raise (e : exn).
Arguments Ok {A} a.
Arguments Raise {A} e.

Definition bind {A B} (m : res A) (k : A -> res B) : res B :=
  match m with
  | Ok a => k a
  | Raise e => Raise e
  end.

(** [try: m except C: h] for one exception class. *)
Definition try_except {A} (m : res A) (c : exn_class) (h : exn -> res A) : res A :=
  match m with
  | Ok a => Ok a
  | Raise e => if exn_class_eqb (exn_cls e) c then h e else Raise e
  end.

(** [try: m except Exception: h] and the bare [except:]; every class above
    derives from [Exception]. *)
Definition try_except_all {A} (m : res A) (h : exn -> res A) : res A :=
  match m with
  | Ok a => Ok a
  | Raise e => h e
  end.

Definition raises {A} (m : res A) (c : exn_class) : Prop :=
  exists msg, m = Raise (Exc c msg).

(** Dynamically typed data: what a decoded JSON document or a dumped
    pydantic model is made of. Dictionaries keep insertion order. *)
#[local] Set Warnings "-register-all".
Inductive pyval :=
| PNone
| PInt (z : Z)
| PStr (s : string)
| PList (l : list pyval)
| PDict (d : list (string * pyval)).

Fixpoint assoc {V} (k : string) (d : list (string * V)) : option V :=
  match d with
  | [] => None
  | (k', v) :: d' => if String.eqb k k' then Some v else assoc k d'
  end.

(** [bool(v)] *)
Definition truthy (v : pyval) : bool :=
  match v with
  | PNone => false
  | PInt z => negb (z =? 0)
  | PStr s => negb (String.eqb s EmptyString)
  | PList l => match l with [] => false | _ => true end
  | PDict d => match d with [] => false | _ => true end
  end.

(** [v == "s"] for a string literal. *)
Definition eq_str (v : pyval) (s : string) : bool :=
  match v with
  | PStr s' => String.eqb s' s
  | _ => false
  end.

Definition type_name (v : pyval) : string :=
  match v with
  | PNone => "NoneType"
  | PInt _ => "int"
  | PStr _ => "str"
  | PList _ => "list"
  | PDict _ => "dict"
  end.

(** [v.get(k, default)]: only dictionaries have [get]. *)
Definition get_default (v : pyval) (k : string) (default : pyval) : res pyval :=
  match v with
  | PDict d => Ok (match assoc k d with Some x => x | None => default end)
  | _ => Raise (Exc AttributeError
                  ("'" ++ type_name v ++ "' object has no attribute 'get'"))
  end.

(** [v.get(k)] *)
Definition get (v : pyval) (k : string) : res pyval := get_default v k PNone.

(** [v[0]] *)
Definition item0 (v : pyval) : res pyval :=
  match v with
  | PList (x :: _) => Ok x
  | PList [] => Raise (Exc IndexError "list index out of range")
  | PStr (String c _) => Ok (PStr (String c EmptyString))
  | PStr EmptyString => Raise (Exc IndexError "string index out of range")
  | PDict _ => Raise (Exc KeyError "0")
  | _ => Raise (Exc TypeError
                  ("'" ++ type_name v ++ "' object is not subscriptable"))
  end.

(** [v["k"]] for a string literal key. *)
Definition item (v : pyval) (k : string) : res pyval :=
  match v with
  | PDict d => match assoc k d with
               | Some x => Ok x
               | None => Raise (Exc KeyError ("'" ++ k ++ "'"))
               end
  | PList _ => Raise (Exc TypeError "list indices must be integers or slices, not str")
  | PStr _ => Raise (Exc TypeError "string indices must be integers, not 'str'")
  | _ => Raise (Exc TypeError
                  ("'" ++ type_name v ++ "' object is not subscriptable"))
  end.

(** ["k" in v] for a string literal key. *)
Definition contains_key (v : pyval) (k : string) : res bool :=
  match v with
  | PDict d => Ok (match assoc k d with Some _ => true | None => false end)
  | PList l => Ok (existsb (fun x => eq_str x k) l)
  | PStr s => Ok (match index 0 k s with Some _ => true | None => false end)
  | _ => Raise (Exc TypeError
                  ("argument of type '" ++ type_name v ++ "' is not iterable"))
  end.

(** Hashable values, as used for dictionary keys. *)
Inductive key :=
| KNone
| KInt (z : Z)
| KStr (s : string).

Definition key_eqb (a b : key) : bool :=
  match a, b with
  | KNone, KNone => true
  | KInt x, KInt y => x =? y
  | KStr x, KStr y => String.eqb x y
  | _, _ => false
  end.

(** [hash(v)]: lists and dictionaries are unhashable. *)
Definition to_key (v : pyval) : res key :=
  match v with
  | PNone => Ok KNone
  | PInt z => Ok (KInt z)
  | PStr s => Ok (KStr s)
  | _ => Raise (Exc TypeError ("unhashable type: '" ++ type_name v ++ "'"))
  end.

(** [l[-1]] on a Python list. *)
Definition last_item {A} (l : list A) : res A :=
  match rev l with
  | x :: _ => Ok x
  | [] => Raise (Exc IndexError "list index out of range")
  end.

(** [str.join] with the empty separator: every item has to be a string. *)
Fixpoint str_join (l : list pyval) : res string :=
  match l with
  | [] => Ok EmptyString
  | PStr s :: l' => bind (str_join l') (fun r => Ok (s ++ r))
  | v :: _ => Raise (Exc TypeError
                       ("sequence item: expected str instance, "
                        ++ type_name v ++ " found"))
  end.

(** [for x in l: ...] over a body that can raise: the results in order, or
    the first exception. *)
Fixpoint mapM {A B} (f : A -> res B) (l : list A) : res (list B) :=
  match l with
  | [] => Ok []
  | x :: l' => bind (f x) (fun y => bind (mapM f l') (fun ys => Ok (y :: ys)))
  end.

End Py.

Import Py.

Notation "x <- m ;; k" := (Py.bind m (fun x => k))
  (at level 61, m at next level, right associativity).

(** pydantic validation of a [str] field. *)
Definition validate_str (field : string) (v : pyval) : res string :=
  match v with
  | PStr s => Ok s
  | _ => Raise (Exc ValidationError (field ++ ": Input should be a valid string"))
  end.

(** pydantic validation of an [int] field (the conversions that pydantic's
    lax mode applies to numeric strings are left out). *)
Definition validate_int (field : string) (v : pyval) : res Z :=
  match v with
  | PInt z => Ok z
  | _ => Raise (Exc ValidationError (field ++ ": Input should be a valid integer"))
  end.

(** pydantic validation of an [Optional[str]] field. *)
Definition validate_opt_str (field : string) (v : pyval) : res (option string) :=
  match v with
  | PNone => Ok None
  | PStr s => Ok (Some s)
  | _ => Raise (Exc ValidationError (field ++ ": Input should be a valid string"))
  end.

(** ** Provider configuration and requests *)

(** One band of a tiered price: [range = (range_min, range_max)], where
    [range_max = None] is Python's [None]. *)
Record CostRange (float : Type) := {
  range_min : Z;
  range_max : option Z;
  cost : float
}.
Arguments range_min {float} _.
Arguments range_max {float} _.
Arguments cost {float} _.

(** [token_cost : Union[float, List[...]]] *)
Inductive TokenCost (float : Type) :=
| Flat (rate : float)
| Banded (bands : list (CostRange float)).
Arguments Flat {float} rate.
Arguments Banded {float} bands.

(** What [calculate_cost] returns: a float product, or the integer literal of
    its last line. *)
Inductive CostValue (float : Type) :=
| CostFloat (x : float)
| CostInt (z : Z).
Arguments CostFloat {float} x.
Arguments CostInt {float} z.

Record ModelConfig (float : Type) := {
  input_token_cost : TokenCost float;
  output_token_cost : TokenCost float
}.
Arguments input_token_cost {float} _.
Arguments output_token_cost {float} _.

(** [self.config]: [models] is a dictionary keyed by model name. *)
Record Config (float : Type) := {
  config_id : string;
  config_name : string;
  models : list (string * ModelConfig float)
}.
Arguments config_id {float} _.
Arguments config_name {float} _.
Arguments models {float} _.

(** [ChatRequest], after validation. [retries] is an [Optional[int]]: the
    model accepts [None] for it. [is_stream] is read for its truth value
    only, so that its [None] is [false] here. *)
Record ChatRequest := {
  chat_input : pyval;
  model : string;
  is_stream : bool;
  retries : option Z;
  parameters : pyval
}.

(** The observable effects of a call: how many requests were sent to the
    upstream provider and how often the clock was read. A timestamp is the
    number of the clock reading that produced it. *)
Record World := { sends : nat; clock_reads : nat }.

Definition time_time (w : World) : nat * World :=
  (clock_reads w, {| sends := sends w; clock_reads := S (clock_reads w) |}).

Definition count_send (w : World) : World :=
  {| sends := S (sends w); clock_reads := clock_reads w |}.

(** Outcome of one pass through a loop body. *)
Inductive control (A : Type) :=
| Next
| Return (a : A)
| Throw (e : exn).
Arguments Next {A}.
Arguments Return {A} a.
Arguments Throw {A} e.

(** [for _ in range(n): body] followed by [after]. *)
Fixpoint for_range {A W} (n : nat) (body : W -> control A * W)
    (after : W -> res A * W) (w : W) : res A * W :=
  match n with
  | O => after w
  | S n' =>
      let (c, w') := body w in
      match c with
      | Next => for_range n' body after w'
      | Return a => (Ok a, w')
      | Throw e => (Raise e, w')
      end
  end.

(** ** The OpenAI response types

    The pydantic models of the [openai] package that the providers build and
    dump, with the fields the code sets or reads. *)

Module OpenAI.

(** [ChoiceDeltaToolCallFunction]; the model allows extra fields, and the
    VertexAI provider passes [type], which [model_dump] then shows. *)
Record ChoiceDeltaToolCallFunction := {
  fn_arguments : option string;
  fn_name : option string;
  fn_type : option string
}.

Record ChoiceDeltaToolCall := {
  tc_index : Z;
  tc_id : option string;
  tc_function : option ChoiceDeltaToolCallFunction;
  tc_type : option string
}.

Record ChoiceDeltaFunctionCall := {
  fc_arguments : option string;
  fc_name : option string
}.

Record ChoiceDelta := {
  content : option string;
  function_call : option ChoiceDeltaFunctionCall;
  role : option string;
  tool_calls : option (list ChoiceDeltaToolCall)
}.

(** [ChoiceDelta()] *)
Definition empty_delta : ChoiceDelta :=
  {| content := None; function_call := None; role := None; tool_calls := None |}.

(** [chat_completion_chunk.Choice] *)
Record Choice := {
  delta : ChoiceDelta;
  finish_reason : option string;
  choice_index : Z
}.

Record ChatCompletionChunk := {
  chunk_id : string;
  choices : list Choice;
  created : Z;
  chunk_model : string;
  object : string
}.

Definition dump_opt_str (o : option string) : pyval :=
  match o with
  | Some s => PStr s
  | None => PNone
  end.

Definition dump_function (f : ChoiceDeltaToolCallFunction) : pyval :=
  PDict ([("arguments", dump_opt_str (fn_arguments f));
          ("name", dump_opt_str (fn_name f))]
         ++ match fn_type f with
            | Some t => [("type", PStr t)]
            | None => []
            end)%list.

Definition dump_tool_call (t : ChoiceDeltaToolCall) : pyval :=
  PDict [("index", PInt (tc_index t));
         ("id", dump_opt_str (tc_id t));
         ("function", match tc_function t with
                      | Some f => dump_function f
                      | None => PNone
                      end);
         ("type", dump_opt_str (tc_type t))].

Definition dump_function_call (f : ChoiceDeltaFunctionCall) : pyval :=
  PDict [("arguments", dump_opt_str (fc_arguments f));
         ("name", dump_opt_str (fc_name f))].

Definition dump_delta (d : ChoiceDelta) : pyval :=
  PDict [("content", dump_opt_str (content d));
         ("function_call", match function_call d with
                           | Some f => dump_function_call f
                           | None => PNone
                           end);
         ("role", dump_opt_str (role d));
         ("tool_calls", match tool_calls d with
                        | Some l => PList (map dump_tool_call l)
                        | None => PNone
                        end)].

Definition dump_choice (c : Choice) : pyval :=
  PDict [("delta", dump_delta (delta c));
         ("finish_reason", dump_opt_str (finish_reason c));
         ("index", PInt (choice_index c));
         ("logprobs", PNone)].

(** [ChatCompletionChunk.model_dump()] *)
Definition model_dump (c : ChatCompletionChunk) : pyval :=
  PDict [("id", PStr (chunk_id c));
         ("choices", PList (map dump_choice (choices c)));
         ("created", PInt (created c));
         ("model", PStr (chunk_model c));
         ("object", PStr (object c));
         ("usage", PNone)].

(** The non-streaming types that [join_chunks] builds. *)
Record Function := {
  function_arguments : string;
  function_name : string
}.

Record ChatCompletionMessageToolCall := {
  call_id : string;
  call_function : Function;
  call_type : string
}.

Record FunctionCall := {
  call_arguments : string;
  call_name : string
}.

Record ChatCompletionMessage := {
  message_content : option string;
  message_role : string;
  message_function_call : option FunctionCall;
  message_tool_calls : option (list ChatCompletionMessageToolCall)
}.

(** [chat_completion.Choice] *)
Record CompletionChoice := {
  completion_finish_reason : string;
  completion_index : Z;
  message : ChatCompletionMessage
}.

Record ChatCompletion := {
  completion_id : string;
  completion_created : Z;
  completion_model : string;
  completion_object : string;
  completion_choices : list CompletionChoice
}.

(** [Function(arguments=a, name=n)] *)
Definition mk_Function (a n : pyval) : res Function :=
  a' <- validate_str "arguments" a ;;
  n' <- validate_str "name" n ;;
  Ok {| function_arguments := a'; function_name := n' |}.

(** [ChatCompletionMessageToolCall(id=i, function=f, type=t)]; [type] is
    [Literal["function"]]. *)
Definition mk_ChatCompletionMessageToolCall (i : pyval) (f : Function) (t : pyval)
    : res ChatCompletionMessageToolCall :=
  i' <- validate_str "id" i ;;
  if eq_str t "function" then
    Ok {| call_id := i'; call_function := f; call_type := "function" |}
  else Raise (Exc ValidationError "type: Input should be 'function'").

(** [FunctionCall(arguments=a, name=n)] *)
Definition mk_FunctionCall (a n : pyval) : res FunctionCall :=
  a' <- validate_str "arguments" a ;;
  n' <- validate_str "name" n ;;
  Ok {| call_arguments := a'; call_name := n' |}.

(** [ChatCompletion(id=i, created=c, model=m, object="chat.completion",
    choices=[Choice(finish_reason=fr, index=0, logprobs=None, message=msg)])] *)
Definition mk_ChatCompletion (i c m : pyval) (fr : string)
    (msg : ChatCompletionMessage) : res ChatCompletion :=
  i' <- validate_str "id" i ;;
  c' <- validate_int "created" c ;;
  m' <- validate_str "model" m ;;
  Ok {| completion_id := i';
        completion_created := c';
        completion_model := m';
        completion_object := "chat.completion";
        completion_choices :=
          [{| completion_finish_reason := fr;
              completion_index := 0;
              message := msg |}] |}.

End OpenAI.

Import OpenAI.

(** The second component of what [join_chunks] returns: a string, or
    [str(l)] of a list, whose rendering is Python's. *)
Inductive output_string :=
| OutStr (s : string)
| OutStrOfList (l : list pyval).

(** [d.setdefault(k, []).append(v)] *)
Fixpoint setdefault_append {V} (k : key) (v : V) (d : list (key * list V))
    : list (key * list V) :=
  match d with
  | [] => [(k, [v])]
  | (k', l) :: d' =>
      if key_eqb k k' then (k', (l ++ [v])%list) :: d'
      else (k', l) :: setdefault_append k v d'
  end.

(** [zip] of four lists. *)
Fixpoint zip4 {A B C D} (la : list A) (lb : list B) (lc : list C) (ld : list D)
    : list (A * B * C * D) :=
  match la, lb, lc, ld with
  | a :: la', b :: lb', c :: lc', d :: ld' => (a, b, c, d) :: zip4 la' lb' lc' ld'
  | _, _, _, _ => []
  end.

(** [s += v] on a string. *)
Definition str_iadd (s : string) (v : pyval) : res string :=
  match v with
  | PStr s' => Ok (s ++ s')
  | _ => Raise (Exc TypeError
                  ("can only concatenate str (not " ++ type_name v ++ ") to str"))
  end.

Module ProviderCore.

Section Core.

(** Python floats and [rate * token_count]. *)
Variable float : Type.
Variable fmul : float -> Z -> float.

(** The provider-specific types: the keyword arguments of [chat], the handle
    that [generate_client] returns, and the non-streaming result. *)
Variables Raw Response Completion : Type.

(** The abstract methods of [ProviderCore] and the instance attributes the
    base class reads. [generate_client] is given the number of requests
    already sent, so that an upstream may answer differently per attempt. *)
Record Provider := {
  class_name : string;
  config : Config float;
  validate_request : Raw -> res ChatRequest;
  generate_client : nat -> ChatRequest -> res Response;
  handle_response_non_stream : ChatRequest -> Response -> nat -> res Completion
}.

(** [chat] returns the generator object of [handle_response_stream] without
    running it, or the finished non-streaming result. *)
Inductive ChatResult :=
| StreamGenerator (request : ChatRequest) (response : Response) (start_time : nat)
| NonStream (c : Completion).

Variable self : Provider.

Definition model_supported (m : string) : bool :=
  match assoc m (models (config self)) with
  | Some _ => true
  | None => false
  end.

Definition validate_model (request : ChatRequest) : res unit :=
  if negb (model_supported (model request)) then
    Raise (Exc ProviderError
             ("Model " ++ model request ++ " is not supported by "
              ++ config_name (config self)))
  else Ok tt.

(** One pass through the body of the retry loop of [chat]. *)
Definition chat_attempt (request : ChatRequest) (w : World)
    : control ChatResult * World :=
  let (start_time, w1) := time_time w in
  let w2 := count_send w1 in
  let attempt :=
    try_except_all
      (response <- generate_client self (sends w1) request ;;
       if is_stream request then
         Ok (StreamGenerator request response start_time)
       else
         c <- handle_response_non_stream self request response start_time ;;
         Ok (NonStream c))
      (fun e => Raise (Exc ProviderError (exn_str e))) in
  match attempt with
  | Ok r => (Return r, w2)
  | Raise e => (Throw e, w2)
  end.

Definition chat (raw : Raw) (w : World) : res ChatResult * World :=
  match try_except (validate_request self raw) ValidationError
          (fun e => Raise (Exc ProviderError (exn_str e))) with
  | Raise e => (Raise e, w)
  | Ok request =>
      match validate_model request with
      | Raise e => (Raise e, w)
      | Ok _ =>
          match retries request with
          | None =>
              (Raise (Exc TypeError
                        "unsupported operand type(s) for +: 'NoneType' and 'int'"),
               w)
          | Some n =>
              for_range (Z.to_nat (n + 1))
                (chat_attempt request)
                (fun w' => (Raise (Exc ProviderError "Too many requests"), w'))
                w
          end
      end
  end.

Definition in_range (token_count : Z) (cost_range : CostRange float) : bool :=
  (token_count >=? range_min cost_range)
  && match range_max cost_range with
     | None => true
     | Some hi => token_count <=? hi
     end.

(** The [for cost_range in token_cost] loop of [calculate_cost]; [None] when
    the loop ends without returning. *)
Fixpoint first_band (token_count : Z) (token_cost : list (CostRange float))
    : option (CostRange float) :=
  match token_cost with
  | [] => None
  | cost_range :: rest =>
      if in_range token_count cost_range then Some cost_range
      else first_band token_count rest
  end.

Definition calculate_cost (token_count : Z) (token_cost : TokenCost float)
    : CostValue float :=
  match token_cost with
  | Banded bands =>
      match first_band token_count bands with
      | Some cost_range => CostFloat (fmul (cost cost_range) token_count)
      | None => CostInt 0
      end
  | Flat rate => CostFloat (fmul rate token_count)
  end.

(** *** [join_chunks] *)

(** [chunk.get("choices")[0].get("delta")] *)
Definition chunk_delta (chunk : pyval) : res pyval :=
  choices <- get chunk "choices" ;;
  choice <- item0 choices ;;
  get choice "delta".

(** One pass of the loop that files each chunk's leading tool-call fragment
    under its index; a [TypeError] skips the chunk. *)
Definition group_tool_call (tool_calls : list (key * list pyval)) (chunk : pyval)
    : res (list (key * list pyval)) :=
  try_except
    (delta <- chunk_delta chunk ;;
     calls <- get delta "tool_calls" ;;
     data <- item0 calls ;;
     idx <- item data "index" ;;
     k <- to_key idx ;;
     Ok (setdefault_append k data tool_calls))
    TypeError
    (fun _ => Ok tool_calls).

Fixpoint group_tool_calls (chunks : list pyval) (tool_calls : list (key * list pyval))
    : res (list (key * list pyval)) :=
  match chunks with
  | [] => Ok tool_calls
  | chunk :: rest =>
      tool_calls' <- group_tool_call tool_calls chunk ;;
      group_tool_calls rest tool_calls'
  end.

(** [t[0].get("id")] *)
Definition tool_call_id (t : list pyval) : res pyval :=
  t0 <- item0 (PList t) ;;
  get t0 "id".

(** [t[0].get("function").get("name")] *)
Definition tool_call_name (t : list pyval) : res pyval :=
  t0 <- item0 (PList t) ;;
  f <- get t0 "function" ;;
  get f "name".

(** [t[0].get("function").get("type", "function")] *)
Definition tool_call_type (t : list pyval) : res pyval :=
  t0 <- item0 (PList t) ;;
  f <- get t0 "function" ;;
  get_default f "type" (PStr "function").

(** The join, over the fragments of one index, of each fragment's
    [function.arguments], both looked up with [get] and an empty default. *)
Definition tool_call_arguments (t : list pyval) : res string :=
  parts <- mapM (fun chunk =>
                   f <- get_default chunk "function" (PDict []) ;;
                   get_default f "arguments" (PStr EmptyString)) t ;;
  str_join parts.

Definition parse_tool_call (x : string * pyval * pyval * pyval)
    : res ChatCompletionMessageToolCall :=
  let '(tool_call_arguments, tool_call_name, tool_call_type, tool_call_id) := x in
  f <- mk_Function (PStr tool_call_arguments) tool_call_name ;;
  mk_ChatCompletionMessageToolCall tool_call_id f tool_call_type.

(** The [ChatCompletion] that every branch builds from the last chunk. *)
Definition completion_of_last (chunks : list pyval) (fr : string)
    (msg : ChatCompletionMessage) : res ChatCompletion :=
  last <- last_item chunks ;;
  i <- get last "id" ;;
  c <- get last "created" ;;
  m <- get last "model" ;;
  mk_ChatCompletion i c m fr msg.

Definition join_tool_calls (chunks : list pyval)
    : res (option (ChatCompletion * output_string)) :=
  tool_calls <- group_tool_calls chunks [] ;;
  let values := map snd tool_calls in
  tool_call_ids <- mapM tool_call_id values ;;
  tool_call_names <- mapM tool_call_name values ;;
  tool_call_types <- mapM tool_call_type values ;;
  tool_call_arguments_all <- mapM tool_call_arguments values ;;
  tool_calls_parsed <-
    mapM parse_tool_call
      (zip4 tool_call_arguments_all tool_call_names tool_call_types tool_call_ids) ;;
  completion <-
    completion_of_last chunks "tool_calls"
      {| message_content := None;
         message_role := "assistant";
         message_function_call := None;
         message_tool_calls := Some tool_calls_parsed |} ;;
  Ok (Some (completion,
            OutStrOfList (tool_call_names ++ map PStr tool_call_arguments_all)%list)).

(** The filter and the value of the list comprehension of the
    [function_call] branch, for one chunk. *)
Definition chunk_function_call (chunk : pyval) : res (option pyval) :=
  choices <- get chunk "choices" ;;
  if truthy choices then
    choice <- item0 choices ;;
    delta <- get choice "delta" ;;
    if truthy delta then
      fc <- get delta "function_call" ;;
      if truthy fc then Ok (Some fc) else Ok None
    else Ok None
  else Ok None.

Fixpoint somes {A} (l : list (option A)) : list A :=
  match l with
  | [] => []
  | Some a :: l' => a :: somes l'
  | None :: l' => somes l'
  end.

Fixpoint concat_arguments (acc : string) (function_calls : list pyval) : res string :=
  match function_calls with
  | [] => Ok acc
  | chunk :: rest =>
      a <- get chunk "arguments" ;;
      acc' <- str_iadd acc a ;;
      concat_arguments acc' rest
  end.

Definition join_function_call (chunks : list pyval)
    : res (option (ChatCompletion * output_string)) :=
  selected <- mapM chunk_function_call (removelast chunks) ;;
  let function_calls := somes selected in
  first <- item0 (PList function_calls) ;;
  function_call_name <- get first "name" ;;
  function_call_arguments <- concat_arguments EmptyString function_calls ;;
  fc <- mk_FunctionCall (PStr function_call_arguments) function_call_name ;;
  completion <-
    completion_of_last chunks "function_call"
      {| message_content := None;
         message_role := "assistant";
         message_function_call := Some fc;
         message_tool_calls := None |} ;;
  Ok (Some (completion, OutStr function_call_arguments)).

(** [self.__class__.__name__ in ("OpenAIProvider", "AzureProvider")] *)
Definition start_index : nat :=
  if String.eqb (class_name self) "OpenAIProvider"
     || String.eqb (class_name self) "AzureProvider"
  then 1%nat else 0%nat.

Definition join_stop (chunks : list pyval)
    : res (option (ChatCompletion * output_string)) :=
  contents <- mapM (fun chunk =>
                      delta <- chunk_delta chunk ;;
                      get delta "content") (skipn start_index chunks) ;;
  stop_content <- str_join (filter truthy contents) ;;
  completion <-
    completion_of_last chunks "stop"
      {| message_content := Some stop_content;
         message_role := "assistant";
         message_function_call := None;
         message_tool_calls := None |} ;;
  Ok (Some (completion, OutStr stop_content)).

(** [chunks[-1].get("choices")[0].get("finish_reason")] *)
Definition terminal_finish_reason (chunks : list pyval) : res pyval :=
  last <- last_item chunks ;;
  choices <- get last "choices" ;;
  choice <- item0 choices ;;
  get choice "finish_reason".

(** [join_chunks]; [Ok None] is the [None] that Python returns when the
    function body ends without reaching a [return]. *)
Definition join_chunks (chunks : list pyval)
    : res (option (ChatCompletion * output_string)) :=
  finish_reason <- terminal_finish_reason chunks ;;
  if eq_str finish_reason "tool_calls" then join_tool_calls chunks
  else if eq_str finish_reason "function_call" then join_function_call chunks
  else if eq_str finish_reason "stop" || eq_str finish_reason "length" then
    join_stop chunks
  else Ok None.

(** The statements of [handle_response_stream] that run once the upstream
    generator is exhausted, up to the unpacking of what [join_chunks]
    returned: the reported model is the first truthy one, and [next] on an
    exhausted generator expression ends the enclosing generator with a
    [RuntimeError]. *)
Fixpoint first_model (chunks : list pyval) : res pyval :=
  match chunks with
  | [] => Raise (Exc RuntimeError "generator raised StopIteration")
  | chunk :: rest =>
      m <- get chunk "model" ;;
      if truthy m then item chunk "model" else first_model rest
  end.

Definition handle_response_stream_join (chunks : list pyval)
    : res (pyval * ChatCompletion * output_string) :=
  model <- first_model chunks ;;
  joined <- join_chunks chunks ;;
  match joined with
  | Some (response, output_string) => Ok (model, response, output_string)
  | None => Raise (Exc TypeError "cannot unpack non-iterable NoneType object")
  end.

(** *** [input_to_string] and [output_to_string] *)

(** [for x in v]: a list gives its items, a dictionary its keys, a string
    its characters; nothing else can be iterated. *)
Fixpoint chars (s : string) : list pyval :=
  match s with
  | EmptyString => []
  | String c s' => PStr (String c EmptyString) :: chars s'
  end.

Definition iterate (v : pyval) : res (list pyval) :=
  match v with
  | PList l => Ok l
  | PDict d => Ok (map (fun e => PStr (fst e)) d)
  | PStr s => Ok (chars s)
  | _ => Raise (Exc TypeError ("'" ++ type_name v ++ "' object is not iterable"))
  end.

(** What one item of a list-valued content appends to [result]: the text
    of a text item, the URL of an image item, nothing for any other type. *)
Definition content_item (item : pyval) : res (list pyval) :=
  ty <- get item "type" ;;
  if eq_str ty "text" then
    text <- get_default item "text" (PStr EmptyString) ;;
    Ok [text]
  else
    ty' <- get item "type" ;;
    if eq_str ty' "image_url" then
      image <- get_default item "image_url" (PDict []) ;;
      url <- get_default image "url" (PStr EmptyString) ;;
      Ok [url]
    else Ok [].

(** [result.extend] over a loop body that appends. *)
Fixpoint flat_mapM {A B} (f : A -> res (list B)) (l : list A) : res (list B) :=
  match l with
  | [] => Ok []
  | x :: l' =>
      ys <- f x ;;
      rest <- flat_mapM f l' ;;
      Ok (ys ++ rest)%list
  end.

(** What one message appends to [result]. *)
Definition message_texts (message : pyval) : res (list pyval) :=
  c <- get message "content" ;;
  match c with
  | PNone => Ok []
  | _ =>
      content <- item message "content" ;;
      match content with
      | PStr _ => Ok [content]
      | PList items =>
          r <- get message "role" ;;
          if eq_str r "user" then flat_mapM content_item items else Ok []
      | _ => Ok []
      end
  end.

Definition input_to_string (input : pyval) : res string :=
  match input with
  | PStr s => Ok s
  | _ =>
      messages <- iterate input ;;
      result <- flat_mapM message_texts messages ;;
      str_join result
  end.

(** [output_to_string]; [Ok None] is Python's [None]: a null content, or
    the end of the function body for any other [finish_reason]. *)
Definition output_to_string (output : ChatCompletion) : res (option string) :=
  match completion_choices output with
  | [] => Raise (Exc IndexError "list index out of range")
  | choice :: _ =>
      let fr := completion_finish_reason choice in
      if String.eqb fr "stop" then Ok (message_content (message choice))
      else if String.eqb fr "tool_calls" then
        match message_tool_calls (message choice) with
        | None => Raise (Exc TypeError "'NoneType' object is not subscriptable")
        | Some [] => Raise (Exc IndexError "list index out of range")
        | Some (call :: _) => Ok (Some (function_arguments (call_function call)))
        end
      else if String.eqb fr "function_call" then
        match message_function_call (message choice) with
        | None => Raise (Exc AttributeError
                           "'NoneType' object has no attribute 'arguments'")
        | Some fc => Ok (Some (call_arguments fc))
        end
      else Ok None
  end.

(** *** The model and the deployment that a response reports *)

(** [model.startswith(prefix)] *)
Definition startswith (v : pyval) (p : string) : res bool :=
  match v with
  | PStr s => Ok (String.prefix p s)
  | _ => Raise (Exc AttributeError
                  ("'" ++ type_name v ++ "' object has no attribute 'startswith'"))
  end.

(** [model and model.startswith(request.model)], as the condition of a
    conditional expression. *)
Definition names_deployment (model : pyval) (request_model : string) : res bool :=
  if truthy model then startswith model request_model else Ok false.

(** The entry [model] of the dictionaries that [handle_response_stream]
    builds. *)
Definition reported_model (model : pyval) (request_model : string) : res pyval :=
  b <- names_deployment model request_model ;;
  if b then Ok (PStr request_model)
  else Ok (if truthy model then model else PStr request_model).

(** The entry [deployment] of the same dictionaries. *)
Definition reported_deployment (model : pyval) (request_model : string) : res pyval :=
  b <- names_deployment model request_model ;;
  if b then Ok model
  else Ok (if negb (eq_str model request_model) then PStr request_model else PNone).

End Core.

Arguments class_name {float Raw Response Completion} _.
Arguments config {float Raw Response Completion} _.
Arguments validate_request {float Raw Response Completion} _ _.
Arguments generate_client {float Raw Response Completion} _ _ _.
Arguments handle_response_non_stream {float Raw Response Completion} _ _ _ _.
Arguments StreamGenerator {Response Completion} _ _ _.
Arguments NonStream {Response Completion} _.
Arguments validate_model {float Raw Response Completion} _ _.
Arguments model_supported {float Raw Response Completion} _ _.
Arguments chat_attempt {float Raw Response Completion} _ _ _.
Arguments chat {float Raw Response Completion} _ _ _.
Arguments in_range {float} _ _.
Arguments first_band {float} _ _.
Arguments calculate_cost {float} _ _ _.
Arguments start_index {float Raw Response Completion} _.
Arguments join_stop {float Raw Response Completion} _ _.
Arguments join_chunks {float Raw Response Completion} _ _.
Arguments handle_response_stream_join {float Raw Response Completion} _ _.

End ProviderCore.

(** ** Stream normalizers *)

(** What the normalizers take from the interpreter and its libraries: the
    identifiers that [uuid.uuid4()] draws and the seconds that
    [int(time.time())] reads, each by the number of earlier calls; the UTF-8
    decoder of [bytes.decode]; [json.loads] and [json.dumps]. *)
Record Runtime := {
  uuid4 : nat -> string;
  clock : nat -> Z;
  decode_utf8 : string -> res string;
  json_loads : string -> res pyval;
  json_dumps : pyval -> string
}.

(** How often identifiers were drawn and the clock was read. *)
Record Sys := { uuid_calls : nat; clock_calls : nat }.

(** A generator body: the values yielded so far, how the body ended, and the
    state it left. What was yielded before an exception stays yielded. *)
Definition Gen (A : Type) : Type := Sys -> list pyval * res A * Sys.

Definition gen_ret {A} (a : A) : Gen A := fun s => ([], Ok a, s).

(** The values a run yielded, and how it ended. *)
Definition yielded {A} (r : list pyval * res A * Sys) : list pyval := fst (fst r).

Definition outcome {A} (r : list pyval * res A * Sys) : res A := snd (fst r).

Definition gen_bind {A B} (m : Gen A) (k : A -> Gen B) : Gen B :=
  fun s =>
    match m s with
    | (out, Ok a, s') =>
        match k a s' with
        | (out', r, s'') => ((out ++ out')%list, r, s'')
        end
    | (out, Raise e, s') => (out, Raise e, s')
    end.

Definition gen_lift {A} (r : res A) : Gen A := fun s => ([], r, s).

Definition yield (v : pyval) : Gen unit := fun s => ([v], Ok tt, s).

(** [try: m except: pass] *)
Definition gen_try_pass (m : Gen unit) : Gen unit :=
  fun s =>
    match m s with
    | (out, Raise _, s') => (out, Ok tt, s')
    | r => r
    end.

Notation "x <~ m ;; k" := (gen_bind m (fun x => k))
  (at level 61, m at next level, right associativity).

(** [s.startswith(prefixes)] for a tuple of prefixes. *)
Definition startswith_any (s : string) (prefixes : list string) : bool :=
  existsb (fun p => String.prefix p s) prefixes.

(** [s.split(sep)] for a non-empty separator: [skip] counts the characters
    of a separator just matched that are still to be passed over, [cur] is
    the piece being collected. *)
Fixpoint split_from (sep s : string) (skip : nat) (cur : string) : list string :=
  match s with
  | EmptyString => [cur]
  | String c s' =>
      match skip with
      | S k => split_from sep s' k cur
      | O =>
          if String.prefix sep s then
            cur :: split_from sep s' (String.length sep - 1) EmptyString
          else split_from sep s' 0 (cur ++ String c EmptyString)
      end
  end.

Definition split (s sep : string) : list string := split_from sep s 0 EmptyString.

(** [l[1]] *)
Definition item1 (l : list string) : res string :=
  match nth_error l 1 with
  | Some x => Ok x
  | None => Raise (Exc IndexError "list index out of range")
  end.

Fixpoint char_in (c : ascii) (chars : string) : bool :=
  match chars with
  | EmptyString => false
  | String c' rest => Ascii.eqb c c' || char_in c rest
  end.

(** [s.lstrip(chars)] *)
Fixpoint lstrip (s chars : string) : string :=
  match s with
  | EmptyString => EmptyString
  | String c s' => if char_in c chars then lstrip s' chars else s
  end.

Definition newline : string := String (ascii_of_nat 10) EmptyString.

Section Normalizers.

Variable rt : Runtime.

(** [str(uuid.uuid4())] *)
Definition uuid_uuid4 : Gen string :=
  fun s =>
    ([], Ok (uuid4 rt (uuid_calls s)),
     {| uuid_calls := S (uuid_calls s); clock_calls := clock_calls s |}).

(** [int(time.time())] *)
Definition time_now : Gen Z :=
  fun s =>
    ([], Ok (clock rt (clock_calls s)),
     {| uuid_calls := uuid_calls s; clock_calls := S (clock_calls s) |}).

(** The request whose model the chunks report ([kwargs.get("request")]). *)
Variable request : ChatRequest.

(** A chunk with one choice, stamped with the request's model. *)
Definition one_choice_chunk (i : string) (d : ChoiceDelta) (fr : option string)
    (idx : Z) (t : Z) : ChatCompletionChunk :=
  {| chunk_id := i;
     choices := [{| delta := d; finish_reason := fr; choice_index := idx |}];
     created := t;
     chunk_model := model request;
     object := "chat.completion.chunk" |}.

(** The closing chunk: [ChoiceDelta()], the given [finish_reason],
    index 0. *)
Definition closing_chunk (fr : string) (i : string) (t : Z) : ChatCompletionChunk :=
  one_choice_chunk i empty_delta (Some fr) 0 t.

Definition yield_closing (fr : string) : Gen unit :=
  i <~ uuid_uuid4 ;;
  t <~ time_now ;;
  yield (model_dump (closing_chunk fr i t)).

(** A text chunk: [ChoiceDelta(content=text, role="assistant")] with
    [finish_reason=None]. *)
Definition text_chunk (c : option string) (i : string) (t : Z) : ChatCompletionChunk :=
  one_choice_chunk i
    {| content := c; function_call := None;
       role := Some "assistant"; tool_calls := None |}
    None 0 t.

(** [content] is validated when the delta is built, before the clock is
    read. *)
Definition yield_text (text : res pyval) : Gen unit :=
  i <~ uuid_uuid4 ;;
  v <~ gen_lift text ;;
  c <~ gen_lift (validate_opt_str "content" v) ;;
  t <~ time_now ;;
  yield (model_dump (text_chunk c i t)).

End Normalizers.

Module AnthropicProvider.

Section Anthropic.

Variable rt : Runtime.
Variable request : ChatRequest.

Definition stop_markers : list string :=
  ["event: content_block_stop"; "event: message_stop"].

Definition delta_marker : string :=
  "event: content_block_delta" ++ newline ++ "data: ".

(** The body of the loop of [parse_response] for one piece of the response
    body. *)
Definition parse_piece (piece : string) : Gen unit :=
  chunk <~ gen_lift (decode_utf8 rt piece) ;;
  if startswith_any chunk stop_markers then
    yield_closing rt request "stop"
  else
    gen_try_pass
      (data <~ gen_lift (part <- item1 (split chunk delta_marker) ;;
                         json_loads rt part) ;;
       yield_text rt request (d <- get data "delta" ;; get d "text")).

Fixpoint parse_response (response : list string) : Gen unit :=
  match response with
  | [] => gen_ret tt
  | piece :: rest =>
      _ <~ parse_piece piece ;;
      parse_response rest
  end.

End Anthropic.

End AnthropicProvider.

Module VertexAIProvider.

Section VertexAI.

Variable rt : Runtime.
Variable request : ChatRequest.

Definition is_none (v : pyval) : bool :=
  match v with
  | PNone => true
  | _ => false
  end.

(** [chunk["parts"][0]] *)
Definition first_part (chunk : pyval) : res pyval :=
  parts <- item chunk "parts" ;;
  item0 parts.

(** The test of the first branch: the key is there and its value is not
    [None]. *)
Definition is_function_call (chunk : pyval) : res bool :=
  p <- first_part chunk ;;
  has <- contains_key p "functionCall" ;;
  if has then
    p' <- first_part chunk ;;
    fc <- item p' "functionCall" ;;
    Ok (negb (is_none fc))
  else Ok false.

(** The chunk that opens a function call: a fixed identifier and a delta
    that carries the assistant role only. *)
Definition first_chunk (t : Z) : ChatCompletionChunk :=
  one_choice_chunk request "chatcmpl-9woLM1b1qGErhTbXA3UBQf2FhUAho"
    {| content := None; function_call := None;
       role := Some "assistant"; tool_calls := None |}
    None 0 t.

Definition yield_first_chunk : Gen unit :=
  t <~ time_now rt ;;
  yield (model_dump (first_chunk t)).

(** [functioncall["functionCall"][k]] *)
Definition function_call_field (functioncall : pyval) (k : string) : res pyval :=
  fc <- item functioncall "functionCall" ;;
  item fc k.

(** The chunk that announces the call: a call identifier made of the first
    29 characters of a fresh identifier, the name, empty arguments. *)
Definition name_chunk (index : Z) (i call : string) (n : option string) (t : Z)
    : ChatCompletionChunk :=
  one_choice_chunk request i
    {| content := None; function_call := None;
       role := Some "assistant";
       tool_calls :=
         Some [{| tc_index := index;
                  tc_id := Some ("call_" ++ substring 0 29 call);
                  tc_function :=
                    Some {| fn_arguments := Some EmptyString;
                            fn_name := n;
                            fn_type := Some "function" |};
                  tc_type := None |}] |}
    None index t.

Definition yield_name_chunk (index : Z) (functioncall : pyval) : Gen unit :=
  i <~ uuid_uuid4 rt ;;
  call <~ uuid_uuid4 rt ;;
  n <~ gen_lift (v <- function_call_field functioncall "name" ;;
                 validate_opt_str "name" v) ;;
  t <~ time_now rt ;;
  yield (model_dump (name_chunk index i call n t)).

(** The chunk that carries the arguments, serialized in one piece. *)
Definition args_chunk (index : Z) (i : string) (arguments : string) (t : Z)
    : ChatCompletionChunk :=
  one_choice_chunk request i
    {| content := None; function_call := None;
       role := None;
       tool_calls :=
         Some [{| tc_index := index;
                  tc_id := None;
                  tc_function :=
                    Some {| fn_arguments := Some arguments;
                            fn_name := None;
                            fn_type := None |};
                  tc_type := None |}] |}
    None index t.

Definition yield_args_chunk (index : Z) (functioncall : pyval) : Gen unit :=
  i <~ uuid_uuid4 rt ;;
  a <~ gen_lift (function_call_field functioncall "args") ;;
  t <~ time_now rt ;;
  yield (model_dump (args_chunk index i (json_dumps rt a) t)).

(** [for index, functioncall in enumerate(parts)] *)
Fixpoint yield_parts (index : Z) (parts : list pyval) : Gen unit :=
  match parts with
  | [] => gen_ret tt
  | functioncall :: rest =>
      _ <~ yield_name_chunk index functioncall ;;
      _ <~ yield_args_chunk index functioncall ;;
      yield_parts (index + 1) rest
  end.

(** The parts to enumerate; the tests before the loop leave a list here. *)
Definition parts_list (chunk : pyval) : res (list pyval) :=
  parts <- item chunk "parts" ;;
  match parts with
  | PList l => Ok l
  | _ => Raise (Exc TypeError "parts is not a list")
  end.

(** [chunk.get("parts")[0].get("text")] *)
Definition part_text (chunk : pyval) : res pyval :=
  parts <- get chunk "parts" ;;
  p <- item0 parts ;;
  get p "text".

(** The content of the first candidate of the decoded event. *)
Definition event_content (piece : string) : res pyval :=
  text <- decode_utf8 rt piece ;;
  event <- json_loads rt (lstrip text "data: ") ;;
  candidates <- get event "candidates" ;;
  candidate <- item0 candidates ;;
  get candidate "content".

(** The body of the loop of [parse_response] for one upstream event. *)
Definition parse_piece (piece : string) : Gen unit :=
  chunk <~ gen_lift (event_content piece) ;;
  is_call <~ gen_lift (is_function_call chunk) ;;
  if is_call then
    _ <~ yield_first_chunk ;;
    parts <~ gen_lift (parts_list chunk) ;;
    _ <~ yield_parts 0 parts ;;
    yield_closing rt request "tool_calls"
  else
    text <~ gen_lift (part_text chunk) ;;
    if truthy text then
      _ <~ yield_text rt request (part_text chunk) ;;
      yield_closing rt request "stop"
    else gen_ret tt.

Fixpoint parse_response (response : list string) : Gen unit :=
  match response with
  | [] => gen_ret tt
  | piece :: rest =>
      _ <~ parse_piece piece ;;
      parse_response rest
  end.

(** *** [convert_openai_to_vertexai] *)

(** How an f-string renders a value that is not a string ([str] of it). *)
Variable py_str : pyval -> string.

Definition format_value (v : pyval) : string :=
  match v with
  | PStr s => s
  | _ => py_str v
  end.

Definition default_instruction : string := "You are a helpful assistant".

(** The dictionary that is returned: the system instruction, the contents,
    the tools as they were passed, and the fixed tool configuration. *)
Definition vertexai_format (instruction : pyval) (contents : list pyval)
    (tool_payload : pyval) : pyval :=
  PDict [("system_instruction", PDict [("parts", PDict [("text", instruction)])]);
         ("contents", PList contents);
         ("tools", tool_payload);
         ("tool_config",
          PDict [("function_calling_config", PDict [("mode", PStr "AUTO")])])].

Definition text_content (role : string) (text : pyval) : pyval :=
  PDict [("role", PStr role); ("parts", PList [PDict [("text", text)]])].

(** [isinstance(msg, dict) and "role" in msg and "content" in msg] *)
Definition well_keyed (msg : pyval) : bool :=
  match msg with
  | PDict d =>
      match assoc "role" d, assoc "content" d with
      | Some _, Some _ => true
      | _, _ => false
      end
  | _ => false
  end.

(** The first tool call of an assistant message, as a function-call part. *)
Definition function_call_content (message : pyval) : res pyval :=
  calls <- item message "tool_calls" ;;
  tool_call <- item0 calls ;;
  f <- item tool_call "function" ;;
  name <- item f "name" ;;
  f' <- item tool_call "function" ;;
  arguments <- item f' "arguments" ;;
  args <- match arguments with
          | PStr a => json_loads rt a
          | _ => Raise (Exc TypeError
                          ("the JSON object must be str, bytes or bytearray, not "
                           ++ type_name arguments))
          end ;;
  Ok (PDict [("role", PStr "model");
             ("parts",
              PList [PDict [("functionCall",
                             PDict [("name", name); ("args", args)])]])]).

(** The note that a tool message adds to the system instruction. *)
Definition tool_note (function_name response : pyval) : string :=
  newline ++ "You have called " ++ format_value function_name
  ++ " and got the following response: " ++ format_value response ++ ".".

(** One pass of the loop over the messages: the system instruction and the
    contents before and after. A system instruction that a system message
    set to a list is extended in place, character by character, by [+=]. *)
Definition convert_message (state : pyval * list pyval) (message : pyval)
    : res (pyval * list pyval) :=
  let (instruction, contents) := state in
  r <- item message "role" ;;
  if eq_str r "system" then
    c <- item message "content" ;;
    Ok (if truthy c then c else PStr default_instruction, contents)
  else
    r <- item message "role" ;;
    if eq_str r "user" then
      c <- item message "content" ;;
      Ok (instruction, (contents ++ [text_content "user" c])%list)
    else
      r <- item message "role" ;;
      if eq_str r "assistant" then
        c <- item message "content" ;;
        has <- (if is_none c then contains_key message "tool_calls" else Ok false) ;;
        if has then
          part <- function_call_content message ;;
          Ok (instruction, (contents ++ [part])%list)
        else
          c' <- item message "content" ;;
          Ok (instruction, (contents ++ [text_content "model" c'])%list)
      else
        r <- item message "role" ;;
        if eq_str r "tool" then
          function_name <- item message "name" ;;
          response <- item message "content" ;;
          match instruction with
          | PStr text =>
              Ok (PStr (text ++ tool_note function_name response), contents)
          | PList l =>
              Ok (PList (l ++ ProviderCore.chars
                                (tool_note function_name response))%list,
                  contents)
          | _ => Raise (Exc TypeError "unsupported operand type(s) for +=")
          end
        else Raise (Exc ValueError "Invalid role")
  .

Fixpoint convert_messages (state : pyval * list pyval) (messages : list pyval)
    : res (pyval * list pyval) :=
  match messages with
  | [] => Ok state
  | message :: rest =>
      state' <- convert_message state message ;;
      convert_messages state' rest
  end.

Definition convert_openai_to_vertexai (input_data tool_payload : pyval) : res pyval :=
  match input_data with
  | PStr _ =>
      Ok (vertexai_format (PStr default_instruction)
            [text_content "user" input_data] tool_payload)
  | PList messages =>
      if forallb well_keyed messages then
        state <- convert_messages (PStr default_instruction, []) messages ;;
        Ok (vertexai_format (fst state) (snd state) tool_payload)
      else Raise (Exc ValueError
                    "Input must be a list of dictionaries, each containing 'role' and 'content' keys.")
  | _ => Raise (Exc ValueError
                  "Input must be a list of dictionaries, each containing 'role' and 'content' keys.")
  end.

End VertexAI.

End VertexAIProvider.

(** ** Example data *)

Module Examples.

Import ProviderCore.

(** Rates as exact rationals, a rate times a count as their product. *)
Definition rate_times (rate : Q) (token_count : Z) : Q :=
  Qmult rate (inject_Z token_count).

Definition test_config : Config Q :=
  {| config_id := "mock_provider";
     config_name := "mock_provider";
     models := [("test_model",
                 {| input_token_cost := Flat (1 # 100)%Q;
                    output_token_cost := Flat (2 # 100)%Q |})] |}.

(** A provider in the manner of the unit tests' [MockProvider]:
    [validate_request] hands the request back; here every send fails. *)
Definition failing_provider : Provider Q ChatRequest unit unit :=
  {| class_name := "MockProvider";
     config := test_config;
     validate_request := fun request => Ok request;
     generate_client := fun _ _ => Raise (Exc OtherException "connection refused");
     handle_response_non_stream := fun _ _ _ => Ok tt |}.

(** A provider whose [validate_request] rejects every request. *)
Definition strict_provider : Provider Q ChatRequest unit unit :=
  {| class_name := "MockProvider";
     config := test_config;
     validate_request :=
       fun _ => Raise (Exc ValidationError "temperature: out of range");
     generate_client := fun _ _ => Ok tt;
     handle_response_non_stream := fun _ _ _ => Ok tt |}.

Definition hello_request (m : string) (r : Z) : ChatRequest :=
  {| chat_input := PStr "Hello?";
     model := m;
     is_stream := false;
     retries := Some r;
     parameters := PDict [] |}.

Definition fresh_world : World := {| sends := 0; clock_reads := 0 |}.

(** A tiered price: up to 1000 tokens, and above. *)
Definition tiered : list (CostRange Q) :=
  [ {| range_min := 0; range_max := Some 1000; cost := (3 # 1000)%Q |};
    {| range_min := 1001; range_max := None; cost := (1 # 1000)%Q |} ].

(** Bands that leave the counts above 1000 uncovered. *)
Definition capped : list (CostRange Q) :=
  [ {| range_min := 0; range_max := Some 1000; cost := (3 # 1000)%Q |} ].

(** The double quote, and a text between double quotes. *)
Definition dq : string := String (ascii_of_nat 34) EmptyString.

Definition quoted (s : string) : string := dq ++ s ++ dq.

(** A provider of the class that [join_chunks] treats as OpenAI-style. *)
Definition openai_provider : Provider Q ChatRequest unit unit :=
  {| class_name := "OpenAIProvider";
     config := test_config;
     validate_request := fun request => Ok request;
     generate_client := fun _ _ => Ok tt;
     handle_response_non_stream := fun _ _ _ => Ok tt |}.

Definition chunk_of (d : ChoiceDelta) (fr : option string) : ChatCompletionChunk :=
  {| chunk_id := "chatcmpl-1";
     choices := [{| delta := d; finish_reason := fr; choice_index := 0 |}];
     created := 1700000000;
     chunk_model := "test_model";
     object := "chat.completion.chunk" |}.

Definition example_text (text : option string) : ChatCompletionChunk :=
  chunk_of {| content := text; function_call := None;
              role := Some "assistant"; tool_calls := None |} None.

Definition example_closing (fr : string) : ChatCompletionChunk :=
  chunk_of empty_delta (Some fr).

(** A chunk with one tool-call fragment. *)
Definition fragment_chunk (i : Z) (id name : option string) (arguments : string)
    : ChatCompletionChunk :=
  chunk_of
    {| content := None; function_call := None; role := None;
       tool_calls :=
         Some [{| tc_index := i;
                  tc_id := id;
                  tc_function := Some {| fn_arguments := Some arguments;
                                         fn_name := name;
                                         fn_type := None |};
                  tc_type := None |}] |}
    None.

(** Two tool calls whose fragments alternate: index 0 carries the two halves
    of an object with the key a, index 1 those of one with the key b. *)
Definition interleaved : list ChatCompletionChunk :=
  [ fragment_chunk 0 (Some "call_0") (Some "f") ("{" ++ quoted "a" ++ ":");
    fragment_chunk 1 (Some "call_1") (Some "g") ("{" ++ quoted "b" ++ ":");
    fragment_chunk 0 None None "1}";
    fragment_chunk 1 None None "2}" ].

(** A role-framing chunk followed by two text deltas. *)
Definition greeting : list ChatCompletionChunk :=
  [ example_text None; example_text (Some "Hi "); example_text (Some "there!") ].

(** A stream that ends with a [finish_reason] that [join_chunks] does not
    know. *)
Definition filtered : list pyval :=
  map model_dump [ example_text (Some "Hi"); example_closing "content_filter" ].

(** The documents of the examples, as [json.loads] reads them. *)
Definition call_document : string :=
  "{" ++ quoted "candidates" ++ ": [{" ++ quoted "content" ++ ": {"
  ++ quoted "parts" ++ ": [{" ++ quoted "functionCall" ++ ": {"
  ++ quoted "name" ++ ": " ++ quoted "get_weather" ++ ", "
  ++ quoted "args" ++ ": {" ++ quoted "city" ++ ": " ++ quoted "Paris"
  ++ "}}}]}}]}".

Definition call_event : pyval :=
  PDict [("candidates",
          PList [PDict [("content",
                         PDict [("parts",
                                 PList [PDict [("functionCall",
                                                PDict [("name", PStr "get_weather");
                                                       ("args", PDict [("city", PStr "Paris")])])]])])]])].

Definition text_document (text : string) : string :=
  "{" ++ quoted "candidates" ++ ": [{" ++ quoted "content" ++ ": {"
  ++ quoted "parts" ++ ": [{" ++ quoted "text" ++ ": " ++ quoted text
  ++ "}]}}]}".

Definition text_event (text : string) : pyval :=
  PDict [("candidates",
          PList [PDict [("content",
                         PDict [("parts",
                                 PList [PDict [("text", PStr text)]])])]])].

Definition delta_document (text : string) : string :=
  "{" ++ quoted "type" ++ ": " ++ quoted "content_block_delta" ++ ", "
  ++ quoted "delta" ++ ": {" ++ quoted "text" ++ ": " ++ quoted text ++ "}}".

Definition delta_event (text : string) : pyval :=
  PDict [("type", PStr "content_block_delta");
         ("delta", PDict [("text", PStr text)])].

Definition documents : list (string * pyval) :=
  [ (call_document, call_event);
    (text_document "Hello", text_event "Hello");
    (text_document EmptyString, text_event EmptyString);
    (delta_document "Hello", delta_event "Hello") ].

(** [json.dumps], for values whose strings need no escaping. *)
Fixpoint dumps (v : pyval) : string :=
  match v with
  | PNone => "null"
  | PInt z => NilZero.string_of_int (Z.to_int z)
  | PStr s => quoted s
  | PList l =>
      "[" ++ String.concat ", " (map dumps l) ++ "]"
  | PDict d =>
      "{" ++ String.concat ", "
               (map (fun e => quoted (fst e) ++ ": " ++ dumps (snd e)) d)
      ++ "}"
  end.

(** A runtime for the examples: numbered identifiers, a clock that ticks
    once per reading, bytes that are their own text, and a [json.loads] that
    knows the documents above and rejects everything else. *)
Definition test_runtime : Runtime :=
  {| uuid4 := fun n =>
       "00000000-0000-4000-8000-00000000000" ++ NilZero.string_of_uint (Nat.to_uint n);
     clock := fun n => 1700000000 + Z.of_nat n;
     decode_utf8 := fun bytes => Ok bytes;
     json_loads := fun text =>
       match assoc text documents with
       | Some v => Ok v
       | None => Raise (Exc ValueError "Expecting value")
       end;
     json_dumps := dumps |}.

Definition fresh_sys : Sys := {| uuid_calls := 0; clock_calls := 0 |}.

(** The lines of an Anthropic response: a text delta, then the end of the
    content block and the end of the message. *)
Definition anthropic_lines : list string :=
  [ "event: content_block_delta" ++ newline ++ "data: " ++ delta_document "Hello";
    "event: content_block_stop";
    "event: message_stop" ].

(** Whether bytes are well-formed UTF-8: [pending] continuation bytes are
    still due, the next of them between [lo] and [hi]. *)
Fixpoint well_formed_utf8 (pending lo hi : nat) (bytes : string) : bool :=
  match bytes with
  | EmptyString => Nat.eqb pending 0
  | String c rest =>
      let b := nat_of_ascii c in
      match pending with
      | O =>
          if Nat.ltb b 128 then well_formed_utf8 0 128 191 rest
          else if Nat.leb 194 b && Nat.leb b 223 then well_formed_utf8 1 128 191 rest
          else if Nat.eqb b 224 then well_formed_utf8 2 160 191 rest
          else if Nat.eqb b 237 then well_formed_utf8 2 128 159 rest
          else if Nat.leb 225 b && Nat.leb b 239 then well_formed_utf8 2 128 191 rest
          else if Nat.eqb b 240 then well_formed_utf8 3 144 191 rest
          else if Nat.leb 241 b && Nat.leb b 243 then well_formed_utf8 3 128 191 rest
          else if Nat.eqb b 244 then well_formed_utf8 3 128 143 rest
          else false
      | S pending' =>
          Nat.leb lo b && Nat.leb b hi && well_formed_utf8 pending' 128 191 rest
      end
  end.

(** What [bytes.decode] raises: a [UnicodeDecodeError], which is a
    [ValueError]. *)
Definition undecodable : exn :=
  Exc ValueError "'utf-8' codec can't decode bytes".

(** The runtime of the examples with the decoder of [bytes.decode]: bytes
    that are not well-formed UTF-8 raise; text is kept in its UTF-8
    encoding. *)
Definition utf8_runtime : Runtime :=
  {| uuid4 := uuid4 test_runtime;
     clock := clock test_runtime;
     decode_utf8 := fun bytes =>
       if well_formed_utf8 0 128 191 bytes then Ok bytes else Raise undecodable;
     json_loads := json_loads test_runtime;
     json_dumps := json_dumps test_runtime |}.

Definition octet (n : nat) : string := String (ascii_of_nat n) EmptyString.

(** A content-delta line whose text ends in an e with an acute accent, the
    bytes 195 and 169, as the transport hands it out in two pieces: the
    first ends after the byte 195. *)
Definition cut_head : string :=
  "event: content_block_delta" ++ newline ++ "data: "
  ++ "{" ++ quoted "type" ++ ": " ++ quoted "content_block_delta" ++ ", "
  ++ quoted "delta" ++ ": {" ++ quoted "text" ++ ": " ++ dq ++ "caf" ++ octet 195.

Definition cut_tail : string := octet 169 ++ dq ++ "}}".

(** The pieces of an Anthropic response body: a text delta, the two pieces
    of the cut line, and the end of the message. *)
Definition cut_lines : list string :=
  [ "event: content_block_delta" ++ newline ++ "data: " ++ delta_document "Hello";
    cut_head;
    cut_tail;
    "event: message_stop" ].

End Examples.

(** * Properties *)

Module CostProperties.

Import ProviderCore.

Section Cost.

Variable float : Type.
Variable fmul : float -> Z -> float.

(** A band's range contains a count: at least the lower bound, and at most
    the upper bound unless that is null. *)
Definition contains (cost_range : CostRange float) (token_count : Z) : Prop :=
  range_min cost_range <= token_count
  /\ match range_max cost_range with
     | None => True
     | Some hi => token_count <= hi
     end.

Lemma in_range_contains (cost_range : CostRange float) (token_count : Z) :
  in_range token_count cost_range = true <-> contains cost_range token_count.
Proof.
  unfold in_range, contains.
  rewrite andb_true_iff, Z.geb_le.
  destruct (range_max cost_range) as [hi|].
  - rewrite Z.leb_le. tauto.
  - tauto.
Qed.

Lemma first_band_skip (token_count : Z) (before rest : list (CostRange float)) :
  (forall b, In b before -> ~ contains b token_count) ->
  first_band token_count (before ++ rest) = first_band token_count rest.
Proof.
  induction before as [|b before IH]; intros Hnone; simpl.
  - reflexivity.
  - destruct (in_range token_count b) eqn:Hb.
    + exfalso. apply (Hnone b); [now left | now apply in_range_contains].
    + apply IH. intros b' Hin. apply Hnone. now right.
Qed.

Lemma first_band_none (token_count : Z) (bands : list (CostRange float)) :
  (forall b, In b bands -> ~ contains b token_count) ->
  first_band token_count bands = None.
Proof.
  intros Hnone.
  rewrite <- (app_nil_r bands).
  now rewrite first_band_skip.
Qed.

(** C6: a flat rate gives the rate times the token count; a list of bands
    gives the token count times the rate of the band that contains the count
    (the first such band in the list's order), where a null upper bound leaves
    the band unbounded above. *)
Theorem calculate_cost_flat_or_band (token_count : Z) :
  (forall rate : float,
      calculate_cost fmul token_count (Flat rate)
      = CostFloat (fmul rate token_count))
  /\ (forall (before after : list (CostRange float)) (band : CostRange float),
         (forall b, In b before -> ~ contains b token_count) ->
         contains band token_count ->
         calculate_cost fmul token_count (Banded (before ++ band :: after))
         = CostFloat (fmul (cost band) token_count)).
Proof.
  split.
  - reflexivity.
  - intros before after band Hbefore Hband.
    unfold calculate_cost.
    rewrite first_band_skip by assumption.
    simpl.
    apply in_range_contains in Hband.
    now rewrite Hband.
Qed.

(** C10: when no band of a banded price contains the token count,
    [calculate_cost] returns the integer 0; it never fails. *)
Theorem calculate_cost_no_band (token_count : Z) (bands : list (CostRange float)) :
  (forall b, In b bands -> ~ contains b token_count) ->
  calculate_cost fmul token_count (Banded bands) = CostInt 0.
Proof.
  intros Hnone.
  unfold calculate_cost.
  now rewrite first_band_none.
Qed.

End Cost.

Arguments contains {float} _ _.

End CostProperties.

Import ProviderCore CostProperties Examples.

Lemma calculate_cost_flat_or_band_witness :
  calculate_cost rate_times 1500 (Flat (1 # 100)%Q)
  = CostFloat (rate_times (1 # 100)%Q 1500)
  /\ calculate_cost rate_times 1500 (Banded tiered)
     = CostFloat (rate_times (1 # 1000)%Q 1500).
Proof.
  destruct (calculate_cost_flat_or_band Q rate_times 1500) as [Hflat Hband].
  split.
  - apply Hflat.
  - apply (Hband
             [ {| range_min := 0; range_max := Some 1000; cost := (3 # 1000)%Q |} ]
             []
             {| range_min := 1001; range_max := None; cost := (1 # 1000)%Q |}).
    + intros b [<-|[]]. unfold contains; simpl. lia.
    + unfold contains; simpl. split; [lia | exact I].
Defined.

Lemma calculate_cost_no_band_witness :
  calculate_cost rate_times 1500 (Banded capped) = CostInt 0.
Proof.
  apply (calculate_cost_no_band Q rate_times 1500 capped).
  intros b [<-|[]]. unfold contains; simpl. lia.
Defined.

Module ChatProperties.

Section Chat.

Variable float : Type.
Variables Raw Response Completion : Type.
Variable self : Provider float Raw Response Completion.

(** One pass through the loop body of [chat] never falls through to the next
    iteration, and it sends exactly one request. *)
Lemma chat_attempt_leaves (request : ChatRequest) (w : World) :
  fst (chat_attempt self request w) <> Next
  /\ sends (snd (chat_attempt self request w)) = S (sends w).
Proof.
  unfold chat_attempt, time_time, count_send, try_except_all, bind; simpl.
  destruct (generate_client self (sends w) request) as [response|e]; simpl.
  - destruct (is_stream request); simpl.
    + split; [discriminate | reflexivity].
    + destruct (handle_response_non_stream self request response (clock_reads w));
        simpl; split; (discriminate || reflexivity).
  - split; [discriminate | reflexivity].
Qed.

(** When the send fails, the attempt raises a [ProviderError] that carries
    the failure's text. *)
Lemma chat_attempt_send_fails (request : ChatRequest) (w : World) (e : exn) :
  generate_client self (sends w) request = Raise e ->
  chat_attempt self request w
  = (Throw (Exc ProviderError (exn_str e)),
     {| sends := S (sends w); clock_reads := S (clock_reads w) |}).
Proof.
  intros Hsend.
  unfold chat_attempt, time_time, count_send, try_except_all, bind; simpl.
  now rewrite Hsend.
Qed.

(** Whatever the retry budget, a call whose sends all fail makes one send
    and raises. *)
Lemma chat_send_fails_once (raw : Raw) (request : ChatRequest) (budget : Z)
    (w : World) :
  validate_request self raw = Ok request ->
  model_supported self (model request) = true ->
  retries request = Some budget ->
  0 <= budget ->
  (forall n r, exists e, generate_client self n r = Raise e) ->
  exists msg,
    chat self raw w
    = (Raise (Exc ProviderError msg),
       {| sends := S (sends w); clock_reads := S (clock_reads w) |}).
Proof.
  intros Hvalid Hmodel Hbudget Hretries Hfail.
  unfold chat, validate_model, try_except.
  rewrite Hvalid, Hmodel; simpl. rewrite Hbudget.
  destruct (Z.to_nat (budget + 1)) as [|n] eqn:Hn; [lia|].
  destruct (Hfail (sends w) request) as [e He].
  exists (exn_str e).
  simpl. now rewrite (chat_attempt_send_fails request w e He).
Qed.

(** C5: a request that fails validation, or that names a model outside the
    provider's configured models, makes [chat] raise a [ProviderError] with
    no request sent; [validate_model] raises a [ProviderError] when the
    model is absent from the configured models and returns otherwise. *)
Theorem chat_fails_fast (raw : Raw) (w : World) :
  (forall e,
      validate_request self raw = Raise e ->
      exn_cls e = ValidationError ->
      chat self raw w = (Raise (Exc ProviderError (exn_str e)), w))
  /\ (forall request,
         validate_request self raw = Ok request ->
         assoc (model request) (models (config self)) = None ->
         raises (fst (chat self raw w)) ProviderError
         /\ snd (chat self raw w) = w)
  /\ (forall request,
         (assoc (model request) (models (config self)) = None ->
          raises (validate_model self request) ProviderError)
         /\ (assoc (model request) (models (config self)) <> None ->
             validate_model self request = Ok tt)).
Proof.
  split; [|split].
  - intros e Hraise Hcls.
    unfold chat, try_except. now rewrite Hraise, Hcls.
  - intros request Hvalid Habsent.
    unfold chat, try_except, validate_model, model_supported.
    rewrite Hvalid, Habsent; simpl.
    split; [|reflexivity].
    eexists. reflexivity.
  - intros request. unfold validate_model, model_supported.
    split.
    + intros Habsent. rewrite Habsent; simpl. eexists. reflexivity.
    + intros Hpresent.
      destruct (assoc (model request) (models (config self))); [reflexivity|].
      now contradiction Hpresent.
Qed.

End Chat.

End ChatProperties.

Import ChatProperties.

Lemma chat_fails_fast_witness :
  chat strict_provider (hello_request "test_model" 0) fresh_world
  = (Raise (Exc ProviderError "temperature: out of range"), fresh_world)
  /\ (raises (fst (chat failing_provider (hello_request "gpt-5" 0) fresh_world))
        ProviderError
      /\ snd (chat failing_provider (hello_request "gpt-5" 0) fresh_world)
         = fresh_world)
  /\ raises (validate_model failing_provider (hello_request "gpt-5" 0)) ProviderError
  /\ validate_model failing_provider (hello_request "test_model" 0) = Ok tt.
Proof.
  split; [|split; [|split]].
  - apply (proj1 (chat_fails_fast Q ChatRequest unit unit strict_provider
                    (hello_request "test_model" 0) fresh_world)
             (Exc ValidationError "temperature: out of range"));
      reflexivity.
  - apply (proj1 (proj2 (chat_fails_fast Q ChatRequest unit unit failing_provider
                           (hello_request "gpt-5" 0) fresh_world))
             (hello_request "gpt-5" 0));
      reflexivity.
  - apply (proj1 (proj2 (proj2 (chat_fails_fast Q ChatRequest unit unit
                                  failing_provider
                                  (hello_request "gpt-5" 0) fresh_world))
                    (hello_request "gpt-5" 0))).
    reflexivity.
  - apply (proj2 (proj2 (proj2 (chat_fails_fast Q ChatRequest unit unit
                                  failing_provider
                                  (hello_request "test_model" 0) fresh_world))
                    (hello_request "test_model" 0))).
    simpl. discriminate.
Defined.

(** C1, evaluated: with [retries = 2] and a provider whose every send fails,
    [chat] raises a [ProviderError] after a single send; the second and third
    attempts of the retry budget are never made. *)
Theorem chat_retries_2_sends_once :
  chat failing_provider (hello_request "test_model" 2) fresh_world
  = (Raise (Exc ProviderError "connection refused"),
     {| sends := 1; clock_reads := 1 |}).
Proof. reflexivity. Qed.

Module JoinProperties.

Local Open Scope list_scope.

(** The typed view of a dumped chunk: what its first choice carries. *)
Definition chunk_finish_reason (c : ChatCompletionChunk) : option string :=
  match choices c with
  | ch :: _ => finish_reason ch
  | [] => None
  end.

Definition chunk_content (c : ChatCompletionChunk) : option string :=
  match choices c with
  | ch :: _ => content (delta ch)
  | [] => None
  end.

Definition has_choice (c : ChatCompletionChunk) : bool :=
  match choices c with
  | _ :: _ => true
  | [] => false
  end.

Definition concat_str (l : list string) : string :=
  fold_right String.append EmptyString l.

(** The concatenation of the non-null text deltas, in arrival order. *)
Definition joined_text (chunks : list ChatCompletionChunk) : string :=
  concat_str (somes (map chunk_content chunks)).

(** The completion that [join_chunks] stamps with the last chunk's identity. *)
Definition completion_from (last : ChatCompletionChunk) (fr : string)
    (msg : ChatCompletionMessage) : ChatCompletion :=
  {| completion_id := chunk_id last;
     completion_created := created last;
     completion_model := chunk_model last;
     completion_object := "chat.completion";
     completion_choices :=
       [{| completion_finish_reason := fr;
           completion_index := 0;
           message := msg |}] |}.

Definition text_message (text : string) : ChatCompletionMessage :=
  {| message_content := Some text;
     message_role := "assistant";
     message_function_call := None;
     message_tool_calls := None |}.

Lemma last_item_snoc {A} (l : list A) (x : A) : last_item (l ++ [x]) = Ok x.
Proof. unfold last_item. now rewrite rev_unit. Qed.

Lemma mapM_map_ok {A B C} (f : B -> res C) (g : A -> B) (h : A -> C) (l : list A) :
  (forall x, In x l -> f (g x) = Ok (h x)) ->
  mapM f (map g l) = Ok (map h l).
Proof.
  induction l as [|x l IH]; intros Hf; simpl.
  - reflexivity.
  - rewrite (Hf x) by now left. simpl.
    rewrite IH by (intros y Hy; apply Hf; now right).
    reflexivity.
Qed.

Lemma chunk_delta_dump (c : ChatCompletionChunk) (ch : Choice) (rest : list Choice) :
  choices c = ch :: rest ->
  chunk_delta (model_dump c) = Ok (dump_delta (delta ch)).
Proof.
  intros Hc. unfold chunk_delta, model_dump; simpl. now rewrite Hc.
Qed.

Lemma terminal_finish_reason_dump (cs : list ChatCompletionChunk)
    (last : ChatCompletionChunk) :
  has_choice last = true ->
  terminal_finish_reason (map model_dump (cs ++ [last]))
  = Ok (dump_opt_str (chunk_finish_reason last)).
Proof.
  unfold has_choice, chunk_finish_reason, terminal_finish_reason.
  rewrite map_app; simpl map. rewrite last_item_snoc.
  destruct (choices last) as [|ch rest] eqn:Hc; [discriminate|].
  intros _. unfold model_dump; simpl. now rewrite Hc.
Qed.

Lemma completion_of_last_dump (cs : list ChatCompletionChunk)
    (last : ChatCompletionChunk) (fr : string) (msg : ChatCompletionMessage) :
  completion_of_last (map model_dump (cs ++ [last])) fr msg
  = Ok (completion_from last fr msg).
Proof.
  unfold completion_of_last.
  rewrite map_app; simpl map. now rewrite last_item_snoc.
Qed.

Lemma content_dump (c : ChatCompletionChunk) :
  has_choice c = true ->
  (delta <- chunk_delta (model_dump c) ;; get delta "content")
  = Ok (dump_opt_str (chunk_content c)).
Proof.
  unfold has_choice, chunk_content.
  destruct (choices c) as [|ch rest] eqn:Hc; [discriminate|].
  intros _. now rewrite (chunk_delta_dump c ch rest Hc).
Qed.

Lemma str_join_truthy (l : list (option string)) :
  str_join (filter truthy (map dump_opt_str l)) = Ok (concat_str (somes l)).
Proof.
  induction l as [|[s|] l IH]; simpl.
  - reflexivity.
  - destruct s as [|a s]; simpl.
    + exact IH.
    + now rewrite IH.
  - exact IH.
Qed.

Lemma forallb_skipn {A} (p : A -> bool) (n : nat) (l : list A) :
  forallb p l = true -> forallb p (skipn n l) = true.
Proof.
  revert l. induction n as [|n IH]; intros l Hl; simpl.
  - exact Hl.
  - destruct l as [|x l]; [reflexivity|].
    simpl in Hl. apply andb_true_iff in Hl. now apply IH.
Qed.

(** *** Grouping by index *)

(** The values of a list without their later repetitions, in the order of
    first occurrence. *)
Fixpoint distinct (l : list Z) : list Z :=
  match l with
  | [] => []
  | x :: l' => x :: filter (fun y => negb (y =? x)) (distinct l')
  end.

Lemma distinct_In (x : Z) (l : list Z) : In x (distinct l) <-> In x l.
Proof.
  induction l as [|a l IH]; simpl; [tauto|].
  rewrite filter_In, IH, negb_true_iff, Z.eqb_neq.
  destruct (Z.eq_dec a x); [tauto|]. intuition congruence.
Qed.

Lemma distinct_NoDup (l : list Z) : NoDup (distinct l).
Proof.
  induction l as [|a l IH]; simpl; constructor.
  - rewrite filter_In, negb_true_iff, Z.eqb_neq. tauto.
  - now apply NoDup_filter.
Qed.

Lemma distinct_snoc (l : list Z) (x : Z) :
  distinct (l ++ [x])
  = if existsb (Z.eqb x) l then distinct l else distinct l ++ [x].
Proof.
  induction l as [|a l IH]; simpl; [reflexivity|].
  rewrite IH.
  destruct (Z.eqb_spec x a) as [->|Hne]; simpl.
  - destruct (existsb (Z.eqb a) l); [reflexivity|].
    rewrite filter_app; simpl. rewrite Z.eqb_refl; simpl.
    now rewrite app_nil_r.
  - destruct (existsb (Z.eqb x) l); [reflexivity|].
    rewrite filter_app; simpl.
    destruct (Z.eqb_spec x a); [contradiction|reflexivity].
Qed.

Section Grouping.

Variable T : Type.
Variable idx : T -> Z.

(** The items filed under index [i], in arrival order. *)
Definition with_index (i : Z) (items : list T) : list T :=
  filter (fun t => idx t =? i) items.

(** What the insertion-ordered dictionary of groups holds after [items]. *)
Definition grouped (items : list T) : list (key * list T) :=
  map (fun i => (KInt i, with_index i items)) (distinct (map idx items)).

Lemma setdefault_append_new (k : Z) (t : T) (g : Z -> list T) (L : list Z) :
  ~ In k L ->
  setdefault_append (KInt k) t (map (fun i => (KInt i, g i)) L)
  = map (fun i => (KInt i, g i)) L ++ [(KInt k, [t])].
Proof.
  induction L as [|a L IH]; intros Hk; simpl; [reflexivity|].
  destruct (Z.eqb_spec k a) as [->|Hne].
  - exfalso. apply Hk. now left.
  - rewrite IH; [reflexivity|]. intros Hin. apply Hk. now right.
Qed.

Lemma setdefault_append_old (k : Z) (t : T) (g : Z -> list T) (L : list Z) :
  NoDup L -> In k L ->
  setdefault_append (KInt k) t (map (fun i => (KInt i, g i)) L)
  = map (fun i => (KInt i, if i =? k then g i ++ [t] else g i)) L.
Proof.
  induction L as [|a L IH]; intros Hnd Hk; simpl; [contradiction|].
  inversion Hnd as [|a' L' Ha HL]; subst.
  destruct (Z.eqb_spec k a) as [->|Hne].
  - rewrite Z.eqb_refl. f_equal.
    apply map_ext_in. intros i Hi.
    destruct (Z.eqb_spec i a) as [->|]; [contradiction|reflexivity].
  - destruct (Z.eqb_spec a k) as [->|_]; [contradiction|].
    f_equal. apply IH; [assumption|].
    destruct Hk as [->|Hk]; [contradiction|assumption].
Qed.

Lemma with_index_snoc (i : Z) (items : list T) (t : T) :
  with_index i (items ++ [t])
  = if idx t =? i then with_index i items ++ [t] else with_index i items.
Proof.
  unfold with_index. rewrite filter_app; simpl.
  destruct (idx t =? i); [reflexivity|now rewrite app_nil_r].
Qed.

Lemma with_index_absent (i : Z) (items : list T) :
  ~ In i (map idx items) -> with_index i items = [].
Proof.
  induction items as [|t items IH]; intros Hi; simpl; [reflexivity|].
  destruct (Z.eqb_spec (idx t) i) as [Heq|_].
  - exfalso. apply Hi. now left.
  - apply IH. intros Hin. apply Hi. now right.
Qed.

Lemma with_index_present (i : Z) (items : list T) :
  In i (map idx items) -> with_index i items <> [].
Proof.
  induction items as [|t items IH]; intros Hi; simpl; [contradiction|].
  destruct (Z.eqb_spec (idx t) i) as [_|Hne]; [discriminate|].
  apply IH. destruct Hi as [Hi|Hi]; [contradiction|assumption].
Qed.

Lemma existsb_eqb_In (x : Z) (l : list Z) :
  existsb (Z.eqb x) l = true <-> In x l.
Proof.
  rewrite existsb_exists. split.
  - intros [y [Hy Heq]]. apply Z.eqb_eq in Heq. now subst.
  - intros Hin. exists x. split; [assumption|apply Z.eqb_refl].
Qed.

(** Filing one more item extends the groups as the dictionary update does. *)
Lemma grouped_snoc (items : list T) (t : T) :
  setdefault_append (KInt (idx t)) t (grouped items) = grouped (items ++ [t]).
Proof.
  unfold grouped. rewrite map_app.
  change (map idx [t]) with [idx t]. rewrite distinct_snoc.
  destruct (existsb (Z.eqb (idx t)) (map idx items)) eqn:Hex.
  - apply existsb_eqb_In in Hex.
    rewrite setdefault_append_old;
      [|apply distinct_NoDup|now apply distinct_In].
    apply map_ext. intros i. rewrite with_index_snoc.
    now rewrite (Z.eqb_sym i).
  - assert (Hnew : ~ In (idx t) (map idx items)).
    { intros Hin. apply existsb_eqb_In in Hin. congruence. }
    rewrite setdefault_append_new by now rewrite distinct_In.
    rewrite map_app; simpl. f_equal.
    + apply map_ext_in. intros i Hi. rewrite with_index_snoc.
      destruct (Z.eqb_spec (idx t) i) as [Heq|_]; [|reflexivity].
      exfalso. apply Hnew. rewrite Heq. now apply distinct_In.
    + rewrite with_index_snoc, Z.eqb_refl.
      now rewrite with_index_absent.
Qed.

Lemma fold_grouped (rest items : list T) :
  fold_left (fun d t => setdefault_append (KInt (idx t)) t d) rest (grouped items)
  = grouped (items ++ rest).
Proof.
  revert items. induction rest as [|t rest IH]; intros items; simpl.
  - now rewrite app_nil_r.
  - rewrite grouped_snoc, IH, <- app_assoc. reflexivity.
Qed.

End Grouping.

Arguments with_index {T} idx i items.
Arguments grouped {T} idx items.

(** Updating a dictionary of groups commutes with mapping its values. *)
Lemma setdefault_append_map {A B} (f : A -> B) (k : key) (v : A)
    (d : list (key * list A)) :
  setdefault_append k (f v) (map (fun e => (fst e, map f (snd e))) d)
  = map (fun e => (fst e, map f (snd e))) (setdefault_append k v d).
Proof.
  induction d as [|[k' l] d IH]; simpl; [reflexivity|].
  destruct (key_eqb k k'); simpl.
  - now rewrite map_app.
  - now rewrite IH.
Qed.

(** *** Tool-call fragments *)

(** The fragment that [join_chunks] reads from a chunk: the first entry of
    the first choice's [tool_calls]. *)
Definition leading_fragment (c : ChatCompletionChunk) : option ChoiceDeltaToolCall :=
  match choices c with
  | ch :: _ =>
      match tool_calls (delta ch) with
      | Some (t :: _) => Some t
      | _ => None
      end
  | [] => None
  end.

Definition fragments (chunks : list ChatCompletionChunk) : list ChoiceDeltaToolCall :=
  somes (map leading_fragment chunks).

Definition or_empty (o : option string) : string :=
  match o with
  | Some s => s
  | None => EmptyString
  end.

Definition fragment_arguments (t : ChoiceDeltaToolCall) : string :=
  match tc_function t with
  | Some f => or_empty (fn_arguments f)
  | None => EmptyString
  end.

Definition fragment_name (t : ChoiceDeltaToolCall) : string :=
  match tc_function t with
  | Some f => or_empty (fn_name f)
  | None => EmptyString
  end.

(** The tool call joined from the fragments of index [i]: identifier and
    name of the first fragment bearing the index, arguments of all of them. *)
Definition joined_call (frags : list ChoiceDeltaToolCall) (i : Z)
    : ChatCompletionMessageToolCall :=
  let own := with_index tc_index i frags in
  {| call_id := match own with
                | t :: _ => or_empty (tc_id t)
                | [] => EmptyString
                end;
     call_function :=
       {| function_arguments := concat_str (map fragment_arguments own);
          function_name := match own with
                           | t :: _ => fragment_name t
                           | [] => EmptyString
                           end |};
     call_type := "function" |}.

Definition tool_message (calls : list ChatCompletionMessageToolCall)
    : ChatCompletionMessage :=
  {| message_content := None;
     message_role := "assistant";
     message_function_call := None;
     message_tool_calls := Some calls |}.

(** A chunk has a choice, and its [tool_calls] is not an empty list. *)
Definition chunk_ok (c : ChatCompletionChunk) : bool :=
  match choices c with
  | ch :: _ =>
      match tool_calls (delta ch) with
      | Some [] => false
      | _ => true
      end
  | [] => false
  end.

(** A fragment carries a function with an arguments text. *)
Definition fragment_ok (t : ChoiceDeltaToolCall) : bool :=
  match tc_function t with
  | Some f => match fn_arguments f with Some _ => true | None => false end
  | None => false
  end.

(** The first fragment of an index announces the call: identifier, name,
    and no type other than [function]. *)
Definition head_ok (t : ChoiceDeltaToolCall) : bool :=
  match tc_id t, tc_function t with
  | Some _, Some f =>
      match fn_name f with
      | Some _ =>
          match fn_type f with
          | Some ty => String.eqb ty "function"
          | None => true
          end
      | None => false
      end
  | _, _ => false
  end.

Definition group_ok (own : list ChoiceDeltaToolCall) : bool :=
  match own with
  | t :: _ => head_ok t && forallb fragment_ok own
  | [] => false
  end.

Definition tool_stream_ok (chunks : list ChatCompletionChunk) : bool :=
  forallb chunk_ok chunks
  && forallb (fun i => group_ok (with_index tc_index i (fragments chunks)))
       (distinct (map tc_index (fragments chunks))).

Lemma chunk_ok_has_choice (c : ChatCompletionChunk) :
  chunk_ok c = true -> has_choice c = true.
Proof. unfold chunk_ok, has_choice. now destruct (choices c). Qed.

Lemma group_tool_call_dump (d : list (key * list pyval)) (c : ChatCompletionChunk) :
  chunk_ok c = true ->
  group_tool_call d (model_dump c)
  = Ok match leading_fragment c with
       | Some t => setdefault_append (KInt (tc_index t)) (dump_tool_call t) d
       | None => d
       end.
Proof.
  unfold chunk_ok, leading_fragment, group_tool_call.
  destruct (choices c) as [|ch rest] eqn:Hc; [discriminate|].
  rewrite (chunk_delta_dump c ch rest Hc).
  destruct (tool_calls (delta ch)) as [[|t ts]|] eqn:Ht; [discriminate| |];
    intros _; unfold dump_delta; rewrite Ht; reflexivity.
Qed.

Lemma group_tool_calls_dump (chunks : list ChatCompletionChunk)
    (d : list (key * list pyval)) :
  forallb chunk_ok chunks = true ->
  group_tool_calls (map model_dump chunks) d
  = Ok (fold_left
          (fun d t => setdefault_append (KInt (tc_index t)) (dump_tool_call t) d)
          (fragments chunks) d).
Proof.
  revert d. induction chunks as [|c chunks IH]; intros d Hall; simpl.
  - reflexivity.
  - simpl in Hall. apply andb_true_iff in Hall. destruct Hall as [Hc Hall].
    rewrite (group_tool_call_dump d c Hc). simpl bind.
    rewrite IH by assumption.
    unfold fragments; simpl.
    now destruct (leading_fragment c).
Qed.

Lemma fold_dumped (frags : list ChoiceDeltaToolCall)
    (d : list (key * list ChoiceDeltaToolCall)) :
  fold_left
    (fun d t => setdefault_append (KInt (tc_index t)) (dump_tool_call t) d)
    frags (map (fun e => (fst e, map dump_tool_call (snd e))) d)
  = map (fun e => (fst e, map dump_tool_call (snd e)))
      (fold_left (fun d t => setdefault_append (KInt (tc_index t)) t d) frags d).
Proof.
  revert d. induction frags as [|t frags IH]; intros d; simpl.
  - reflexivity.
  - now rewrite setdefault_append_map, IH.
Qed.

(** The dictionary that the grouping loop builds from dumped chunks. *)
Lemma group_tool_calls_grouped (chunks : list ChatCompletionChunk) :
  forallb chunk_ok chunks = true ->
  group_tool_calls (map model_dump chunks) []
  = Ok (map (fun i => (KInt i,
                       map dump_tool_call (with_index tc_index i (fragments chunks))))
          (distinct (map tc_index (fragments chunks)))).
Proof.
  intros Hall. rewrite group_tool_calls_dump by assumption.
  change (@nil (key * list pyval))
    with (map (fun e : key * list ChoiceDeltaToolCall =>
                 (fst e, map dump_tool_call (snd e))) []).
  rewrite fold_dumped.
  change (@nil (key * list ChoiceDeltaToolCall)) with (grouped tc_index []).
  rewrite fold_grouped; simpl app.
  unfold grouped. now rewrite map_map.
Qed.

Lemma str_join_strs (l : list string) :
  str_join (map PStr l) = Ok (concat_str l).
Proof.
  induction l as [|s l IH]; simpl; [reflexivity|]. now rewrite IH.
Qed.

Lemma tool_call_arguments_dump (own : list ChoiceDeltaToolCall) :
  forallb fragment_ok own = true ->
  tool_call_arguments (map dump_tool_call own)
  = Ok (concat_str (map fragment_arguments own)).
Proof.
  intros Hall. unfold tool_call_arguments.
  rewrite (mapM_map_ok _ dump_tool_call (fun t => PStr (fragment_arguments t))).
  - simpl bind. rewrite <- (map_map fragment_arguments PStr).
    apply str_join_strs.
  - intros t Hin. rewrite forallb_forall in Hall.
    specialize (Hall t Hin). unfold fragment_ok in Hall.
    unfold fragment_arguments, dump_tool_call; simpl.
    destruct (tc_function t) as [f|]; [|discriminate].
    destruct (fn_arguments f) as [a|] eqn:Ha; [|discriminate].
    unfold dump_function; rewrite Ha. reflexivity.
Qed.

Lemma head_fields_dump (t : ChoiceDeltaToolCall) (own : list ChoiceDeltaToolCall) :
  head_ok t = true ->
  tool_call_id (map dump_tool_call (t :: own)) = Ok (PStr (or_empty (tc_id t)))
  /\ tool_call_name (map dump_tool_call (t :: own)) = Ok (PStr (fragment_name t))
  /\ tool_call_type (map dump_tool_call (t :: own)) = Ok (PStr "function").
Proof.
  unfold head_ok, tool_call_id, tool_call_name, tool_call_type, fragment_name.
  unfold dump_tool_call; simpl.
  destruct (tc_id t) as [i|]; [|discriminate].
  destruct (tc_function t) as [f|]; [|discriminate].
  destruct (fn_name f) as [n|] eqn:Hn; [|discriminate].
  unfold dump_function; rewrite Hn.
  destruct (fn_type f) as [ty|]; simpl.
  - intros Hty. apply String.eqb_eq in Hty. subst ty. repeat split.
  - intros _. repeat split.
Qed.

Lemma zip4_map {I A B C D} (a : I -> A) (b : I -> B) (c : I -> C) (d : I -> D)
    (l : list I) :
  zip4 (map a l) (map b l) (map c l) (map d l)
  = map (fun i => (a i, b i, c i, d i)) l.
Proof.
  induction l as [|i l IH]; simpl; [reflexivity|]. now rewrite IH.
Qed.

Section Join.

Variable float : Type.
Variables Raw Response Completion : Type.
Variable self : Provider float Raw Response Completion.

(** The provider is one of the two classes that [join_chunks] singles out. *)
Definition openai_style : bool :=
  String.eqb (class_name self) "OpenAIProvider"
  || String.eqb (class_name self) "AzureProvider".

Lemma join_stop_dump (cs : list ChatCompletionChunk) (last : ChatCompletionChunk) :
  forallb has_choice (cs ++ [last]) = true ->
  join_stop self (map model_dump (cs ++ [last]))
  = Ok (Some
          (completion_from last "stop"
             (text_message (joined_text (skipn (start_index self) (cs ++ [last])))),
           OutStr (joined_text (skipn (start_index self) (cs ++ [last]))))).
Proof.
  intros Hall. unfold join_stop.
  rewrite skipn_map.
  rewrite (mapM_map_ok _ model_dump
             (fun c => dump_opt_str (chunk_content c))).
  - simpl bind.
    rewrite <- (map_map chunk_content dump_opt_str), str_join_truthy.
    simpl bind. rewrite completion_of_last_dump. reflexivity.
  - intros c Hin. apply content_dump.
    apply (forallb_skipn has_choice (start_index self)) in Hall.
    rewrite forallb_forall in Hall. now apply Hall.
Qed.

(** C4: when the last chunk's [finish_reason] is [stop] or [length],
    [join_chunks] returns the concatenation, in arrival order, of the
    non-null text deltas, leaving out the first chunk, and only it, for the
    classes [OpenAIProvider] and [AzureProvider], and no chunk for any other
    provider. *)
Theorem join_chunks_stop_text (cs : list ChatCompletionChunk)
    (last : ChatCompletionChunk) :
  forallb has_choice (cs ++ [last]) = true ->
  chunk_finish_reason last = Some "stop"
  \/ chunk_finish_reason last = Some "length" ->
  let kept := if openai_style then tl (cs ++ [last]) else cs ++ [last] in
  join_chunks self (map model_dump (cs ++ [last]))
  = Ok (Some (completion_from last "stop" (text_message (joined_text kept)),
              OutStr (joined_text kept))).
Proof.
  intros Hall Hfr kept.
  assert (Hlast : has_choice last = true).
  { rewrite forallb_app in Hall. apply andb_true_iff in Hall.
    destruct Hall as [_ Hl]. simpl in Hl. now rewrite andb_true_r in Hl. }
  unfold join_chunks.
  rewrite terminal_finish_reason_dump by exact Hlast.
  simpl bind.
  assert (Hkept : kept = skipn (start_index self) (cs ++ [last])).
  { unfold kept, start_index, openai_style.
    destruct (String.eqb (class_name self) "OpenAIProvider"
              || String.eqb (class_name self) "AzureProvider");
      [now destruct (cs ++ [last]) | reflexivity]. }
  rewrite Hkept.
  destruct Hfr as [-> | ->]; simpl; now apply join_stop_dump.
Qed.

Lemma join_tool_calls_dump (cs : list ChatCompletionChunk) (last : ChatCompletionChunk) :
  tool_stream_ok (cs ++ [last]) = true ->
  let frags := fragments (cs ++ [last]) in
  let calls := map (joined_call frags) (distinct (map tc_index frags)) in
  join_tool_calls (map model_dump (cs ++ [last]))
  = Ok (Some
          (completion_from last "tool_calls" (tool_message calls),
           OutStrOfList
             (map (fun c => PStr (function_name (call_function c))) calls
              ++ map (fun c => PStr (function_arguments (call_function c))) calls))).
Proof.
  intros Hok frags calls.
  unfold tool_stream_ok in Hok. apply andb_true_iff in Hok.
  destruct Hok as [Hchunks Hgroups].
  fold frags in Hgroups. rewrite forallb_forall in Hgroups.
  unfold join_tool_calls.
  rewrite group_tool_calls_grouped by assumption. fold frags.
  simpl bind. rewrite map_map; simpl snd.
  set (indices := distinct (map tc_index frags)) in *.
  set (own := fun i => with_index tc_index i frags).
  assert (Hheads : forall i, In i indices ->
            tool_call_id (map dump_tool_call (own i))
            = Ok (PStr (call_id (joined_call frags i)))
            /\ tool_call_name (map dump_tool_call (own i))
               = Ok (PStr (function_name (call_function (joined_call frags i))))
            /\ tool_call_type (map dump_tool_call (own i)) = Ok (PStr "function")
            /\ tool_call_arguments (map dump_tool_call (own i))
               = Ok (function_arguments (call_function (joined_call frags i)))).
  { intros i Hi. specialize (Hgroups i Hi).
    unfold joined_call; simpl. fold (own i). fold (own i) in Hgroups.
    unfold group_ok in Hgroups.
    destruct (own i) as [|t rest] eqn:Hown; [discriminate|].
    apply andb_true_iff in Hgroups. destruct Hgroups as [Hhead Hfrags].
    destruct (head_fields_dump t rest Hhead) as [Hid [Hname Htype]].
    repeat split; try assumption.
    now apply tool_call_arguments_dump. }
  rewrite (mapM_map_ok tool_call_id _
             (fun i => PStr (call_id (joined_call frags i))))
    by (intros i Hi; apply (Hheads i Hi)).
  simpl bind.
  rewrite (mapM_map_ok tool_call_name _
             (fun i => PStr (function_name (call_function (joined_call frags i)))))
    by (intros i Hi; apply (Hheads i Hi)).
  simpl bind.
  rewrite (mapM_map_ok tool_call_type _ (fun _ => PStr "function"))
    by (intros i Hi; apply (Hheads i Hi)).
  simpl bind.
  rewrite (mapM_map_ok tool_call_arguments _
             (fun i => function_arguments (call_function (joined_call frags i))))
    by (intros i Hi; apply (Hheads i Hi)).
  simpl bind.
  rewrite zip4_map.
  rewrite (mapM_map_ok parse_tool_call _ (joined_call frags))
    by (intros i _; reflexivity).
  simpl bind.
  rewrite completion_of_last_dump. simpl bind.
  unfold calls. fold indices. rewrite !map_map. reflexivity.
Qed.

(** C3: when the last chunk's [finish_reason] is [tool_calls], [join_chunks]
    returns one tool call per fragment index; the arguments of the call for
    an index are the concatenation, in arrival order, of the arguments of the
    fragments bearing that index and of no others, and its name and
    identifier are those of the first fragment bearing the index. *)
Theorem join_chunks_tool_calls_by_index (cs : list ChatCompletionChunk)
    (last : ChatCompletionChunk) :
  tool_stream_ok (cs ++ [last]) = true ->
  chunk_finish_reason last = Some "tool_calls" ->
  let frags := fragments (cs ++ [last]) in
  let calls := map (joined_call frags) (distinct (map tc_index frags)) in
  join_chunks self (map model_dump (cs ++ [last]))
  = Ok (Some
          (completion_from last "tool_calls" (tool_message calls),
           OutStrOfList
             (map (fun c => PStr (function_name (call_function c))) calls
              ++ map (fun c => PStr (function_arguments (call_function c))) calls)))
  /\ forall i,
       In i (map tc_index frags) ->
       function_arguments (call_function (joined_call frags i))
       = concat_str
           (map fragment_arguments (filter (fun t => tc_index t =? i) frags))
       /\ exists first rest,
            filter (fun t => tc_index t =? i) frags = first :: rest
            /\ function_name (call_function (joined_call frags i))
               = fragment_name first.
Proof.
  intros Hok Hfr frags calls. split.
  - assert (Hlast : has_choice last = true).
    { unfold tool_stream_ok in Hok. apply andb_true_iff in Hok.
      destruct Hok as [Hall _]. rewrite forallb_app in Hall.
      apply andb_true_iff in Hall. destruct Hall as [_ Hl]. simpl in Hl.
      rewrite andb_true_r in Hl. now apply chunk_ok_has_choice. }
    unfold join_chunks.
    rewrite terminal_finish_reason_dump by exact Hlast.
    rewrite Hfr. simpl.
    now apply join_tool_calls_dump.
  - intros i Hi. split; [reflexivity|].
    pose proof (with_index_present _ tc_index i frags Hi) as Hne.
    unfold joined_call; simpl. unfold with_index in *.
    destruct (filter (fun t => tc_index t =? i) frags) as [|first rest];
      [contradiction|].
    now exists first, rest.
Qed.

(** A terminal [finish_reason] outside the known values makes [join_chunks]
    return [None]: no branch is taken and nothing is raised. *)
Lemma join_chunks_unknown_reason (chunks : list pyval) (fr : pyval) :
  terminal_finish_reason chunks = Ok fr ->
  eq_str fr "tool_calls" = false ->
  eq_str fr "function_call" = false ->
  eq_str fr "stop" = false ->
  eq_str fr "length" = false ->
  join_chunks self chunks = Ok None.
Proof.
  intros Hfr H1 H2 H3 H4. unfold join_chunks.
  rewrite Hfr; simpl. now rewrite H1, H2, H3, H4.
Qed.

Lemma first_model_not_provider_error (chunks : list pyval) (e : exn) :
  first_model chunks = Raise e -> exn_cls e <> ProviderError.
Proof.
  induction chunks as [|chunk chunks IH]; simpl.
  - intros [= <-]. discriminate.
  - destruct chunk as [| z | s | l | d]; simpl;
      try (intros [= <-]; discriminate).
    destruct (assoc "model" d) as [m|]; simpl; [|exact IH].
    destruct (truthy m); [discriminate|exact IH].
Qed.

(** What reaches the consumer of the stream in that case is an exception of
    another class than [ProviderError], and no result. *)
Lemma unknown_reason_not_provider_error (chunks : list pyval) (fr : pyval) :
  terminal_finish_reason chunks = Ok fr ->
  eq_str fr "tool_calls" = false ->
  eq_str fr "function_call" = false ->
  eq_str fr "stop" = false ->
  eq_str fr "length" = false ->
  exists e,
    handle_response_stream_join self chunks = Raise e
    /\ exn_cls e <> ProviderError.
Proof.
  intros Hfr H1 H2 H3 H4. unfold handle_response_stream_join.
  destruct (first_model chunks) as [m|e] eqn:Hm; simpl.
  - rewrite (join_chunks_unknown_reason chunks fr Hfr H1 H2 H3 H4); simpl.
    eexists. split; [reflexivity|discriminate].
  - exists e. split; [reflexivity|].
    now apply (first_model_not_provider_error chunks).
Qed.

End Join.

End JoinProperties.

Module NormalizerProperties.

Import JoinProperties.

Local Open Scope list_scope.

(** A chunk is terminal when its [finish_reason] is not none. *)
Definition nonterminal (c : ChatCompletionChunk) : Prop :=
  chunk_finish_reason c = None.

Definition terminal (c : ChatCompletionChunk) : Prop :=
  chunk_finish_reason c <> None.

Definition is_terminal (c : ChatCompletionChunk) : bool :=
  match chunk_finish_reason c with
  | Some _ => true
  | None => false
  end.

(** A run that yielded non-terminal chunks only. *)
Definition open_result {A} (r : list pyval * res A * Sys) : Prop :=
  exists cs, yielded r = map model_dump cs /\ Forall nonterminal cs.

(** A run that, when it ended without an exception, yielded a terminal chunk
    last and non-terminal chunks before it, and non-terminal chunks only
    when it was cut short. *)
Definition closed_result {A} (r : list pyval * res A * Sys) : Prop :=
  exists cs,
    yielded r = map model_dump cs
    /\ match outcome r with
       | Ok _ =>
           exists init c, cs = init ++ [c] /\ Forall nonterminal init /\ terminal c
       | Raise _ => Forall nonterminal cs
       end.

(** The chunks of one upstream event: only the last one can be terminal, and
    it is whenever the event was normalized to the end. *)
Definition event_shape (r : list pyval * res unit * Sys) : Prop :=
  exists cs,
    yielded r = map model_dump cs
    /\ (cs = []
        \/ exists init c,
             cs = init ++ [c]
             /\ Forall nonterminal init
             /\ (outcome r = Ok tt -> terminal c)).

Lemma gen_bind_lift {A B} (r : res A) (k : A -> Gen B) (s : Sys) :
  gen_bind (gen_lift r) k s
  = match r with
    | Ok a => k a s
    | Raise e => ([], Raise e, s)
    end.
Proof.
  unfold gen_bind, gen_lift. destruct r as [a|e]; [|reflexivity].
  now destruct (k a s) as [[out r'] s'].
Qed.

Lemma gen_bind_uuid {B} (rt : Runtime) (k : string -> Gen B) (s : Sys) :
  gen_bind (uuid_uuid4 rt) k s
  = k (uuid4 rt (uuid_calls s))
      {| uuid_calls := S (uuid_calls s); clock_calls := clock_calls s |}.
Proof.
  unfold gen_bind, uuid_uuid4.
  now destruct (k _ _) as [[out r'] s'].
Qed.

Lemma gen_bind_ok {A B} (m : Gen A) (k : A -> Gen B) (s s' : Sys)
    (out : list pyval) (a : A) :
  m s = (out, Ok a, s') ->
  gen_bind m k s
  = match k a s' with
    | (out', r, s'') => (out ++ out', r, s'')
    end.
Proof. intros Hm. unfold gen_bind. now rewrite Hm. Qed.

Lemma open_lift {A} (r : res A) (s : Sys) : open_result (gen_lift r s).
Proof. exists []. split; [reflexivity|constructor]. Qed.

Lemma open_ret {A} (a : A) (s : Sys) : open_result (gen_ret a s).
Proof. exists []. split; [reflexivity|constructor]. Qed.

Lemma open_uuid (rt : Runtime) (s : Sys) : open_result (uuid_uuid4 rt s).
Proof. exists []. split; [reflexivity|constructor]. Qed.

Lemma open_time (rt : Runtime) (s : Sys) : open_result (time_now rt s).
Proof. exists []. split; [reflexivity|constructor]. Qed.

Lemma open_yield (c : ChatCompletionChunk) (s : Sys) :
  nonterminal c -> open_result (yield (model_dump c) s).
Proof.
  intros Hc. exists [c]. split; [reflexivity|]. now constructor.
Qed.

Lemma open_bind {A B} (m : Gen A) (k : A -> Gen B) :
  (forall s, open_result (m s)) ->
  (forall a s, open_result (k a s)) ->
  forall s, open_result (gen_bind m k s).
Proof.
  intros Hm Hk s. unfold gen_bind.
  destruct (Hm s) as [cs [Hy Hcs]].
  destruct (m s) as [[out [a|e]] s']; unfold yielded in Hy; simpl in Hy.
  - destruct (Hk a s') as [cs' [Hy' Hcs']].
    destruct (k a s') as [[out' r'] s'']; unfold yielded in Hy'; simpl in Hy'.
    exists (cs ++ cs'). unfold yielded; simpl. split.
    + now rewrite map_app, Hy, Hy'.
    + apply Forall_app. now split.
  - exists cs. now split.
Qed.

Lemma closed_bind {A B} (m : Gen A) (k : A -> Gen B) :
  (forall s, open_result (m s)) ->
  (forall a s, closed_result (k a s)) ->
  forall s, closed_result (gen_bind m k s).
Proof.
  intros Hm Hk s. unfold gen_bind.
  destruct (Hm s) as [cs [Hy Hcs]].
  destruct (m s) as [[out [a|e]] s']; unfold yielded in Hy; simpl in Hy.
  - destruct (Hk a s') as [cs' [Hy' Hshape]].
    destruct (k a s') as [[out' r'] s''];
      unfold yielded, outcome in Hy', Hshape; simpl in Hy', Hshape.
    exists (cs ++ cs'). unfold yielded, outcome; simpl. split.
    + now rewrite map_app, Hy, Hy'.
    + destruct r' as [b|e].
      * destruct Hshape as [init [c [-> [Hinit Hc]]]].
        exists (cs ++ init), c. rewrite app_assoc. repeat split.
        -- apply Forall_app. now split.
        -- exact Hc.
      * apply Forall_app. now split.
  - exists cs. now split.
Qed.

Lemma closed_event_shape (r : list pyval * res unit * Sys) :
  closed_result r -> event_shape r.
Proof.
  intros [cs [Hy Hshape]]. exists cs. split; [exact Hy|].
  destruct (outcome r) as [[]|e] eqn:Hr.
  - right. destruct Hshape as [init [c [-> [Hinit Hc]]]].
    exists init, c. now repeat split.
  - destruct cs as [|c0 cs0]; [now left|right].
    destruct (exists_last (l := c0 :: cs0)) as [init [c Heq]]; [discriminate|].
    exists init, c. rewrite Heq in *. repeat split.
    + apply Forall_app in Hshape. tauto.
    + discriminate.
Qed.

Lemma silent_event_shape (r : list pyval * res unit * Sys) :
  yielded r = [] -> event_shape r.
Proof. intros Hy. exists []. split; [exact Hy|now left]. Qed.

Ltac open_steps :=
  repeat first
    [ apply open_lift | apply open_ret | apply open_uuid | apply open_time
    | apply open_yield; reflexivity
    | apply open_bind; [intros ?|intros ? ?] ].

Section Shapes.

Variable rt : Runtime.
Variable request : ChatRequest.

Lemma closed_closing (fr : string) (s : Sys) :
  closed_result (yield_closing rt request fr s).
Proof.
  eexists [_]. unfold yielded, outcome; simpl. split; [reflexivity|].
  exists [], (closing_chunk request fr (uuid4 rt (uuid_calls s))
                (clock rt (clock_calls s))).
  repeat split; [constructor|discriminate].
Qed.

Lemma open_yield_text (text : res pyval) (s : Sys) :
  open_result (yield_text rt request text s).
Proof. unfold yield_text. revert s. open_steps. Qed.

Lemma open_yield_parts (parts : list pyval) (index : Z) (s : Sys) :
  open_result (VertexAIProvider.yield_parts rt request index parts s).
Proof.
  revert index s. induction parts as [|p parts IH]; intros index s; simpl.
  - apply open_ret.
  - revert s. apply open_bind; [intros s|intros _ s].
    + unfold VertexAIProvider.yield_name_chunk. revert s. open_steps.
    + revert s. apply open_bind; [intros s|intros _ s].
      * unfold VertexAIProvider.yield_args_chunk. revert s. open_steps.
      * apply IH.
Qed.

Lemma vertexai_event_shape (piece : string) (s : Sys) :
  event_shape (VertexAIProvider.parse_piece rt request piece s).
Proof.
  unfold VertexAIProvider.parse_piece.
  rewrite gen_bind_lift.
  destruct (VertexAIProvider.event_content rt piece) as [chunk|e];
    [|now apply silent_event_shape].
  rewrite gen_bind_lift.
  destruct (VertexAIProvider.is_function_call chunk) as [[|]|e];
    [| |now apply silent_event_shape].
  - apply closed_event_shape. revert s.
    apply closed_bind; [intros s|intros _ s].
    { unfold VertexAIProvider.yield_first_chunk. revert s. open_steps. }
    revert s. apply closed_bind; [intros s; apply open_lift|intros parts s].
    revert s. apply closed_bind; [intros s; apply open_yield_parts|intros _ s].
    apply closed_closing.
  - rewrite gen_bind_lift.
    destruct (VertexAIProvider.part_text chunk) as [text|e];
      [|now apply silent_event_shape].
    destruct (truthy text); [|now apply silent_event_shape].
    apply closed_event_shape. revert s.
    apply closed_bind; [intros s; apply open_yield_text|intros _ s].
    apply closed_closing.
Qed.

(** An Anthropic line yields one chunk at most, terminal exactly when the
    line begins with a stop marker. *)
Lemma anthropic_at_most_one (piece : string) (s : Sys) :
  exists cs,
    yielded (AnthropicProvider.parse_piece rt request piece s) = map model_dump cs
    /\ (length cs <= 1)%nat
    /\ forall line,
         decode_utf8 rt piece = Ok line ->
         Forall (fun c => terminal c
                          <-> startswith_any line AnthropicProvider.stop_markers
                              = true) cs.
Proof.
  unfold AnthropicProvider.parse_piece.
  rewrite gen_bind_lift.
  assert (Hsilent : forall r : list pyval * res unit * Sys,
             yielded r = [] ->
             exists cs,
               yielded r = map model_dump cs
               /\ (length cs <= 1)%nat
               /\ forall line,
                    decode_utf8 rt piece = Ok line ->
                    Forall (fun c => terminal c
                                     <-> startswith_any line
                                           AnthropicProvider.stop_markers = true) cs).
  { intros r Hr. exists []. repeat split; [exact Hr|simpl; lia|constructor]. }
  destruct (decode_utf8 rt piece) as [line|e]; [|now apply Hsilent].
  destruct (startswith_any line AnthropicProvider.stop_markers) eqn:Hm.
  - eexists [_]. split; [reflexivity|]. split; [simpl; lia|].
    intros line' Heq. assert (Hl : line' = line) by congruence. subst line'.
    constructor; [|constructor].
    rewrite Hm. split; [reflexivity|discriminate].
  - unfold gen_try_pass. rewrite gen_bind_lift.
    destruct (part <- item1 (split line AnthropicProvider.delta_marker) ;;
              json_loads rt part) as [data|e]; [|now apply Hsilent].
    unfold yield_text. rewrite gen_bind_uuid.
    rewrite gen_bind_lift.
    destruct (d <- get data "delta" ;; get d "text") as [v|e];
      [|now apply Hsilent].
    rewrite gen_bind_lift.
    destruct (validate_opt_str "content" v) as [c|e]; [|now apply Hsilent].
    eexists [_]. split; [reflexivity|]. split; [simpl; lia|].
    intros line' Heq. assert (Hl : line' = line) by congruence. subst line'.
    constructor; [|constructor].
    rewrite Hm. split; [|discriminate].
    intros Hterm. now contradiction Hterm.
Qed.

(** C7, amended: of the chunks that a normalizer emits for one upstream
    event, only the last can carry a [finish_reason] other than none. A
    VertexAI event that is normalized to the end and emits anything ends
    with such a chunk; an Anthropic line emits one chunk at most, terminal
    exactly when the line begins with a stop marker. *)
Theorem one_terminal_per_event (piece : string) (s : Sys) :
  event_shape (VertexAIProvider.parse_piece rt request piece s)
  /\ exists cs,
       yielded (AnthropicProvider.parse_piece rt request piece s) = map model_dump cs
       /\ (length cs <= 1)%nat
       /\ forall line,
            decode_utf8 rt piece = Ok line ->
            Forall (fun c => terminal c
                             <-> startswith_any line AnthropicProvider.stop_markers
                                 = true) cs.
Proof.
  split; [apply vertexai_event_shape|apply anthropic_at_most_one].
Qed.

(** Bytes that do not decode end the stream with the decoder's exception;
    they never get to be a line. *)
Lemma anthropic_undecodable_piece (piece : string) (e : exn) (s : Sys) :
  decode_utf8 rt piece = Raise e ->
  AnthropicProvider.parse_piece rt request piece s = ([], Raise e, s).
Proof.
  intros Hdec. unfold AnthropicProvider.parse_piece.
  now rewrite gen_bind_lift, Hdec.
Qed.

(** The text that a content-delta line carries: the document after the
    marker, its [delta.text], as the chunk's [content]. *)
Definition delta_text (line : string) : res (option string) :=
  part <- item1 (split line AnthropicProvider.delta_marker) ;;
  data <- json_loads rt part ;;
  d <- get data "delta" ;;
  v <- get d "text" ;;
  validate_opt_str "content" v.

(** For a piece that decodes to a line: a line that begins with a
    content-stop or message-stop marker yields one chunk with [finish_reason] stop and an empty delta; a
    content-delta data line yields one chunk with its text; any other line,
    and any line that does not parse, yields nothing; in no case is an
    exception raised. *)
Theorem anthropic_line_cases (piece line : string) (s : Sys) :
  decode_utf8 rt piece = Ok line ->
  let r := AnthropicProvider.parse_piece rt request piece s in
  outcome r = Ok tt
  /\ (startswith_any line AnthropicProvider.stop_markers = true ->
      yielded r
      = [model_dump (closing_chunk request "stop" (uuid4 rt (uuid_calls s))
                       (clock rt (clock_calls s)))])
  /\ (startswith_any line AnthropicProvider.stop_markers = false ->
      forall text,
        delta_text line = Ok text ->
        yielded r
        = [model_dump (text_chunk request text (uuid4 rt (uuid_calls s))
                         (clock rt (clock_calls s)))])
  /\ (startswith_any line AnthropicProvider.stop_markers = false ->
      forall e, delta_text line = Raise e -> yielded r = []).
Proof.
  intros Hdec r. subst r.
  unfold AnthropicProvider.parse_piece, delta_text.
  rewrite gen_bind_lift, Hdec.
  destruct (startswith_any line AnthropicProvider.stop_markers).
  - repeat split; try discriminate; try reflexivity.
  - unfold gen_try_pass. rewrite gen_bind_lift.
    destruct (item1 (split line AnthropicProvider.delta_marker)) as [part|e1];
      simpl bind;
      [|repeat split; try discriminate; try reflexivity].
    destruct (json_loads rt part) as [data|e2]; simpl bind;
      [|repeat split; try discriminate; try reflexivity].
    unfold yield_text. rewrite gen_bind_uuid.
    rewrite gen_bind_lift.
    destruct (get data "delta") as [d|e3]; simpl bind;
      [|repeat split; try discriminate; try reflexivity].
    destruct (get d "text") as [v|e4]; simpl bind;
      [|repeat split; try discriminate; try reflexivity].
    rewrite gen_bind_lift.
    destruct (validate_opt_str "content" v) as [c|e5];
      [|repeat split; try discriminate; try reflexivity].
    repeat split; try discriminate.
    intros _ text Heq. injection Heq as <-. reflexivity.
Qed.


(** What the yielding steps do when the values they read are there. *)
Lemma run_first_chunk (s : Sys) :
  VertexAIProvider.yield_first_chunk rt request s
  = ([model_dump (VertexAIProvider.first_chunk request (clock rt (clock_calls s)))],
     Ok tt,
     {| uuid_calls := uuid_calls s; clock_calls := S (clock_calls s) |}).
Proof. reflexivity. Qed.

Lemma run_closing (fr : string) (s : Sys) :
  yield_closing rt request fr s
  = ([model_dump (closing_chunk request fr (uuid4 rt (uuid_calls s))
                    (clock rt (clock_calls s)))],
     Ok tt,
     {| uuid_calls := S (uuid_calls s); clock_calls := S (clock_calls s) |}).
Proof. reflexivity. Qed.

Lemma run_text (text : res pyval) (c : option string) (s : Sys) :
  (v <- text ;; validate_opt_str "content" v) = Ok c ->
  yield_text rt request text s
  = ([model_dump (text_chunk request c (uuid4 rt (uuid_calls s))
                    (clock rt (clock_calls s)))],
     Ok tt,
     {| uuid_calls := S (uuid_calls s); clock_calls := S (clock_calls s) |}).
Proof.
  intros Hc. unfold yield_text.
  rewrite gen_bind_uuid, gen_bind_lift.
  destruct text as [v|e]; [|discriminate]. simpl in Hc.
  rewrite gen_bind_lift, Hc. reflexivity.
Qed.

Lemma run_name_chunk (index : Z) (functioncall : pyval) (n : option string)
    (s : Sys) :
  (v <- VertexAIProvider.function_call_field functioncall "name" ;;
   validate_opt_str "name" v) = Ok n ->
  VertexAIProvider.yield_name_chunk rt request index functioncall s
  = ([model_dump
        (VertexAIProvider.name_chunk request index (uuid4 rt (uuid_calls s))
           (uuid4 rt (S (uuid_calls s))) n (clock rt (clock_calls s)))],
     Ok tt,
     {| uuid_calls := S (S (uuid_calls s)); clock_calls := S (clock_calls s) |}).
Proof.
  intros Hn. unfold VertexAIProvider.yield_name_chunk.
  rewrite !gen_bind_uuid, gen_bind_lift, Hn. reflexivity.
Qed.

Lemma run_args_chunk (index : Z) (functioncall a : pyval) (s : Sys) :
  VertexAIProvider.function_call_field functioncall "args" = Ok a ->
  VertexAIProvider.yield_args_chunk rt request index functioncall s
  = ([model_dump
        (VertexAIProvider.args_chunk request index (uuid4 rt (uuid_calls s))
           (json_dumps rt a) (clock rt (clock_calls s)))],
     Ok tt,
     {| uuid_calls := S (uuid_calls s); clock_calls := S (clock_calls s) |}).
Proof.
  intros Ha. unfold VertexAIProvider.yield_args_chunk.
  rewrite gen_bind_uuid, gen_bind_lift, Ha. reflexivity.
Qed.

(** C8, amended: a VertexAI event whose only part is a function call yields
    four chunks: one that carries the assistant role alone, one that
    announces the call's name with empty arguments, one that carries the
    serialized arguments in one piece, and one with [finish_reason]
    tool_calls. An event whose first part is a non-empty text, and no
    function call, yields a chunk with the text and then one with
    [finish_reason] stop; when that text is empty or missing, the event
    yields nothing. *)
Theorem vertexai_event_chunks (piece : string) (s : Sys) (d : list (string * pyval)) :
  VertexAIProvider.event_content rt piece = Ok (PDict d) ->
  let u := uuid_calls s in
  let t := clock_calls s in
  (forall p fc name args,
      assoc "parts" d = Some (PList [PDict p]) ->
      assoc "functionCall" p = Some (PDict fc) ->
      assoc "name" fc = Some (PStr name) ->
      assoc "args" fc = Some args ->
      VertexAIProvider.parse_piece rt request piece s
      = (map model_dump
           [ VertexAIProvider.first_chunk request (clock rt t);
             VertexAIProvider.name_chunk request 0 (uuid4 rt u) (uuid4 rt (S u))
               (Some name) (clock rt (S t));
             VertexAIProvider.args_chunk request 0 (uuid4 rt (S (S u)))
               (json_dumps rt args) (clock rt (S (S t)));
             closing_chunk request "tool_calls" (uuid4 rt (S (S (S u))))
               (clock rt (S (S (S t)))) ],
         Ok tt,
         {| uuid_calls := S (S (S (S u))); clock_calls := S (S (S (S t))) |}))
  /\ (forall p rest text,
         assoc "parts" d = Some (PList (PDict p :: rest)) ->
         assoc "functionCall" p = None \/ assoc "functionCall" p = Some PNone ->
         assoc "text" p = Some (PStr text) ->
         text <> EmptyString ->
         VertexAIProvider.parse_piece rt request piece s
         = (map model_dump
              [ text_chunk request (Some text) (uuid4 rt u) (clock rt t);
                closing_chunk request "stop" (uuid4 rt (S u)) (clock rt (S t)) ],
            Ok tt,
            {| uuid_calls := S (S u); clock_calls := S (S t) |}))
  /\ (forall p rest,
         assoc "parts" d = Some (PList (PDict p :: rest)) ->
         assoc "functionCall" p = None \/ assoc "functionCall" p = Some PNone ->
         assoc "text" p = None \/ assoc "text" p = Some (PStr EmptyString) ->
         VertexAIProvider.parse_piece rt request piece s = ([], Ok tt, s)).
Proof.
  intros Hcontent u t. split; [|split].
  - intros p fc name args Hparts Hfc Hname Hargs.
    assert (Hcall : VertexAIProvider.is_function_call (PDict d) = Ok true).
    { unfold VertexAIProvider.is_function_call, VertexAIProvider.first_part, item.
      rewrite Hparts. simpl. now rewrite Hfc. }
    assert (Hlist : VertexAIProvider.parts_list (PDict d) = Ok [PDict p]).
    { unfold VertexAIProvider.parts_list, item. now rewrite Hparts. }
    assert (Hn : (v <- VertexAIProvider.function_call_field (PDict p) "name" ;;
                  validate_opt_str "name" v) = Ok (Some name)).
    { unfold VertexAIProvider.function_call_field, item.
      rewrite Hfc. simpl. now rewrite Hname. }
    assert (Ha : VertexAIProvider.function_call_field (PDict p) "args" = Ok args).
    { unfold VertexAIProvider.function_call_field, item.
      rewrite Hfc. simpl. now rewrite Hargs. }
    unfold VertexAIProvider.parse_piece.
    rewrite gen_bind_lift, Hcontent, gen_bind_lift, Hcall.
    rewrite (gen_bind_ok _ _ _ _ _ _ (run_first_chunk s)).
    rewrite gen_bind_lift, Hlist.
    assert (Hrun : forall s1,
               VertexAIProvider.yield_parts rt request 0 [PDict p] s1
               = (map model_dump
                    [ VertexAIProvider.name_chunk request 0 (uuid4 rt (uuid_calls s1))
                        (uuid4 rt (S (uuid_calls s1))) (Some name)
                        (clock rt (clock_calls s1));
                      VertexAIProvider.args_chunk request 0
                        (uuid4 rt (S (S (uuid_calls s1))))
                        (json_dumps rt args) (clock rt (S (clock_calls s1))) ],
                  Ok tt,
                  {| uuid_calls := S (S (S (uuid_calls s1)));
                     clock_calls := S (S (clock_calls s1)) |})).
    { intros s1. cbn [VertexAIProvider.yield_parts].
      rewrite (gen_bind_ok _ _ _ _ _ _ (run_name_chunk 0 (PDict p) (Some name) s1 Hn)).
      rewrite (gen_bind_ok _ _ _ _ _ _ (run_args_chunk 0 (PDict p) args _ Ha)).
      reflexivity. }
    rewrite (gen_bind_ok _ _ _ _ _ _ (Hrun _)).
    rewrite run_closing. reflexivity.
  - intros p rest text Hparts Hnofc Htext Hne.
    unfold VertexAIProvider.parse_piece.
    rewrite gen_bind_lift, Hcontent.
    assert (Hcall : VertexAIProvider.is_function_call (PDict d) = Ok false).
    { unfold VertexAIProvider.is_function_call, VertexAIProvider.first_part, item.
      rewrite Hparts. simpl.
      destruct Hnofc as [Hfc|Hfc]; rewrite Hfc; reflexivity. }
    rewrite gen_bind_lift, Hcall.
    assert (Hpart : VertexAIProvider.part_text (PDict d) = Ok (PStr text)).
    { unfold VertexAIProvider.part_text, get, get_default.
      rewrite Hparts. simpl. now rewrite Htext. }
    rewrite gen_bind_lift, Hpart.
    assert (Htruthy : truthy (PStr text) = true).
    { simpl. destruct text; [contradiction|reflexivity]. }
    rewrite Htruthy.
    rewrite (gen_bind_ok _ _ _ _ _ _
               (run_text (Ok (PStr text)) (Some text) s eq_refl)).
    rewrite run_closing. reflexivity.
  - intros p rest Hparts Hnofc Htext.
    unfold VertexAIProvider.parse_piece.
    rewrite gen_bind_lift, Hcontent.
    assert (Hcall : VertexAIProvider.is_function_call (PDict d) = Ok false).
    { unfold VertexAIProvider.is_function_call, VertexAIProvider.first_part, item.
      rewrite Hparts. simpl.
      destruct Hnofc as [Hfc|Hfc]; rewrite Hfc; reflexivity. }
    rewrite gen_bind_lift, Hcall, gen_bind_lift.
    unfold VertexAIProvider.part_text, get, get_default.
    rewrite Hparts. simpl.
    destruct Htext as [Ht|Ht]; rewrite Ht; reflexivity.
Qed.

End Shapes.

End NormalizerProperties.

Import JoinProperties NormalizerProperties.

(** C2, evaluated: a stream whose last chunk ends with the [finish_reason]
    content_filter makes [join_chunks] return [None] instead of raising, and
    the stream handler then fails with a [TypeError] when it unpacks that
    [None]; no [ProviderError] is raised. *)
Theorem unknown_finish_reason_type_error :
  join_chunks failing_provider filtered = Ok None
  /\ handle_response_stream_join failing_provider filtered
     = Raise (Exc TypeError "cannot unpack non-iterable NoneType object").
Proof. split; reflexivity. Qed.

Lemma join_chunks_tool_calls_by_index_witness :
  join_chunks failing_provider
    (map model_dump (interleaved ++ [example_closing "tool_calls"])%list)
  = Ok (Some
          (completion_from (example_closing "tool_calls") "tool_calls"
             (tool_message
                [ {| call_id := "call_0";
                     call_function :=
                       {| function_arguments := "{" ++ quoted "a" ++ ":1}";
                          function_name := "f" |};
                     call_type := "function" |};
                  {| call_id := "call_1";
                     call_function :=
                       {| function_arguments := "{" ++ quoted "b" ++ ":2}";
                          function_name := "g" |};
                     call_type := "function" |} ]),
           OutStrOfList
             [ PStr "f"; PStr "g";
               PStr ("{" ++ quoted "a" ++ ":1}");
               PStr ("{" ++ quoted "b" ++ ":2}") ])).
Proof.
  rewrite (proj1 (join_chunks_tool_calls_by_index Q ChatRequest unit unit
                    failing_provider interleaved (example_closing "tool_calls")
                    eq_refl eq_refl)).
  reflexivity.
Defined.

Lemma join_chunks_stop_text_witness :
  join_chunks openai_provider (map model_dump (greeting ++ [example_closing "stop"])%list)
  = Ok (Some (completion_from (example_closing "stop") "stop"
                (text_message "Hi there!"),
              OutStr "Hi there!"))
  /\ join_chunks failing_provider
       (map model_dump (greeting ++ [example_closing "length"])%list)
     = Ok (Some (completion_from (example_closing "length") "stop"
                   (text_message "Hi there!"),
                 OutStr "Hi there!")).
Proof.
  split.
  - rewrite (join_chunks_stop_text Q ChatRequest unit unit openai_provider
               greeting (example_closing "stop") eq_refl (or_introl eq_refl)).
    reflexivity.
  - rewrite (join_chunks_stop_text Q ChatRequest unit unit failing_provider
               greeting (example_closing "length") eq_refl (or_intror eq_refl)).
    reflexivity.
Defined.

(** C7, refuted as stated: the normalized stream of one Anthropic response
    carries two terminal chunks, one for the end of the content block and one
    for the end of the message. *)
Lemma anthropic_stream_two_terminal_chunks :
  let request := hello_request "claude" 0 in
  let cs :=
    [ text_chunk request (Some "Hello") (uuid4 test_runtime 0) (clock test_runtime 0);
      closing_chunk request "stop" (uuid4 test_runtime 1) (clock test_runtime 1);
      closing_chunk request "stop" (uuid4 test_runtime 2) (clock test_runtime 2) ] in
  AnthropicProvider.parse_response test_runtime request anthropic_lines fresh_sys
  = (map model_dump cs, Ok tt, {| uuid_calls := 3; clock_calls := 3 |})
  /\ map is_terminal cs = [false; true; true]
  /\ length (filter is_terminal cs) = 2%nat.
Proof. repeat split. Qed.

(** C9, evaluated: [chunk.decode] stands before the [try], so a piece of the
    response body that is not well-formed UTF-8 on its own, here the head of
    a line that the transport cut inside a two-byte character, is not
    skipped: the decoder's exception leaves the generator in the middle of
    the stream. The chunk of the line before it was yielded, and the pieces
    after it, the end of the message among them, are never read. The two
    pieces of the cut line together are well-formed. *)
Theorem anthropic_cut_piece_raises :
  let request := hello_request "claude" 0 in
  decode_utf8 utf8_runtime (cut_head ++ cut_tail) = Ok (cut_head ++ cut_tail)
  /\ decode_utf8 utf8_runtime cut_head = Raise undecodable
  /\ AnthropicProvider.parse_response utf8_runtime request cut_lines fresh_sys
     = ([model_dump (text_chunk request (Some "Hello") (uuid4 utf8_runtime 0)
                       (clock utf8_runtime 0))],
        Raise undecodable,
        {| uuid_calls := 1; clock_calls := 1 |}).
Proof. repeat split. Qed.

Lemma one_terminal_per_event_witness :
  event_shape (VertexAIProvider.parse_piece test_runtime (hello_request "gemini" 0)
                 ("data: " ++ call_document) fresh_sys).
Proof.
  apply (proj1 (one_terminal_per_event test_runtime (hello_request "gemini" 0)
                  ("data: " ++ call_document) fresh_sys)).
Defined.

(** C8, refuted as stated: an event with one function-call part yields four
    chunks, not three, and an event whose text part is empty yields none. *)
Lemma vertexai_call_event_four_chunks :
  length (yielded (VertexAIProvider.parse_piece test_runtime
                     (hello_request "gemini" 0)
                     ("data: " ++ call_document) fresh_sys)) = 4%nat
  /\ yielded (VertexAIProvider.parse_piece test_runtime
                (hello_request "gemini" 0)
                ("data: " ++ text_document EmptyString) fresh_sys) = [].
Proof. split; reflexivity. Qed.

Lemma vertexai_event_chunks_witness :
  length (yielded (VertexAIProvider.parse_piece test_runtime
                     (hello_request "gemini" 0)
                     ("data: " ++ call_document) fresh_sys)) = 4%nat
  /\ length (yielded (VertexAIProvider.parse_piece test_runtime
                        (hello_request "gemini" 0)
                        ("data: " ++ text_document "Hello") fresh_sys)) = 2%nat.
Proof.
  split.
  - rewrite (proj1 (vertexai_event_chunks test_runtime (hello_request "gemini" 0)
                      ("data: " ++ call_document) fresh_sys
                      [("parts",
                        PList [PDict [("functionCall",
                                       PDict [("name", PStr "get_weather");
                                              ("args", PDict [("city", PStr "Paris")])])]])]
                      eq_refl)
               [("functionCall",
                 PDict [("name", PStr "get_weather");
                        ("args", PDict [("city", PStr "Paris")])])]
               [("name", PStr "get_weather"); ("args", PDict [("city", PStr "Paris")])]
               "get_weather"
               (PDict [("city", PStr "Paris")])
               eq_refl eq_refl eq_refl eq_refl).
    reflexivity.
  - rewrite (proj1 (proj2 (vertexai_event_chunks test_runtime
                             (hello_request "gemini" 0)
                             ("data: " ++ text_document "Hello") fresh_sys
                             [("parts", PList [PDict [("text", PStr "Hello")]])]
                             eq_refl))
               [("text", PStr "Hello")] [] "Hello"
               eq_refl (or_introl eq_refl) eq_refl).
    + reflexivity.
    + discriminate.
Defined.

Lemma anthropic_line_cases_witness :
  yielded (AnthropicProvider.parse_piece test_runtime (hello_request "claude" 0)
             "event: message_stop" fresh_sys)
  = [model_dump (closing_chunk (hello_request "claude" 0) "stop"
                   (uuid4 test_runtime 0) (clock test_runtime 0))]
  /\ yielded (AnthropicProvider.parse_piece test_runtime (hello_request "claude" 0)
                ("event: content_block_delta" ++ newline ++ "data: "
                 ++ delta_document "Hello") fresh_sys)
     = [model_dump (text_chunk (hello_request "claude" 0) (Some "Hello")
                      (uuid4 test_runtime 0) (clock test_runtime 0))]
  /\ yielded (AnthropicProvider.parse_piece test_runtime (hello_request "claude" 0)
                "event: ping" fresh_sys) = []
  /\ outcome (AnthropicProvider.parse_piece test_runtime (hello_request "claude" 0)
                "event: ping" fresh_sys) = Ok tt.
Proof.
  split; [|split; [|split]].
  - apply (proj1 (proj2 (anthropic_line_cases test_runtime (hello_request "claude" 0)
                           "event: message_stop" "event: message_stop" fresh_sys
                           eq_refl))).
    reflexivity.
  - apply (proj1 (proj2 (proj2
             (anthropic_line_cases test_runtime (hello_request "claude" 0)
                _ _ fresh_sys eq_refl)))).
    + reflexivity.
    + reflexivity.
  - apply (proj2 (proj2 (proj2
             (anthropic_line_cases test_runtime (hello_request "claude" 0)
                "event: ping" "event: ping" fresh_sys eq_refl)))
             eq_refl (Exc IndexError "list index out of range")).
    reflexivity.
  - apply (proj1 (anthropic_line_cases test_runtime (hello_request "claude" 0)
                    "event: ping" "event: ping" fresh_sys eq_refl)).
Defined.

(** * Further properties of the provider core *)

Module ChatExtras.

Section Chat.

Variable float : Type.
Variables Raw Response Completion : Type.
Variable self : Provider float Raw Response Completion.

Lemma for_range_leaves {A} (n : nat) (body : World -> control A * World)
    (after : World -> res A * World) (w : World) :
  fst (body w) <> Next ->
  snd (for_range (S n) body after w) = snd (body w)
  /\ (forall e, fst (for_range (S n) body after w) = Raise e ->
                fst (body w) = Throw e).
Proof.
  intros Hleave. simpl.
  destruct (body w) as [[|a|e] w']; simpl in *.
  - contradiction.
  - split; [reflexivity|discriminate].
  - split; [reflexivity|]. now intros e' [= ->].
Qed.

(** X1: [chat] sends at most one request, whatever the retry budget and
    whatever the upstream answers. *)
Theorem chat_sends_at_most_once (raw : Raw) (w : World) :
  (sends w <= sends (snd (chat self raw w)) <= S (sends w))%nat.
Proof.
  unfold chat, try_except.
  destruct (validate_request self raw) as [request|e].
  - destruct (validate_model self request) as [[]|e]; [|simpl; lia].
    destruct (retries request) as [budget|]; [|simpl; lia].
    destruct (Z.to_nat (budget + 1)) as [|n]; [simpl; lia|].
    destruct (chat_attempt_leaves float Raw Response Completion self request w)
      as [Hleave Hsends].
    destruct (for_range_leaves n (chat_attempt self request)
                (fun w' => (Raise (Exc ProviderError "Too many requests"), w'))
                w Hleave) as [Hw _].
    rewrite Hw, Hsends. lia.
  - destruct (exn_class_eqb (exn_cls e) ValidationError); simpl; lia.
Qed.

(** X2: A retry budget below zero leaves the loop without a pass: nothing is
    sent and the caller gets the error that was meant for an exhausted
    budget. *)
Theorem chat_negative_retries (raw : Raw) (request : ChatRequest) (budget : Z)
    (w : World) :
  validate_request self raw = Ok request ->
  model_supported self (model request) = true ->
  retries request = Some budget ->
  budget < 0 ->
  chat self raw w = (Raise (Exc ProviderError "Too many requests"), w).
Proof.
  intros Hvalid Hmodel Hbudget Hneg.
  unfold chat, try_except, validate_model.
  rewrite Hvalid, Hmodel; simpl. rewrite Hbudget.
  replace (Z.to_nat (budget + 1)) with 0%nat by lia.
  reflexivity.
Qed.

(** X3: Whatever [chat] raises is a [ProviderError], with two exceptions, both
    raised before anything is sent: an exception of [validate_request] that
    is not a [ValidationError] reaches the caller as it is, and a validated
    request whose [retries] is [None] makes [range(request.retries + 1)]
    raise a [TypeError]. *)
Theorem chat_raises_provider_error (raw : Raw) (w w' : World) (e : exn) :
  chat self raw w = (Raise e, w') ->
  exn_cls e = ProviderError
  \/ (validate_request self raw = Raise e
      /\ exn_cls e <> ValidationError
      /\ w' = w)
  \/ (exists request,
        validate_request self raw = Ok request
        /\ model_supported self (model request) = true
        /\ retries request = None
        /\ exn_cls e = TypeError
        /\ w' = w).
Proof.
  unfold chat, try_except.
  destruct (validate_request self raw) as [request|e0].
  - unfold validate_model.
    destruct (model_supported self (model request)) eqn:Hmodel; cbn [negb].
    2:{ intros [= <- _]. now left. }
    destruct (retries request) as [budget|] eqn:Hbudget.
    2:{ intros [= <- <-]. right. right. exists request. now repeat split. }
    + destruct (Z.to_nat (budget + 1)) as [|n].
      * simpl. intros [= <- _]. now left.
      * intros Hchat. left.
        destruct (chat_attempt_leaves float Raw Response Completion self request w)
          as [Hleave _].
        destruct (for_range_leaves n (chat_attempt self request)
                    (fun w0 => (Raise (Exc ProviderError "Too many requests"), w0))
                    w Hleave) as [_ Hthrow].
        specialize (Hthrow e). rewrite Hchat in Hthrow. specialize (Hthrow eq_refl).
        revert Hthrow.
        unfold chat_attempt, time_time, count_send, try_except_all, bind; simpl.
        destruct (generate_client self (sends w) request) as [response|e1]; simpl.
        -- destruct (is_stream request); simpl; [discriminate|].
           destruct (handle_response_non_stream self request response (clock_reads w));
             simpl; [discriminate|]. now intros [= <-].
        -- now intros [= <-].
  - destruct (exn_class_eqb (exn_cls e0) ValidationError) eqn:Hcls.
    + intros [= <- _]. now left.
    + intros [= <- <-]. right. left. repeat split.
      intros Heq. rewrite Heq in Hcls. discriminate.
Qed.

End Chat.

End ChatExtras.

Module CostExtras.

Section Cost.

Variable float : Type.
Variable fmul : float -> Z -> float.

(** Bands that follow one another without gap or overlap from [lo]
    upwards: each bounded band ends where the next begins, and the last
    one has no upper bound. *)
Fixpoint chained (lo : Z) (bands : list (CostRange float)) : Prop :=
  match bands with
  | [] => False
  | band :: rest =>
      range_min band = lo
      /\ match range_max band with
         | None => rest = []
         | Some hi => lo <= hi /\ chained (hi + 1) rest
         end
  end.

Lemma chained_lower (lo : Z) (bands : list (CostRange float)) (b : CostRange float) :
  chained lo bands -> In b bands -> lo <= range_min b.
Proof.
  revert lo. induction bands as [|band rest IH]; intros lo Hch Hin; [contradiction|].
  destruct Hch as [Hmin Hmax]. destruct Hin as [<-|Hin]; [lia|].
  destruct (range_max band) as [hi|]; [|subst rest; contradiction].
  destruct Hmax as [Hle Hrest]. specialize (IH (hi + 1) Hrest Hin). lia.
Qed.

(** X4: When the bands partition the counts from [lo] upwards, every such count
    lies in one band and one only, and [calculate_cost] prices it at that
    band's rate: the result is never the integer 0 of the fall-through. *)
Theorem calculate_cost_partition (lo token_count : Z) (bands : list (CostRange float)) :
  chained lo bands ->
  lo <= token_count ->
  exists band,
    In band bands
    /\ contains band token_count
    /\ (forall b, In b bands -> contains b token_count -> b = band)
    /\ calculate_cost fmul token_count (Banded bands)
       = CostFloat (fmul (cost band) token_count).
Proof.
  unfold calculate_cost.
  revert lo. induction bands as [|band rest IH]; intros lo Hch Hlo; [contradiction|].
  destruct Hch as [Hmin Hmax]. simpl.
  destruct (in_range token_count band) eqn:Hin.
  - exists band. split; [|split; [|split]]; [| | |reflexivity].
    + now left.
    + now apply in_range_contains.
    + apply in_range_contains in Hin.
      intros b [Hb|Hb] Hc; [now symmetry|]. exfalso.
      unfold contains in Hin.
      destruct (range_max band) as [hi|]; [|subst rest; contradiction].
      destruct Hmax as [_ Hrest].
      pose proof (chained_lower (hi + 1) rest b Hrest Hb) as Hlow.
      destruct Hin as [_ Hhi]. destruct Hc as [Hc _]. lia.
  - assert (Hout : ~ contains band token_count).
    { intros Hc. apply in_range_contains in Hc. congruence. }
    destruct (range_max band) as [hi|] eqn:Hm.
    + destruct Hmax as [Hle Hrest].
      assert (Hgt : hi + 1 <= token_count).
      { unfold in_range in Hin. rewrite Hm in Hin.
        apply andb_false_iff in Hin. destruct Hin as [Hin|Hin].
        - rewrite Z.geb_leb in Hin. apply Z.leb_gt in Hin. lia.
        - apply Z.leb_gt in Hin. lia. }
      destruct (IH (hi + 1) Hrest Hgt) as [b [Hb [Hc [Huniq Hcost]]]].
      exists b. split; [|split; [|split]]; try assumption.
      * now right.
      * intros b' [<-|Hb'] Hc'; [contradiction|]. now apply Huniq.
    + exfalso. apply Hout. unfold contains. rewrite Hm. split; [lia|exact I].
Qed.

End Cost.

End CostExtras.

Lemma chat_negative_retries_witness :
  chat failing_provider (hello_request "test_model" (-1)) fresh_world
  = (Raise (Exc ProviderError "Too many requests"), fresh_world).
Proof.
  apply (ChatExtras.chat_negative_retries Q ChatRequest unit unit failing_provider
           (hello_request "test_model" (-1)) (hello_request "test_model" (-1))
           (-1) fresh_world eq_refl eq_refl eq_refl).
  lia.
Defined.

(** A request whose retry budget was passed as [None]. *)
Definition unbudgeted_request : ChatRequest :=
  {| chat_input := PStr "Hello?";
     model := "test_model";
     is_stream := false;
     retries := None;
     parameters := PDict [] |}.

Definition none_plus_int : exn :=
  Exc TypeError "unsupported operand type(s) for +: 'NoneType' and 'int'".

Lemma chat_raises_provider_error_witness :
  chat failing_provider unbudgeted_request fresh_world
  = (Raise none_plus_int, fresh_world)
  /\ (exn_cls none_plus_int = ProviderError
      \/ (validate_request failing_provider unbudgeted_request = Raise none_plus_int
          /\ exn_cls none_plus_int <> ValidationError
          /\ fresh_world = fresh_world)
      \/ (exists request,
            validate_request failing_provider unbudgeted_request = Ok request
            /\ model_supported failing_provider (model request) = true
            /\ retries request = None
            /\ exn_cls none_plus_int = TypeError
            /\ fresh_world = fresh_world)).
Proof.
  split; [reflexivity|].
  apply (ChatExtras.chat_raises_provider_error Q ChatRequest unit unit
           failing_provider unbudgeted_request fresh_world fresh_world
           none_plus_int).
  reflexivity.
Defined.

Lemma calculate_cost_partition_witness :
  exists band,
    In band tiered
    /\ contains band 1500
    /\ (forall b, In b tiered -> contains b 1500 -> b = band)
    /\ calculate_cost rate_times 1500 (Banded tiered)
       = CostFloat (rate_times (cost band) 1500).
Proof.
  apply (CostExtras.calculate_cost_partition Q rate_times 0 1500 tiered).
  - simpl. repeat split; lia.
  - lia.
Defined.

Module JoinExtras.

Local Open Scope list_scope.

Lemma str_app_assoc (a b c : string) : ((a ++ b) ++ c = a ++ (b ++ c))%string.
Proof. induction a as [|x a IH]; simpl; [reflexivity|now rewrite IH]. Qed.

Lemma str_app_nil_r (a : string) : (a ++ EmptyString)%string = a.
Proof. induction a as [|x a IH]; simpl; [reflexivity|now rewrite IH]. Qed.

(** The function-call fragment that [join_chunks] reads from a chunk. *)
Definition leading_function_call (c : ChatCompletionChunk)
    : option ChoiceDeltaFunctionCall :=
  match choices c with
  | ch :: _ => function_call (delta ch)
  | [] => None
  end.

Definition function_fragments (cs : list ChatCompletionChunk)
    : list ChoiceDeltaFunctionCall :=
  somes (map leading_function_call cs).

Definition function_message (name arguments : string) : ChatCompletionMessage :=
  {| message_content := None;
     message_role := "assistant";
     message_function_call :=
       Some {| call_arguments := arguments; call_name := name |};
     message_tool_calls := None |}.

Definition has_arguments (f : ChoiceDeltaFunctionCall) : bool :=
  match fc_arguments f with
  | Some _ => true
  | None => false
  end.

Lemma chunk_function_call_dump (c : ChatCompletionChunk) :
  chunk_function_call (model_dump c)
  = Ok (option_map dump_function_call (leading_function_call c)).
Proof.
  unfold chunk_function_call, leading_function_call, model_dump; simpl.
  destruct (choices c) as [|ch rest]; simpl; [reflexivity|].
  now destruct (function_call (delta ch)).
Qed.

Lemma somes_option_map {A B} (f : A -> B) (l : list (option A)) :
  somes (map (option_map f) l) = map f (somes l).
Proof.
  induction l as [|[a|] l IH]; simpl; [reflexivity| |exact IH]. now rewrite IH.
Qed.

Lemma selected_function_calls (cs : list ChatCompletionChunk) :
  mapM chunk_function_call (map model_dump cs)
  = Ok (map (option_map dump_function_call) (map leading_function_call cs)).
Proof.
  rewrite map_map.
  apply JoinProperties.mapM_map_ok. intros c _. apply chunk_function_call_dump.
Qed.

Lemma concat_arguments_dump (fcs : list ChoiceDeltaFunctionCall) (acc : string) :
  forallb has_arguments fcs = true ->
  concat_arguments acc (map dump_function_call fcs)
  = Ok (acc ++ JoinProperties.concat_str
                 (map (fun f => JoinProperties.or_empty (fc_arguments f)) fcs))%string.
Proof.
  revert acc. induction fcs as [|f fcs IH]; intros acc Hall; simpl.
  - now rewrite str_app_nil_r.
  - simpl in Hall. apply andb_true_iff in Hall. destruct Hall as [Hf Hall].
    unfold has_arguments in Hf.
    destruct (fc_arguments f) as [a|]; [|discriminate]. simpl.
    rewrite IH by assumption. now rewrite str_app_assoc.
Qed.

Section Join.

Variable float : Type.
Variables Raw Response Completion : Type.
Variable self : Provider float Raw Response Completion.

Lemma join_function_call_dump (cs : list ChatCompletionChunk)
    (last : ChatCompletionChunk) (f0 : ChoiceDeltaFunctionCall)
    (rest : list ChoiceDeltaFunctionCall) (name : string) :
  function_fragments cs = f0 :: rest ->
  fc_name f0 = Some name ->
  forallb has_arguments (f0 :: rest) = true ->
  let arguments :=
    JoinProperties.concat_str
      (map (fun f => JoinProperties.or_empty (fc_arguments f)) (f0 :: rest)) in
  join_function_call (map model_dump (cs ++ [last]))
  = Ok (Some (JoinProperties.completion_from last "function_call"
                (function_message name arguments),
              OutStr arguments)).
Proof.
  intros Hfrags Hname Hargs arguments.
  assert (Hinit : removelast (map model_dump (cs ++ [last])) = map model_dump cs).
  { rewrite map_app. apply removelast_last. }
  unfold join_function_call.
  rewrite Hinit, selected_function_calls. unfold bind at 1. cbv zeta.
  rewrite somes_option_map. fold (function_fragments cs). rewrite Hfrags.
  rewrite (concat_arguments_dump (f0 :: rest) EmptyString Hargs).
  change (EmptyString ++ ?x)%string with x. fold arguments.
  change (item0 (PList (map dump_function_call (f0 :: rest))))
    with (@Ok pyval (dump_function_call f0)).
  unfold bind at 1.
  change (get (dump_function_call f0) "name") with (@Ok pyval (dump_opt_str (fc_name f0))).
  rewrite Hname. unfold bind at 1.
  cbn [bind mk_FunctionCall validate_str dump_opt_str].
  rewrite JoinProperties.completion_of_last_dump. reflexivity.
Qed.

(** X5: With the terminal [finish_reason] function_call, [join_chunks] names the
    call after the first fragment among the chunks before the last one and
    joins the arguments of all of them in arrival order; a fragment on the
    last chunk itself is not read. *)
Theorem join_chunks_function_call (cs : list ChatCompletionChunk)
    (last : ChatCompletionChunk) (f0 : ChoiceDeltaFunctionCall)
    (rest : list ChoiceDeltaFunctionCall) (name : string) :
  JoinProperties.has_choice last = true ->
  JoinProperties.chunk_finish_reason last = Some "function_call" ->
  function_fragments cs = f0 :: rest ->
  fc_name f0 = Some name ->
  forallb has_arguments (f0 :: rest) = true ->
  let arguments :=
    JoinProperties.concat_str
      (map (fun f => JoinProperties.or_empty (fc_arguments f)) (f0 :: rest)) in
  join_chunks self (map model_dump (cs ++ [last]))
  = Ok (Some (JoinProperties.completion_from last "function_call"
                (function_message name arguments),
              OutStr arguments)).
Proof.
  intros Hlast Hfr Hfrags Hname Hargs arguments.
  unfold join_chunks.
  rewrite JoinProperties.terminal_finish_reason_dump by exact Hlast.
  rewrite Hfr. simpl.
  now apply join_function_call_dump.
Qed.

(** X6: With the terminal [finish_reason] function_call and no fragment before
    the last chunk, [join_chunks] fails with an [IndexError]. *)
Theorem join_chunks_function_call_without_fragment (cs : list ChatCompletionChunk)
    (last : ChatCompletionChunk) :
  JoinProperties.has_choice last = true ->
  JoinProperties.chunk_finish_reason last = Some "function_call" ->
  function_fragments cs = [] ->
  raises (join_chunks self (map model_dump (cs ++ [last]))) IndexError.
Proof.
  intros Hlast Hfr Hfrags.
  unfold join_chunks.
  rewrite JoinProperties.terminal_finish_reason_dump by exact Hlast.
  rewrite Hfr. simpl.
  unfold join_function_call.
  assert (Hinit : removelast (map model_dump (cs ++ [last])) = map model_dump cs).
  { rewrite map_app. apply removelast_last. }
  rewrite Hinit, selected_function_calls. unfold bind at 1. cbv zeta.
  rewrite somes_option_map. fold (function_fragments cs). rewrite Hfrags.
  simpl. eexists. reflexivity.
Qed.

Lemma group_tool_calls_app (l1 l2 : list pyval) (d : list (key * list pyval)) :
  group_tool_calls (l1 ++ l2) d
  = (d' <- group_tool_calls l1 d ;; group_tool_calls l2 d').
Proof.
  revert d. induction l1 as [|c l1 IH]; intros d; simpl; [reflexivity|].
  destruct (group_tool_call d c) as [d'|e]; simpl; [apply IH|reflexivity].
Qed.

(** X7: Only a [TypeError] skips a chunk: a chunk whose [tool_calls] is an empty
    list, rather than null, makes the join fail with an [IndexError]. *)
Theorem join_chunks_empty_tool_calls_list (cs1 cs2 : list ChatCompletionChunk)
    (c : ChatCompletionChunk) (ch : Choice) (more : list Choice) :
  forallb JoinProperties.chunk_ok cs1 = true ->
  choices c = ch :: more ->
  tool_calls (delta ch) = Some [] ->
  terminal_finish_reason (map model_dump (cs1 ++ c :: cs2)) = Ok (PStr "tool_calls") ->
  raises (join_chunks self (map model_dump (cs1 ++ c :: cs2))) IndexError.
Proof.
  intros Hok Hc Ht Hterm.
  unfold join_chunks. rewrite Hterm. simpl eq_str. cbn [bind].
  unfold join_tool_calls.
  rewrite map_app, group_tool_calls_app.
  rewrite JoinProperties.group_tool_calls_dump by assumption.
  cbn [bind map group_tool_calls].
  assert (Hfail : forall d,
             group_tool_call d (model_dump c)
             = Raise (Exc IndexError "list index out of range")).
  { intros d. unfold group_tool_call.
    rewrite (JoinProperties.chunk_delta_dump c ch more Hc).
    unfold dump_delta. rewrite Ht. reflexivity. }
  rewrite Hfail. simpl. eexists. reflexivity.
Qed.

Lemma mapM_length {A B} (f : A -> res B) (l : list A) (r : list B) :
  mapM f l = Ok r -> length r = length l.
Proof.
  revert r. induction l as [|x l IH]; intros r; simpl.
  - now intros [= <-].
  - destruct (f x) as [y|e]; simpl; [|discriminate].
    destruct (mapM f l) as [ys|e]; simpl; [|discriminate].
    intros [= <-]. simpl. now rewrite (IH ys).
Qed.

Lemma zip4_length {A B C D} (la : list A) (lb : list B) (lc : list C) (ld : list D)
    (n : nat) :
  length la = n -> length lb = n -> length lc = n -> length ld = n ->
  length (zip4 la lb lc ld) = n.
Proof.
  revert la lb lc ld. induction n as [|n IH]; intros la lb lc ld Ha Hb Hc Hd.
  - now destruct la.
  - destruct la as [|a la], lb as [|b lb], lc as [|c lc], ld as [|d ld];
      try discriminate.
    simpl. f_equal. apply IH; simpl in *; congruence.
Qed.

Lemma completion_of_last_choices (chunks : list pyval) (fr : string)
    (msg : ChatCompletionMessage) (completion : ChatCompletion) :
  completion_of_last chunks fr msg = Ok completion ->
  completion_choices completion
  = [{| completion_finish_reason := fr; completion_index := 0; message := msg |}].
Proof.
  unfold completion_of_last, mk_ChatCompletion.
  destruct (last_item chunks) as [last|e]; simpl; [|discriminate].
  destruct (get last "id") as [i|e]; simpl; [|discriminate].
  destruct (get last "created") as [c|e]; simpl; [|discriminate].
  destruct (get last "model") as [m|e]; simpl; [|discriminate].
  destruct (validate_str "id" i) as [i'|e]; simpl; [|discriminate].
  destruct (validate_int "created" c) as [c'|e]; simpl; [|discriminate].
  destruct (validate_str "model" m) as [m'|e]; simpl; [|discriminate].
  now intros [= <-].
Qed.

Lemma join_stop_output (chunks : list pyval) (completion : ChatCompletion)
    (out : output_string) :
  join_stop self chunks = Ok (Some (completion, out)) ->
  exists text, out = OutStr text /\ output_to_string completion = Ok (Some text).
Proof.
  unfold join_stop.
  destruct (mapM _ (skipn (start_index self) chunks)) as [contents|e];
    simpl; [|discriminate].
  destruct (str_join (filter truthy contents)) as [text|e]; simpl; [|discriminate].
  match goal with
  | |- context [completion_of_last ?a ?b ?m] =>
      destruct (completion_of_last a b m) as [c|e] eqn:Hc
  end; cbn [bind]; [|discriminate].
  intros H. injection H as <- <-.
  exists text. split; [reflexivity|].
  unfold output_to_string.
  now rewrite (completion_of_last_choices _ _ _ _ Hc).
Qed.

Lemma join_function_call_output (chunks : list pyval) (completion : ChatCompletion)
    (out : output_string) :
  join_function_call chunks = Ok (Some (completion, out)) ->
  exists text, out = OutStr text /\ output_to_string completion = Ok (Some text).
Proof.
  unfold join_function_call.
  destruct (mapM chunk_function_call (removelast chunks)) as [selected|e];
    cbn [bind]; [|discriminate].
  destruct (item0 (PList (somes selected))) as [first|e]; cbn [bind]; [|discriminate].
  destruct (get first "name") as [name|e]; cbn [bind]; [|discriminate].
  destruct (concat_arguments EmptyString (somes selected)) as [arguments|e];
    cbn [bind]; [|discriminate].
  unfold mk_FunctionCall. cbn [bind validate_str].
  destruct name as [| z | name' | l | d]; cbn [bind validate_str];
    try discriminate.
  match goal with
  | |- context [completion_of_last ?a ?b ?m] =>
      destruct (completion_of_last a b m) as [c|e] eqn:Hc
  end; cbn [bind]; [|discriminate].
  intros H. injection H as <- <-.
  exists arguments. split; [reflexivity|].
  unfold output_to_string.
  now rewrite (completion_of_last_choices _ _ _ _ Hc).
Qed.

(** The names and the arguments that [parse_tool_call] was given are the
    ones that the parsed calls hold. *)
Lemma parse_tool_calls_fields (arguments : list string) (names types ids : list pyval)
    (calls : list ChatCompletionMessageToolCall) (n : nat) :
  length arguments = n -> length names = n -> length types = n -> length ids = n ->
  mapM parse_tool_call (zip4 arguments names types ids) = Ok calls ->
  names = map (fun call => PStr (function_name (call_function call))) calls
  /\ arguments = map (fun call => function_arguments (call_function call)) calls.
Proof.
  revert arguments names types ids calls.
  induction n as [|n IH]; intros arguments names types ids calls Ha Hn Ht Hi.
  - destruct arguments, names; try discriminate.
    simpl. now intros [= <-].
  - destruct arguments as [|a arguments], names as [|name names],
      types as [|t types], ids as [|i ids]; try discriminate.
    cbn [zip4 mapM parse_tool_call].
    unfold mk_Function, mk_ChatCompletionMessageToolCall.
    cbn [bind validate_str].
    destruct name as [| z | name' | l | d]; cbn [bind validate_str];
      try discriminate.
    destruct (validate_str "id" i) as [i'|e]; cbn [bind]; [|discriminate].
    destruct (eq_str t "function"); cbn [bind]; [|discriminate].
    destruct (mapM parse_tool_call (zip4 arguments names types ids))
      as [calls'|e] eqn:Hrest; cbn [bind]; [|discriminate].
    intros [= <-].
    destruct (IH arguments names types ids calls') as [Hnames Hargs];
      try (simpl in *; congruence).
    simpl. now rewrite <- Hnames, <- Hargs.
Qed.

Lemma join_tool_calls_output (chunks : list pyval) (completion : ChatCompletion)
    (out : output_string) :
  join_tool_calls chunks = Ok (Some (completion, out)) ->
  exists calls,
    completion_choices completion
    = [{| completion_finish_reason := "tool_calls";
          completion_index := 0;
          message := JoinProperties.tool_message calls |}]
    /\ out = OutStrOfList
               (map (fun call => PStr (function_name (call_function call))) calls
                ++ map (fun call => PStr (function_arguments (call_function call)))
                     calls)
    /\ output_to_string completion
       = match calls with
         | [] => Raise (Exc IndexError "list index out of range")
         | call :: _ => Ok (Some (function_arguments (call_function call)))
         end.
Proof.
  unfold join_tool_calls.
  destruct (group_tool_calls chunks []) as [groups|e]; simpl; [|discriminate].
  destruct (mapM tool_call_id (map snd groups)) as [ids|e] eqn:Hids;
    simpl; [|discriminate].
  destruct (mapM tool_call_name (map snd groups)) as [names|e] eqn:Hnames;
    simpl; [|discriminate].
  destruct (mapM tool_call_type (map snd groups)) as [types|e] eqn:Htypes;
    simpl; [|discriminate].
  destruct (mapM tool_call_arguments (map snd groups)) as [arguments|e] eqn:Hargs;
    simpl; [|discriminate].
  destruct (mapM parse_tool_call (zip4 arguments names types ids)) as [calls|e]
    eqn:Hcalls; simpl; [|discriminate].
  match goal with
  | |- context [completion_of_last ?a ?b ?m] =>
      destruct (completion_of_last a b m) as [c|e] eqn:Hc
  end; cbn [bind]; [|discriminate].
  intros H. injection H as <- <-.
  apply mapM_length in Hids, Hnames, Htypes, Hargs.
  destruct (parse_tool_calls_fields arguments names types ids calls
              (length (map snd groups)) Hargs Hnames Htypes Hids Hcalls)
    as [Hn Ha].
  exists calls. split; [|split].
  - exact (completion_of_last_choices _ _ _ _ Hc).
  - rewrite Hn at 1. rewrite Ha at 1. now rewrite map_map.
  - unfold output_to_string.
    rewrite (completion_of_last_choices _ _ _ _ Hc). simpl.
    now destruct calls.
Qed.

(** X8: Whenever [join_chunks] returns a plain output string, the text that
    [output_to_string] reads back from the joined completion, the one that
    the output tokens are counted on, is that same string. *)
Theorem output_to_string_of_joined_text (chunks : list pyval)
    (completion : ChatCompletion) (text : string) :
  join_chunks self chunks = Ok (Some (completion, OutStr text)) ->
  output_to_string completion = Ok (Some text).
Proof.
  unfold join_chunks.
  destruct (terminal_finish_reason chunks) as [fr|e]; simpl; [|discriminate].
  destruct (eq_str fr "tool_calls").
  - intros H. destruct (join_tool_calls_output _ _ _ H) as [calls [_ [Hout _]]].
    discriminate.
  - destruct (eq_str fr "function_call").
    + intros H. destruct (join_function_call_output _ _ _ H) as [t [Hout Hs]].
      now injection Hout as <-.
    + destruct (eq_str fr "stop" || eq_str fr "length"); [|discriminate].
      intros H. destruct (join_stop_output _ _ _ H) as [t [Hout Hs]].
      now injection Hout as <-.
Qed.

(** X9: When [join_chunks] returns the rendering of a list, the completion's
    one choice has [finish_reason] tool_calls and a message with the joined
    tool calls, and the list is the names of these calls followed by their
    arguments, in the order of the calls; [output_to_string] reads the
    arguments of the first of these calls only, and fails with an
    [IndexError] when there is none. *)
Theorem output_to_string_of_joined_tool_calls (chunks : list pyval)
    (completion : ChatCompletion) (l : list pyval) :
  join_chunks self chunks = Ok (Some (completion, OutStrOfList l)) ->
  exists calls,
    completion_choices completion
    = [{| completion_finish_reason := "tool_calls";
          completion_index := 0;
          message := JoinProperties.tool_message calls |}]
    /\ l = map (fun call => PStr (function_name (call_function call))) calls
           ++ map (fun call => PStr (function_arguments (call_function call))) calls
    /\ output_to_string completion
       = match calls with
         | [] => Raise (Exc IndexError "list index out of range")
         | call :: _ => Ok (Some (function_arguments (call_function call)))
         end.
Proof.
  unfold join_chunks.
  destruct (terminal_finish_reason chunks) as [fr|e]; simpl; [|discriminate].
  destruct (eq_str fr "tool_calls").
  - intros H. destruct (join_tool_calls_output _ _ _ H) as [calls [Hc [Hout Hs]]].
    injection Hout as ->. now exists calls.
  - destruct (eq_str fr "function_call").
    + intros H. destruct (join_function_call_output _ _ _ H) as [t [Hout _]].
      discriminate.
    + destruct (eq_str fr "stop" || eq_str fr "length"); [|discriminate].
      intros H. destruct (join_stop_output _ _ _ H) as [t [Hout _]].
      discriminate.
Qed.

End Join.

End JoinExtras.

(** A chunk with one function-call fragment. *)
Definition function_call_chunk (name : option string) (arguments : string)
    : ChatCompletionChunk :=
  chunk_of
    {| content := None;
       function_call := Some {| fc_arguments := Some arguments; fc_name := name |};
       role := None; tool_calls := None |}
    None.

(** A chunk whose [tool_calls] is a list without entries. *)
Definition empty_tool_calls_chunk : ChatCompletionChunk :=
  chunk_of
    {| content := None; function_call := None; role := None;
       tool_calls := Some [] |}
    None.

Lemma join_chunks_function_call_witness :
  join_chunks failing_provider
    (map model_dump
       ([ function_call_chunk (Some "get_weather") "{";
          function_call_chunk None "}" ]
        ++ [example_closing "function_call"])%list)
  = Ok (Some (completion_from (example_closing "function_call") "function_call"
                (JoinExtras.function_message "get_weather" "{}"),
              OutStr "{}")).
Proof.
  apply (JoinExtras.join_chunks_function_call Q ChatRequest unit unit
           failing_provider
           [ function_call_chunk (Some "get_weather") "{";
             function_call_chunk None "}" ]
           (example_closing "function_call")
           {| fc_arguments := Some "{"; fc_name := Some "get_weather" |}
           [ {| fc_arguments := Some "}"; fc_name := None |} ]
           "get_weather"
           eq_refl eq_refl eq_refl eq_refl eq_refl).
Defined.

Lemma join_chunks_function_call_without_fragment_witness :
  raises (join_chunks failing_provider
            (map model_dump
               ([example_text None] ++ [example_closing "function_call"])%list))
    IndexError.
Proof.
  apply (JoinExtras.join_chunks_function_call_without_fragment Q ChatRequest unit unit
           failing_provider [example_text None] (example_closing "function_call")
           eq_refl eq_refl eq_refl).
Defined.

Lemma join_chunks_empty_tool_calls_list_witness :
  raises (join_chunks failing_provider
            (map model_dump
               ([fragment_chunk 0 (Some "call_0") (Some "f") "{}"]
                ++ empty_tool_calls_chunk :: [example_closing "tool_calls"])%list))
    IndexError.
Proof.
  apply (JoinExtras.join_chunks_empty_tool_calls_list Q ChatRequest unit unit
           failing_provider
           [fragment_chunk 0 (Some "call_0") (Some "f") "{}"]
           [example_closing "tool_calls"]
           empty_tool_calls_chunk
           {| delta := {| content := None; function_call := None; role := None;
                          tool_calls := Some [] |};
              finish_reason := None; choice_index := 0 |}
           []
           eq_refl eq_refl eq_refl eq_refl).
Defined.

Lemma output_to_string_of_joined_text_witness :
  output_to_string
    (completion_from (example_closing "length") "stop" (text_message "Hi there!"))
  = Ok (Some "Hi there!").
Proof.
  apply (JoinExtras.output_to_string_of_joined_text Q ChatRequest unit unit
           failing_provider
           (map model_dump (greeting ++ [example_closing "length"])%list)).
  reflexivity.
Defined.

(** The two calls that the interleaved fragments join to. *)
Definition interleaved_calls : list ChatCompletionMessageToolCall :=
  [ {| call_id := "call_0";
       call_function :=
         {| function_arguments := "{" ++ quoted "a" ++ ":1}";
            function_name := "f" |};
       call_type := "function" |};
    {| call_id := "call_1";
       call_function :=
         {| function_arguments := "{" ++ quoted "b" ++ ":2}";
            function_name := "g" |};
       call_type := "function" |} ].

Lemma output_to_string_of_joined_tool_calls_witness :
  exists calls,
    completion_choices
      (completion_from (example_closing "tool_calls") "tool_calls"
         (tool_message interleaved_calls))
    = [{| completion_finish_reason := "tool_calls";
          completion_index := 0;
          message := tool_message calls |}]
    /\ [ PStr "f"; PStr "g";
         PStr ("{" ++ quoted "a" ++ ":1}");
         PStr ("{" ++ quoted "b" ++ ":2}") ]
       = (map (fun call => PStr (function_name (call_function call))) calls
          ++ map (fun call => PStr (function_arguments (call_function call))) calls)%list
    /\ output_to_string
         (completion_from (example_closing "tool_calls") "tool_calls"
            (tool_message interleaved_calls))
       = match calls with
         | [] => Raise (Exc IndexError "list index out of range")
         | call :: _ => Ok (Some (function_arguments (call_function call)))
         end.
Proof.
  apply (JoinExtras.output_to_string_of_joined_tool_calls Q ChatRequest unit unit
           failing_provider
           (map model_dump (interleaved ++ [example_closing "tool_calls"])%list)).
  reflexivity.
Defined.

Module TextExtras.

Local Open Scope list_scope.

Lemma flat_mapM_app {A B} (f : A -> res (list B)) (l1 l2 : list A)
    (r1 r2 : list B) :
  flat_mapM f l1 = Ok r1 ->
  flat_mapM f l2 = Ok r2 ->
  flat_mapM f (l1 ++ l2) = Ok (r1 ++ r2).
Proof.
  revert r1. induction l1 as [|x l1 IH]; intros r1; simpl.
  - now intros [= <-] ->.
  - destruct (f x) as [ys|e]; simpl; [|discriminate].
    destruct (flat_mapM f l1) as [rest|e]; simpl; [|discriminate].
    intros [= <-] H2. rewrite (IH rest eq_refl H2). simpl.
    now rewrite app_assoc.
Qed.

Lemma str_join_app (r1 r2 : list pyval) (s1 s2 : string) :
  str_join r1 = Ok s1 ->
  str_join r2 = Ok s2 ->
  str_join (r1 ++ r2) = Ok (s1 ++ s2)%string.
Proof.
  revert s1. induction r1 as [|v r1 IH]; intros s1; simpl.
  - now intros [= <-] ->.
  - destruct v as [| z | s | l | d]; try discriminate.
    destruct (str_join r1) as [rest|e]; simpl; [|discriminate].
    intros [= <-] H2. rewrite (IH rest eq_refl H2). simpl.
    now rewrite JoinExtras.str_app_assoc.
Qed.

(** X10: The text of a conversation is the text of its first part followed by
    the text of the rest: [input_to_string] distributes over the
    concatenation of message lists. *)
Theorem input_to_string_app (l1 l2 : list pyval) (s1 s2 : string) :
  input_to_string (PList l1) = Ok s1 ->
  input_to_string (PList l2) = Ok s2 ->
  input_to_string (PList (l1 ++ l2)) = Ok (s1 ++ s2)%string.
Proof.
  unfold input_to_string, iterate. cbn [bind].
  destruct (flat_mapM message_texts l1) as [r1|e] eqn:H1; cbn [bind]; [|discriminate].
  destruct (flat_mapM message_texts l2) as [r2|e] eqn:H2; cbn [bind]; [|discriminate].
  intros Hs1 Hs2.
  rewrite (flat_mapM_app _ _ _ _ _ H1 H2). cbn [bind].
  now apply str_join_app.
Qed.

(** Messages as the chat API shapes them: a text, a list of parts, or no
    content. *)
Inductive Part :=
| TextPart (text : string)
| ImagePart (url : string)
| OtherPart (type : string).

Inductive Message :=
| Plain (role text : string)
| Parts (role : string) (parts : list Part)
| Null (role : string).

Definition encode_part (p : Part) : pyval :=
  match p with
  | TextPart text => PDict [("type", PStr "text"); ("text", PStr text)]
  | ImagePart url =>
      PDict [("type", PStr "image_url"); ("image_url", PDict [("url", PStr url)])]
  | OtherPart type => PDict [("type", PStr type)]
  end.

Definition encode_message (m : Message) : pyval :=
  match m with
  | Plain role text => PDict [("role", PStr role); ("content", PStr text)]
  | Parts role parts =>
      PDict [("role", PStr role); ("content", PList (map encode_part parts))]
  | Null role => PDict [("role", PStr role); ("content", PNone)]
  end.

(** The texts that count: a text part's text, an image part's URL. *)
Definition part_texts (p : Part) : list string :=
  match p with
  | TextPart text => [text]
  | ImagePart url => [url]
  | OtherPart type =>
      if String.eqb type "text" || String.eqb type "image_url"
      then [EmptyString] else []
  end.

(** A plain text counts whatever the role; parts count for the user only. *)
Definition message_strings (m : Message) : list string :=
  match m with
  | Plain _ text => [text]
  | Parts role parts =>
      if String.eqb role "user" then flat_map part_texts parts else []
  | Null _ => []
  end.

Lemma content_item_encode (p : Part) :
  content_item (encode_part p) = Ok (map PStr (part_texts p)).
Proof.
  destruct p as [text|url|type]; try reflexivity.
  unfold content_item, encode_part, part_texts; simpl.
  destruct (String.eqb type "text"); simpl; [reflexivity|].
  now destruct (String.eqb type "image_url").
Qed.

Lemma flat_mapM_encode {A} (f : pyval -> res (list pyval)) (g : A -> pyval)
    (h : A -> list string) (l : list A) :
  (forall x, f (g x) = Ok (map PStr (h x))) ->
  flat_mapM f (map g l) = Ok (map PStr (flat_map h l)).
Proof.
  intros Hf. induction l as [|x l IH]; simpl; [reflexivity|].
  rewrite Hf, IH. simpl. now rewrite map_app.
Qed.

Lemma message_texts_encode (m : Message) :
  message_texts (encode_message m) = Ok (map PStr (message_strings m)).
Proof.
  destruct m as [role text|role parts|role]; try reflexivity.
  unfold message_texts, encode_message, message_strings; simpl.
  destruct (String.eqb role "user"); [|reflexivity].
  apply flat_mapM_encode. apply content_item_encode.
Qed.

(** X11: For a well-shaped conversation, [input_to_string] is the concatenation,
    in order, of every plain text, whatever the role of its message, and of
    the texts and image URLs of the parts of user messages; the parts of any
    other role and messages without content add nothing. *)
Theorem input_to_string_messages (ms : list Message) :
  input_to_string (PList (map encode_message ms))
  = Ok (JoinProperties.concat_str (flat_map message_strings ms)).
Proof.
  unfold input_to_string, iterate. cbn [bind].
  rewrite (flat_mapM_encode _ _ message_strings) by apply message_texts_encode.
  cbn [bind]. apply JoinProperties.str_join_strs.
Qed.

Lemma prefix_refl (s : string) : String.prefix s s = true.
Proof.
  induction s as [|c s IH]; simpl; [reflexivity|].
  now destruct (Ascii.ascii_dec c c).
Qed.

(** X12: The model that the request named is always reported, as the model or as
    the deployment, and the deployment is null only for a request whose
    model is the empty string. *)
Theorem reported_names_request_model (upstream : option string)
    (request_model : string) :
  exists m d,
    reported_model (dump_opt_str upstream) request_model = Ok m
    /\ reported_deployment (dump_opt_str upstream) request_model = Ok d
    /\ (m = PStr request_model \/ d = PStr request_model)
    /\ (d = PNone -> request_model = EmptyString).
Proof.
  unfold reported_model, reported_deployment, names_deployment.
  destruct upstream as [s|]; simpl.
  - destruct (String.eqb_spec s EmptyString) as [->|Hne]; simpl.
    + eexists _, _. repeat split; [now left|].
      destruct request_model; simpl; [reflexivity|discriminate].
    + destruct (String.prefix request_model s) eqn:Hp; simpl.
      * eexists _, _. repeat split; [now left|discriminate].
      * destruct (String.eqb_spec s request_model) as [->|Hd]; simpl.
        -- rewrite prefix_refl in Hp. discriminate.
        -- eexists _, _. repeat split; [now right|discriminate].
  - eexists _, _. repeat split; [now left|discriminate].
Qed.

End TextExtras.

Module StreamExtras.

Import JoinProperties NormalizerProperties.

Local Open Scope list_scope.

(** The loop of both [parse_response] functions over a body [f]. *)
Fixpoint each (f : string -> Gen unit) (pieces : list string) : Gen unit :=
  match pieces with
  | [] => gen_ret tt
  | piece :: rest =>
      _ <~ f piece ;;
      each f rest
  end.

Lemma anthropic_each (rt : Runtime) (request : ChatRequest) (pieces : list string) :
  AnthropicProvider.parse_response rt request pieces
  = each (AnthropicProvider.parse_piece rt request) pieces.
Proof. induction pieces as [|p rest IH]; simpl; [reflexivity|now rewrite IH]. Qed.

Lemma vertexai_each (rt : Runtime) (request : ChatRequest) (pieces : list string) :
  VertexAIProvider.parse_response rt request pieces
  = each (VertexAIProvider.parse_piece rt request) pieces.
Proof. induction pieces as [|p rest IH]; simpl; [reflexivity|now rewrite IH]. Qed.

Lemma each_app (f : string -> Gen unit) (before after : list string)
    (s s1 : Sys) (out : list pyval) :
  each f before s = (out, Ok tt, s1) ->
  each f (before ++ after) s
  = (out ++ yielded (each f after s1), outcome (each f after s1),
     snd (each f after s1)).
Proof.
  revert s out. induction before as [|p before IH]; intros s out; simpl.
  - unfold gen_ret. intros [= <- <-]. simpl.
    now destruct (each f after s) as [[o r] s'].
  - unfold gen_bind.
    destruct (f p s) as [[o [[]|e]] s'].
    + destruct (each f before s') as [[o' r'] s''] eqn:Hrest.
      intros [= <- -> <-].
      rewrite (IH s' o' Hrest). now rewrite app_assoc.
    + discriminate.
Qed.


Section Streams.

Variable rt : Runtime.
Variable request : ChatRequest.

(** X13: Both normalizers keep the order of the upstream: the chunks of the
    events that were normalized without an exception come first, in order,
    followed by whatever the rest of the stream gives from the state they
    left. *)
Theorem parse_response_app (before after : list string) (s s1 : Sys)
    (out : list pyval) :
  (AnthropicProvider.parse_response rt request before s = (out, Ok tt, s1) ->
   yielded (AnthropicProvider.parse_response rt request (before ++ after) s)
   = out ++ yielded (AnthropicProvider.parse_response rt request after s1))
  /\ (VertexAIProvider.parse_response rt request before s = (out, Ok tt, s1) ->
      yielded (VertexAIProvider.parse_response rt request (before ++ after) s)
      = out ++ yielded (VertexAIProvider.parse_response rt request after s1)).
Proof.
  split; intros Hbefore.
  - rewrite !anthropic_each in *.
    now rewrite (each_app _ before after s s1 out Hbefore).
  - rewrite !vertexai_each in *.
    now rewrite (each_app _ before after s s1 out Hbefore).
Qed.


Lemma anthropic_piece_ok (piece line : string) (s : Sys) :
  decode_utf8 rt piece = Ok line ->
  outcome (AnthropicProvider.parse_piece rt request piece s) = Ok tt.
Proof.
  intros Hdec. unfold AnthropicProvider.parse_piece.
  rewrite gen_bind_lift, Hdec.
  destruct (startswith_any line AnthropicProvider.stop_markers); [reflexivity|].
  unfold gen_try_pass.
  now destruct (gen_bind _ _ s) as [[o [[]|e]] s'].
Qed.

(** X15: An Anthropic stream whose pieces all decode never raises, whatever the
    pieces say, and yields one chunk per piece at most. *)
Theorem anthropic_stream_never_raises (pieces : list string) (s : Sys) :
  Forall (fun piece => exists line, decode_utf8 rt piece = Ok line) pieces ->
  outcome (AnthropicProvider.parse_response rt request pieces s) = Ok tt
  /\ (length (yielded (AnthropicProvider.parse_response rt request pieces s))
      <= length pieces)%nat.
Proof.
  intros Hall. revert s.
  induction Hall as [|piece pieces [line Hdec] _ IH]; intros s; simpl.
  - split; [reflexivity|simpl; lia].
  - unfold gen_bind.
    pose proof (anthropic_piece_ok piece line s Hdec) as Hok.
    destruct (anthropic_at_most_one rt request piece s) as [cs [Hy [Hlen _]]].
    destruct (AnthropicProvider.parse_piece rt request piece s) as [[o r] s'].
    unfold outcome, yielded in Hok, Hy; simpl in Hok, Hy. subst r o.
    destruct (IH s') as [Hr Hl].
    destruct (AnthropicProvider.parse_response rt request pieces s')
      as [[o' r'] s''].
    unfold outcome, yielded in *; simpl in *. split; [exact Hr|].
    rewrite length_app, length_map. lia.
Qed.

End Streams.

End StreamExtras.

Module EventExtras.

Import JoinProperties NormalizerProperties StreamExtras.

Local Open Scope list_scope.

(** A function-call part of a VertexAI event. *)
Definition call_part (call : string * pyval) : pyval :=
  PDict [("functionCall", PDict [("name", PStr (fst call)); ("args", snd call)])].

Section Events.

Variable rt : Runtime.
Variable request : ChatRequest.

(** The two chunks of each function-call part, from the part's position and
    from the identifiers and clock readings that are next. *)
Fixpoint call_chunks (index : Z) (u t : nat) (calls : list (string * pyval))
    : list ChatCompletionChunk :=
  match calls with
  | [] => []
  | call :: rest =>
      VertexAIProvider.name_chunk request index (uuid4 rt u) (uuid4 rt (S u))
        (Some (fst call)) (clock rt t)
      :: VertexAIProvider.args_chunk request index (uuid4 rt (S (S u)))
           (json_dumps rt (snd call)) (clock rt (S t))
      :: call_chunks (index + 1) (S (S (S u))) (S (S t)) rest
  end.

Lemma call_chunks_length (index : Z) (u t : nat) (calls : list (string * pyval)) :
  length (call_chunks index u t calls) = (2 * length calls)%nat.
Proof.
  revert index u t. induction calls as [|c calls IH]; intros index u t; simpl.
  - reflexivity.
  - rewrite IH. lia.
Qed.

Lemma run_parts (calls : list (string * pyval)) (index : Z) (s : Sys) :
  VertexAIProvider.yield_parts rt request index (map call_part calls) s
  = (map model_dump (call_chunks index (uuid_calls s) (clock_calls s) calls),
     Ok tt,
     {| uuid_calls := 3 * length calls + uuid_calls s;
        clock_calls := 2 * length calls + clock_calls s |}).
Proof.
  revert index s. induction calls as [|call calls IH]; intros index s.
  - destruct s. reflexivity.
  - cbn [map VertexAIProvider.yield_parts].
    rewrite (gen_bind_ok _ _ _ _ _ _
               (run_name_chunk rt request index (call_part call) (Some (fst call))
                  s eq_refl)).
    rewrite (gen_bind_ok _ _ _ _ _ _
               (run_args_chunk rt request index (call_part call) (snd call)
                  _ eq_refl)).
    rewrite IH. cbn [uuid_calls clock_calls call_chunks map app length].
    f_equal. f_equal; lia.
Qed.

Lemma run_call_event (piece : string) (s : Sys) (d : list (string * pyval))
    (call : string * pyval) (calls : list (string * pyval)) :
  VertexAIProvider.event_content rt piece = Ok (PDict d) ->
  assoc "parts" d = Some (PList (map call_part (call :: calls))) ->
  let n := length (call :: calls) in
  VertexAIProvider.parse_piece rt request piece s
  = (map model_dump
       (VertexAIProvider.first_chunk request (clock rt (clock_calls s))
        :: call_chunks 0 (uuid_calls s) (S (clock_calls s)) (call :: calls)
        ++ [closing_chunk request "tool_calls"
              (uuid4 rt (3 * n + uuid_calls s))
              (clock rt (2 * n + S (clock_calls s)))]),
     Ok tt,
     {| uuid_calls := S (3 * n + uuid_calls s);
        clock_calls := S (2 * n + S (clock_calls s)) |}).
Proof.
  intros Hcontent Hparts n.
  assert (Hcall : VertexAIProvider.is_function_call (PDict d) = Ok true).
  { unfold VertexAIProvider.is_function_call, VertexAIProvider.first_part, item.
    rewrite Hparts. reflexivity. }
  assert (Hlist : VertexAIProvider.parts_list (PDict d)
                  = Ok (map call_part (call :: calls))).
  { unfold VertexAIProvider.parts_list, item. now rewrite Hparts. }
  unfold VertexAIProvider.parse_piece.
  rewrite gen_bind_lift, Hcontent, gen_bind_lift, Hcall.
  rewrite (gen_bind_ok _ _ _ _ _ _ (run_first_chunk rt request s)).
  rewrite gen_bind_lift, Hlist.
  rewrite (gen_bind_ok _ _ _ _ _ _ (run_parts (call :: calls) 0 _)).
  rewrite run_closing.
  cbn [uuid_calls clock_calls]. fold n.
  rewrite map_cons, map_app. reflexivity.
Qed.

(** X16: A VertexAI event with n function-call parts yields 2n+2 chunks: the
    role-only opening chunk, for each part in order a name chunk and an
    arguments chunk that carry the part's position as tool-call index, and
    one closing chunk with [finish_reason] tool_calls for the whole event. *)
Theorem vertexai_call_parts (piece : string) (s : Sys) (d : list (string * pyval))
    (call : string * pyval) (calls : list (string * pyval)) :
  VertexAIProvider.event_content rt piece = Ok (PDict d) ->
  assoc "parts" d = Some (PList (map call_part (call :: calls))) ->
  let n := length (call :: calls) in
  let cs :=
    VertexAIProvider.first_chunk request (clock rt (clock_calls s))
    :: call_chunks 0 (uuid_calls s) (S (clock_calls s)) (call :: calls)
    ++ [closing_chunk request "tool_calls"
          (uuid4 rt (3 * n + uuid_calls s))
          (clock rt (2 * n + S (clock_calls s)))] in
  VertexAIProvider.parse_piece rt request piece s
  = (map model_dump cs, Ok tt,
     {| uuid_calls := S (3 * n + uuid_calls s);
        clock_calls := S (2 * n + S (clock_calls s)) |})
  /\ length cs = (2 * n + 2)%nat.
Proof.
  intros Hcontent Hparts n cs. split.
  - now apply (run_call_event piece s d call calls).
  - unfold cs. cbn [length]. rewrite length_app, call_chunks_length.
    fold n. simpl length. lia.
Qed.

(** X17: Only the first part decides that an event is a function call: when a
    later part carries no function call, the chunks of the first part are
    yielded and the event then ends in a [KeyError], without a closing
    chunk. *)
Theorem vertexai_mixed_parts (piece : string) (s : Sys) (d p : list (string * pyval))
    (call : string * pyval) (rest : list pyval) :
  VertexAIProvider.event_content rt piece = Ok (PDict d) ->
  assoc "parts" d = Some (PList (call_part call :: PDict p :: rest)) ->
  assoc "functionCall" p = None ->
  VertexAIProvider.parse_piece rt request piece s
  = (map model_dump
       (VertexAIProvider.first_chunk request (clock rt (clock_calls s))
        :: call_chunks 0 (uuid_calls s) (S (clock_calls s)) [call]),
     Raise (Exc KeyError "'functionCall'"),
     {| uuid_calls := 5 + uuid_calls s; clock_calls := 3 + clock_calls s |}).
Proof.
  intros Hcontent Hparts Hnone.
  assert (Hcall : VertexAIProvider.is_function_call (PDict d) = Ok true).
  { unfold VertexAIProvider.is_function_call, VertexAIProvider.first_part, item.
    rewrite Hparts. reflexivity. }
  assert (Hlist : VertexAIProvider.parts_list (PDict d)
                  = Ok (call_part call :: PDict p :: rest)).
  { unfold VertexAIProvider.parts_list, item. now rewrite Hparts. }
  unfold VertexAIProvider.parse_piece.
  rewrite gen_bind_lift, Hcontent, gen_bind_lift, Hcall.
  rewrite (gen_bind_ok _ _ _ _ _ _ (run_first_chunk rt request s)).
  rewrite gen_bind_lift, Hlist.
  cbn [VertexAIProvider.yield_parts].
  assert (Hfail : forall s1,
             VertexAIProvider.yield_name_chunk rt request (0 + 1) (PDict p) s1
             = ([], Raise (Exc KeyError "'functionCall'"),
                {| uuid_calls := S (S (uuid_calls s1));
                   clock_calls := clock_calls s1 |})).
  { intros s1. unfold VertexAIProvider.yield_name_chunk.
    rewrite !gen_bind_uuid, gen_bind_lift.
    unfold VertexAIProvider.function_call_field, item. now rewrite Hnone. }
  unfold gen_bind at 1.
  rewrite (gen_bind_ok _ _ _ _ _ _
             (run_name_chunk rt request 0 (call_part call) (Some (fst call))
                _ eq_refl)).
  rewrite (gen_bind_ok _ _ _ _ _ _
             (run_args_chunk rt request 0 (call_part call) (snd call)
                _ eq_refl)).
  unfold gen_bind at 1. rewrite Hfail. reflexivity.
Qed.

(** *** From a function-call event to the joined tool calls *)

Definition name_fragment (index : Z) (u : nat) (call : string * pyval)
    : ChoiceDeltaToolCall :=
  {| tc_index := index;
     tc_id := Some ("call_" ++ substring 0 29 (uuid4 rt (S u)))%string;
     tc_function := Some {| fn_arguments := Some EmptyString;
                            fn_name := Some (fst call);
                            fn_type := Some "function"%string |};
     tc_type := None |}.

Definition args_fragment (index : Z) (call : string * pyval) : ChoiceDeltaToolCall :=
  {| tc_index := index;
     tc_id := None;
     tc_function := Some {| fn_arguments := Some (json_dumps rt (snd call));
                            fn_name := None;
                            fn_type := None |};
     tc_type := None |}.

(** The fragments of the parts, grouped by part. *)
Fixpoint call_groups (index : Z) (u : nat) (calls : list (string * pyval))
    : list (list ChoiceDeltaToolCall) :=
  match calls with
  | [] => []
  | call :: rest =>
      [name_fragment index u call; args_fragment index call]
      :: call_groups (index + 1) (S (S (S u))) rest
  end.

Fixpoint call_indices (index : Z) (calls : list (string * pyval)) : list Z :=
  match calls with
  | [] => []
  | _ :: rest => index :: call_indices (index + 1) rest
  end.

(** The tool call that each part is joined into: the call identifier drawn
    for its name chunk, its name, and its arguments as serialized. *)
Fixpoint joined_calls (u : nat) (calls : list (string * pyval))
    : list ChatCompletionMessageToolCall :=
  match calls with
  | [] => []
  | call :: rest =>
      {| call_id := ("call_" ++ substring 0 29 (uuid4 rt (S u)))%string;
         call_function := {| function_arguments := json_dumps rt (snd call);
                             function_name := fst call |};
         call_type := "function"%string |}
      :: joined_calls (S (S (S u))) rest
  end.

Lemma fragments_call_chunks (index : Z) (u t : nat) (calls : list (string * pyval)) :
  fragments (call_chunks index u t calls) = concat (call_groups index u calls).
Proof.
  revert index u t. induction calls as [|call calls IH]; intros index u t.
  - reflexivity.
  - unfold fragments in *. cbn [call_chunks map somes call_groups concat app].
    unfold leading_fragment at 1 2. cbn [somes].
    unfold VertexAIProvider.name_chunk, VertexAIProvider.args_chunk,
      one_choice_chunk; cbn.
    now rewrite IH.
Qed.

Lemma fragments_app (l1 l2 : list ChatCompletionChunk) :
  fragments (l1 ++ l2) = fragments l1 ++ fragments l2.
Proof.
  unfold fragments. rewrite map_app.
  induction (map leading_fragment l1) as [|[t|] l IH]; simpl;
    [reflexivity| |exact IH]. now rewrite IH.
Qed.

Lemma call_chunks_ok (index : Z) (u t : nat) (calls : list (string * pyval)) :
  forallb chunk_ok (call_chunks index u t calls) = true.
Proof.
  revert index u t. induction calls as [|call calls IH]; intros index u t;
    [reflexivity|].
  cbn [call_chunks forallb]. rewrite IH. reflexivity.
Qed.

Lemma call_groups_lower (index : Z) (u : nat) (calls : list (string * pyval)) :
  Forall (fun f => index <= tc_index f) (concat (call_groups index u calls)).
Proof.
  revert index u. induction calls as [|call calls IH]; intros index u; simpl.
  - constructor.
  - constructor; [simpl; lia|]. constructor; [simpl; lia|].
    eapply Forall_impl; [|apply IH]. simpl. intros f Hf. lia.
Qed.

Lemma call_indices_lower (index : Z) (calls : list (string * pyval)) :
  Forall (fun i => index <= i) (call_indices index calls).
Proof.
  revert index. induction calls as [|call calls IH]; intros index; simpl.
  - constructor.
  - constructor; [lia|]. eapply Forall_impl; [|apply IH]. simpl. intros. lia.
Qed.

Lemma filter_all {A} (p : A -> bool) (l : list A) :
  Forall (fun x => p x = true) l -> filter p l = l.
Proof.
  induction 1 as [|x l Hx _ IH]; simpl; [reflexivity|]. now rewrite Hx, IH.
Qed.

Lemma with_index_below (i : Z) (l : list ChoiceDeltaToolCall) :
  Forall (fun f => i < tc_index f) l -> with_index tc_index i l = [].
Proof.
  induction 1 as [|f l Hf _ IH]; simpl; [reflexivity|].
  destruct (Z.eqb_spec (tc_index f) i); [lia|exact IH].
Qed.

Lemma distinct_call_groups (index : Z) (u : nat) (calls : list (string * pyval)) :
  distinct (map tc_index (concat (call_groups index u calls)))
  = call_indices index calls.
Proof.
  revert index u. induction calls as [|call calls IH]; intros index u.
  - reflexivity.
  - cbn [call_groups concat app map call_indices distinct].
    cbn [name_fragment args_fragment tc_index filter].
    rewrite Z.eqb_refl. cbn [negb]. rewrite IH.
    f_equal.
    rewrite !filter_all; [reflexivity| |].
    + eapply Forall_impl; [|apply (call_indices_lower (index + 1))].
      simpl. intros i Hi. apply negb_true_iff, Z.eqb_neq. lia.
    + rewrite filter_all.
      * eapply Forall_impl; [|apply (call_indices_lower (index + 1))].
        simpl. intros i Hi. apply negb_true_iff, Z.eqb_neq. lia.
      * eapply Forall_impl; [|apply (call_indices_lower (index + 1))].
        simpl. intros i Hi. apply negb_true_iff, Z.eqb_neq. lia.
Qed.

Lemma groups_by_index (index : Z) (u : nat) (calls : list (string * pyval)) :
  map (fun i => with_index tc_index i (concat (call_groups index u calls)))
    (call_indices index calls)
  = call_groups index u calls.
Proof.
  revert index u. induction calls as [|call calls IH]; intros index u.
  - reflexivity.
  - cbn [call_groups concat call_indices map]. f_equal.
    + cbn [app with_index filter name_fragment args_fragment tc_index].
      rewrite Z.eqb_refl.
      change (filter (fun t => tc_index t =? index) ?l)
        with (with_index tc_index index l).
      rewrite with_index_below; [reflexivity|].
      eapply Forall_impl; [|apply (call_groups_lower (index + 1))].
      simpl. intros f Hf. lia.
    + transitivity
        (map (fun i => with_index tc_index i
                         (concat (call_groups (index + 1) (S (S (S u))) calls)))
           (call_indices (index + 1) calls)); [|apply IH].
      apply map_ext_in. intros i Hi.
      pose proof (call_indices_lower (index + 1) calls) as Hlow.
      rewrite Forall_forall in Hlow. specialize (Hlow i Hi).
      cbn [app with_index filter name_fragment args_fragment tc_index].
      destruct (Z.eqb_spec index i); [lia|reflexivity].
Qed.

(** The call that [join_chunks] makes of one group of fragments. *)
Definition call_of_group (own : list ChoiceDeltaToolCall)
    : ChatCompletionMessageToolCall :=
  {| call_id := match own with
                | t :: _ => or_empty (tc_id t)
                | [] => EmptyString
                end;
     call_function :=
       {| function_arguments := concat_str (map fragment_arguments own);
          function_name := match own with
                           | t :: _ => fragment_name t
                           | [] => EmptyString
                           end |};
     call_type := "function"%string |}.

Lemma call_of_groups (index : Z) (u : nat) (calls : list (string * pyval)) :
  map call_of_group (call_groups index u calls) = joined_calls u calls.
Proof.
  revert index u. induction calls as [|call calls IH]; intros index u.
  - reflexivity.
  - cbn [call_groups map joined_calls]. rewrite IH. f_equal.
    unfold call_of_group; cbn. now rewrite JoinExtras.str_app_nil_r.
Qed.

Lemma call_groups_ok (index : Z) (u : nat) (calls : list (string * pyval)) :
  forallb group_ok (call_groups index u calls) = true.
Proof.
  revert index u. induction calls as [|call calls IH]; intros index u;
    [reflexivity|].
  cbn [call_groups forallb]. now rewrite IH.
Qed.

Lemma forallb_map {A B} (p : B -> bool) (g : A -> B) (l : list A) :
  forallb (fun x => p (g x)) l = forallb p (map g l).
Proof. induction l as [|x l IH]; simpl; [reflexivity|now rewrite IH]. Qed.

Section Joined.

Variable float : Type.
Variables Raw Response Completion : Type.
Variable self : Provider float Raw Response Completion.

(** X18: Normalizing a VertexAI event of function-call parts and joining the
    chunks gives one tool call per part, in the order of the parts, each
    with the part's name, its arguments as [json.dumps] wrote them, and the
    call identifier of its name chunk; the output string lists the names,
    then the arguments. *)
Theorem vertexai_calls_joined (piece : string) (s : Sys) (d : list (string * pyval))
    (call : string * pyval) (calls : list (string * pyval)) :
  VertexAIProvider.event_content rt piece = Ok (PDict d) ->
  assoc "parts" d = Some (PList (map call_part (call :: calls))) ->
  let n := length (call :: calls) in
  join_chunks self (yielded (VertexAIProvider.parse_piece rt request piece s))
  = Ok (Some
          (completion_from
             (closing_chunk request "tool_calls" (uuid4 rt (3 * n + uuid_calls s))
                (clock rt (2 * n + S (clock_calls s))))
             "tool_calls"
             (tool_message (joined_calls (uuid_calls s) (call :: calls))),
           OutStrOfList
             (map (fun c => PStr (fst c)) (call :: calls)
              ++ map (fun c => PStr (json_dumps rt (snd c))) (call :: calls)))).
Proof.
  intros Hcontent Hparts n.
  rewrite (run_call_event piece s d call calls Hcontent Hparts).
  unfold yielded; cbn [fst]. fold n.
  set (last := closing_chunk request "tool_calls" (uuid4 rt (3 * n + uuid_calls s))
                 (clock rt (2 * n + S (clock_calls s)))).
  set (body := call_chunks 0 (uuid_calls s) (S (clock_calls s)) (call :: calls)).
  change (VertexAIProvider.first_chunk request (clock rt (clock_calls s))
          :: body ++ [last])
    with ((VertexAIProvider.first_chunk request (clock rt (clock_calls s)) :: body)
          ++ [last]).
  set (cs := VertexAIProvider.first_chunk request (clock rt (clock_calls s)) :: body).
  assert (Hfrags : fragments (cs ++ [last])
                   = concat (call_groups 0 (uuid_calls s) (call :: calls))).
  { rewrite fragments_app. unfold cs.
    change (fragments (?c :: body)) with (fragments ([c] ++ body)).
    rewrite fragments_app. unfold body. rewrite fragments_call_chunks.
    cbn [fragments map somes leading_fragment]. now rewrite app_nil_r. }
  assert (Hok : tool_stream_ok (cs ++ [last]) = true).
  { unfold tool_stream_ok. rewrite Hfrags, distinct_call_groups.
    apply andb_true_iff. split.
    - rewrite forallb_app. unfold cs. cbn [forallb].
      unfold body. rewrite call_chunks_ok. reflexivity.
    - rewrite (forallb_map group_ok
                 (fun i => with_index tc_index i
                             (concat (call_groups 0 (uuid_calls s) (call :: calls))))).
      rewrite groups_by_index. apply call_groups_ok. }
  unfold join_chunks.
  rewrite terminal_finish_reason_dump by reflexivity.
  cbn [chunk_finish_reason last closing_chunk one_choice_chunk choices finish_reason
       dump_opt_str eq_str]. cbn [bind]. simpl String.eqb. cbv iota.
  rewrite (join_tool_calls_dump cs last Hok). cbv zeta.
  rewrite Hfrags, distinct_call_groups.
  assert (Hcalls : map (joined_call (concat (call_groups 0 (uuid_calls s) (call :: calls))))
                     (call_indices 0 (call :: calls))
                   = joined_calls (uuid_calls s) (call :: calls)).
  { transitivity
      (map call_of_group
         (map (fun i => with_index tc_index i
                          (concat (call_groups 0 (uuid_calls s) (call :: calls))))
            (call_indices 0 (call :: calls)))).
    - now rewrite map_map.
    - rewrite groups_by_index. apply call_of_groups. }
  rewrite Hcalls.
  assert (Hnames : forall u l,
             map (fun c => PStr (function_name (call_function c))) (joined_calls u l)
             = map (fun c => PStr (fst c)) l).
  { intros u l. revert u. induction l as [|c l IH]; intros u; simpl;
      [reflexivity|now rewrite IH]. }
  assert (Hargs : forall u l,
             map (fun c => PStr (function_arguments (call_function c)))
               (joined_calls u l)
             = map (fun c => PStr (json_dumps rt (snd c))) l).
  { intros u l. revert u. induction l as [|c l IH]; intros u; simpl;
      [reflexivity|now rewrite IH]. }
  now rewrite Hnames, Hargs.
Qed.

End Joined.

End Events.

End EventExtras.

Module AnthropicExtras.

Import JoinProperties NormalizerProperties StreamExtras.

Local Open Scope list_scope.

Section Stream.

Variable rt : Runtime.
Variable request : ChatRequest.

(** A piece that is a content-delta line with the given text (null when the
    delta has none), and a piece that is a stop line. *)
Definition delta_piece (piece : string) (text : option string) : Prop :=
  exists line,
    decode_utf8 rt piece = Ok line
    /\ startswith_any line AnthropicProvider.stop_markers = false
    /\ delta_text rt line = Ok text.

Definition stop_piece (piece : string) : Prop :=
  exists line,
    decode_utf8 rt piece = Ok line
    /\ startswith_any line AnthropicProvider.stop_markers = true.

(** The text chunks of a run of delta lines, with the identifiers and the
    clock readings that are next. *)
Fixpoint text_chunks (u t : nat) (texts : list (option string))
    : list ChatCompletionChunk :=
  match texts with
  | [] => []
  | text :: rest =>
      text_chunk request text (uuid4 rt u) (clock rt t)
      :: text_chunks (S u) (S t) rest
  end.

Lemma run_delta_piece (piece : string) (text : option string) (s : Sys) :
  delta_piece piece text ->
  AnthropicProvider.parse_piece rt request piece s
  = ([model_dump (text_chunk request text (uuid4 rt (uuid_calls s))
                    (clock rt (clock_calls s)))],
     Ok tt,
     {| uuid_calls := S (uuid_calls s); clock_calls := S (clock_calls s) |}).
Proof.
  intros [line [Hdec [Hm Htext]]].
  unfold AnthropicProvider.parse_piece.
  rewrite gen_bind_lift, Hdec, Hm.
  unfold delta_text in Htext.
  destruct (item1 (split line AnthropicProvider.delta_marker)) as [part|e];
    cbn [bind] in *; [|discriminate].
  destruct (json_loads rt part) as [data|e]; cbn [bind] in *; [|discriminate].
  unfold gen_try_pass. rewrite gen_bind_lift.
  rewrite (run_text rt request (d <- get data "delta" ;; get d "text") text s).
  - reflexivity.
  - destruct (get data "delta") as [dl|e]; cbn [bind] in *; [|discriminate].
    destruct (get dl "text") as [v|e]; cbn [bind] in *; [|discriminate].
    exact Htext.
Qed.

Lemma run_stop_piece (piece : string) (s : Sys) :
  stop_piece piece ->
  AnthropicProvider.parse_piece rt request piece s
  = ([model_dump (closing_chunk request "stop" (uuid4 rt (uuid_calls s))
                    (clock rt (clock_calls s)))],
     Ok tt,
     {| uuid_calls := S (uuid_calls s); clock_calls := S (clock_calls s) |}).
Proof.
  intros [line [Hdec Hm]].
  unfold AnthropicProvider.parse_piece.
  rewrite gen_bind_lift, Hdec, Hm. reflexivity.
Qed.

Lemma run_delta_pieces (pieces : list string) (texts : list (option string)) :
  Forall2 delta_piece pieces texts ->
  forall s,
    AnthropicProvider.parse_response rt request pieces s
    = (map model_dump (text_chunks (uuid_calls s) (clock_calls s) texts),
       Ok tt,
       {| uuid_calls := length texts + uuid_calls s;
          clock_calls := length texts + clock_calls s |}).
Proof.
  induction 1 as [|piece text pieces texts Hp _ IH]; intros s.
  - destruct s. reflexivity.
  - cbn [AnthropicProvider.parse_response].
    rewrite (gen_bind_ok _ _ _ _ _ _ (run_delta_piece piece text s Hp)).
    rewrite IH. cbn [uuid_calls clock_calls text_chunks map app length].
    f_equal. f_equal; lia.
Qed.

Lemma text_chunks_content (u t : nat) (texts : list (option string)) :
  map chunk_content (text_chunks u t texts) = texts.
Proof.
  revert u t. induction texts as [|x texts IH]; intros u t; simpl;
    [reflexivity|now rewrite IH].
Qed.

Lemma text_chunks_choice (u t : nat) (texts : list (option string)) :
  forallb has_choice (text_chunks u t texts) = true.
Proof.
  revert u t. induction texts as [|x texts IH]; intros u t; simpl;
    [reflexivity|apply IH].
Qed.

Lemma somes_app {A} (l1 l2 : list (option A)) :
  somes (l1 ++ l2) = somes l1 ++ somes l2.
Proof.
  induction l1 as [|[a|] l1 IH]; simpl; [reflexivity| |exact IH]. now rewrite IH.
Qed.

Section Joined.

Variable float : Type.
Variables Raw Response Completion : Type.
Variable self : Provider float Raw Response Completion.

(** X19: Normalizing an Anthropic response made of content-delta lines and a
    closing stop line, and joining the chunks with a provider that skips no
    leading chunk, gives back the texts of the deltas, joined in the order
    of the lines. *)
Theorem anthropic_deltas_joined (pieces : list string)
    (texts : list (option string)) (stop : string) (s : Sys) :
  Forall2 delta_piece pieces texts ->
  stop_piece stop ->
  start_index self = 0%nat ->
  let text := concat_str (somes texts) in
  join_chunks self
    (yielded (AnthropicProvider.parse_response rt request (pieces ++ [stop]) s))
  = Ok (Some
          (completion_from
             (closing_chunk request "stop"
                (uuid4 rt (length texts + uuid_calls s))
                (clock rt (length texts + clock_calls s)))
             "stop" (text_message text),
           OutStr text)).
Proof.
  intros Hpieces Hstop Hstart text.
  pose proof (run_delta_pieces pieces texts Hpieces s) as Hrun.
  rewrite anthropic_each in *.
  rewrite (each_app _ pieces [stop] s _ _ Hrun).
  cbn [each]. unfold gen_bind at 1 2 3.
  rewrite (run_stop_piece stop _ Hstop).
  unfold gen_ret, yielded, outcome. cbn [fst snd uuid_calls clock_calls app].
  set (cs := text_chunks (uuid_calls s) (clock_calls s) texts).
  set (last := closing_chunk request "stop" (uuid4 rt (length texts + uuid_calls s))
                 (clock rt (length texts + clock_calls s))).
  change [model_dump last] with (map model_dump [last]).
  rewrite <- map_app.
  unfold join_chunks.
  rewrite terminal_finish_reason_dump by reflexivity.
  cbn [chunk_finish_reason last closing_chunk one_choice_chunk choices finish_reason
       dump_opt_str]. cbn [bind].
  change (eq_str (PStr "stop") "tool_calls") with false.
  change (eq_str (PStr "stop") "function_call") with false.
  change (eq_str (PStr "stop") "stop") with true.
  cbv iota. cbn [orb].
  rewrite (join_stop_dump float Raw Response Completion self cs last).
  - rewrite Hstart. cbn [skipn].
    assert (Htext : joined_text (cs ++ [last]) = text).
    { unfold joined_text. rewrite map_app, somes_app.
      unfold cs. rewrite text_chunks_content.
      cbn [map chunk_content last closing_chunk one_choice_chunk choices delta
           empty_delta content somes].
      now rewrite app_nil_r. }
    now rewrite Htext.
  - rewrite forallb_app. unfold cs. now rewrite text_chunks_choice.
Qed.

End Joined.

End Stream.

End AnthropicExtras.

Module ConvertExtras.

Local Open Scope list_scope.

(** The role of a message, and the roles that the conversion knows. *)
Definition role_of (message : pyval) : pyval :=
  match message with
  | PDict d => match assoc "role" d with Some r => r | None => PNone end
  | _ => PNone
  end.

(** A user or assistant turn: the messages that become contents. *)
Definition is_turn (message : pyval) : bool :=
  eq_str (role_of message) "user" || eq_str (role_of message) "assistant".

Definition known_role (message : pyval) : bool :=
  eq_str (role_of message) "system"
  || eq_str (role_of message) "user"
  || eq_str (role_of message) "assistant"
  || eq_str (role_of message) "tool".

Lemma item_role (message r : pyval) :
  item message "role" = Ok r -> role_of message = r.
Proof.
  unfold item, role_of.
  destruct message as [| z | s | l | d]; try discriminate.
  destruct (assoc "role" d); [now intros [= ->]|discriminate].
Qed.

Lemma eq_str_true (v : pyval) (s : string) : eq_str v s = true -> v = PStr s.
Proof.
  destruct v as [| z | s' | l | d]; simpl; try discriminate.
  intros H. apply String.eqb_eq in H. now subst.
Qed.

Section Convert.

Variable rt : Runtime.
Variable py_str : pyval -> string.

(** X20: A string is converted as the conversation that consists of that one
    user message. *)
Theorem convert_string_as_user_message (text : string) (tool_payload : pyval) :
  VertexAIProvider.convert_openai_to_vertexai rt py_str (PStr text) tool_payload
  = VertexAIProvider.convert_openai_to_vertexai rt py_str
      (PList [PDict [("role", PStr "user"); ("content", PStr text)]]) tool_payload.
Proof. reflexivity. Qed.

Lemma convert_message_step (instruction instruction' : pyval)
    (contents contents' : list pyval) (message : pyval) :
  VertexAIProvider.convert_message rt py_str (instruction, contents) message
  = Ok (instruction', contents') ->
  known_role message = true
  /\ length contents'
     = (length contents + if is_turn message then 1 else 0)%nat.
Proof.
  unfold VertexAIProvider.convert_message, known_role, is_turn.
  destruct (item message "role") as [r|e] eqn:Hr; cbn [bind]; [|discriminate].
  rewrite (item_role message r Hr).
  destruct (eq_str r "system") eqn:Hsys.
  - apply eq_str_true in Hsys. subst r.
    destruct (item message "content") as [c|e]; cbn [bind]; [|discriminate].
    intros [= _ <-]. split; [reflexivity|simpl; lia].
  - destruct (eq_str r "user") eqn:Huser.
    + destruct (item message "content") as [c|e]; cbn [bind]; [|discriminate].
      intros [= _ <-]. split; [reflexivity|]. rewrite length_app. simpl. lia.
    + destruct (eq_str r "assistant") eqn:Hasst.
      * destruct (item message "content") as [c|e]; cbn [bind]; [|discriminate].
        destruct (if VertexAIProvider.is_none c
                  then contains_key message "tool_calls" else Ok false)
          as [[|]|e]; cbn [bind]; [| |discriminate].
        -- destruct (VertexAIProvider.function_call_content rt message)
             as [part|e]; cbn [bind]; [|discriminate].
           intros [= _ <-]. split; [reflexivity|].
           rewrite length_app. simpl. lia.
        -- intros [= _ <-]. split; [reflexivity|].
           rewrite length_app. simpl. lia.
      * destruct (eq_str r "tool") eqn:Htool; [|discriminate].
        destruct (item message "name") as [fname|e]; cbn [bind]; [|discriminate].
        destruct (item message "content") as [c|e]; cbn [bind]; [|discriminate].
        destruct instruction as [| z | text | l | d]; try discriminate.
        -- intros [= _ <-]. split; [reflexivity|simpl; lia].
        -- intros [= _ <-]. split; [reflexivity|simpl; lia].
Qed.

Lemma convert_messages_steps (messages : list pyval) (instruction instruction' : pyval)
    (contents contents' : list pyval) :
  VertexAIProvider.convert_messages rt py_str (instruction, contents) messages
  = Ok (instruction', contents') ->
  forallb known_role messages = true
  /\ length contents'
     = (length contents + length (filter is_turn messages))%nat.
Proof.
  revert instruction contents.
  induction messages as [|m messages IH]; intros instruction contents;
    cbn [VertexAIProvider.convert_messages forallb filter].
  - intros [= _ <-]. split; [reflexivity|simpl; lia].
  - destruct (VertexAIProvider.convert_message rt py_str (instruction, contents) m)
      as [[i1 c1]|e] eqn:Hm; cbn [bind]; [|discriminate].
    intros Hrest.
    destruct (convert_message_step _ _ _ _ _ Hm) as [Hknown Hlen].
    destruct (IH _ _ Hrest) as [Hall Hlen'].
    rewrite Hknown, Hall. split; [reflexivity|].
    destruct (is_turn m); simpl; lia.
Qed.

(** X21: A conversation that converts has known roles only (system, user,
    assistant, tool), and the result holds one content per user or assistant
    message: system and tool messages go to the system instruction and add
    no content. *)
Theorem convert_contents_are_turns (messages : list pyval) (tool_payload v : pyval) :
  VertexAIProvider.convert_openai_to_vertexai rt py_str (PList messages) tool_payload
  = Ok v ->
  exists instruction contents,
    v = VertexAIProvider.vertexai_format instruction contents tool_payload
    /\ length contents = length (filter is_turn messages)
    /\ forallb known_role messages = true.
Proof.
  unfold VertexAIProvider.convert_openai_to_vertexai.
  destruct (forallb VertexAIProvider.well_keyed messages); [|discriminate].
  destruct (VertexAIProvider.convert_messages rt py_str
              (PStr VertexAIProvider.default_instruction, []) messages)
    as [[instruction contents]|e] eqn:Hconv; cbn [bind]; [|discriminate].
  intros [= <-].
  destruct (convert_messages_steps _ _ _ _ _ Hconv) as [Hall Hlen].
  exists instruction, contents. repeat split; assumption.
Qed.

Lemma convert_messages_app (before after : list pyval) (state : pyval * list pyval) :
  VertexAIProvider.convert_messages rt py_str state (before ++ after)
  = (state' <- VertexAIProvider.convert_messages rt py_str state before ;;
     VertexAIProvider.convert_messages rt py_str state' after).
Proof.
  revert state. induction before as [|m before IH]; intros state;
    cbn [app VertexAIProvider.convert_messages].
  - reflexivity.
  - destruct (VertexAIProvider.convert_message rt py_str state m) as [state'|e];
      cbn [bind]; [apply IH|reflexivity].
Qed.

(** X22: A message with a role outside the four known ones stops the conversion
    with a [ValueError] once the messages before it are converted; the
    messages after it are not looked at. *)
Theorem convert_unknown_role (before after : list pyval) (bad : pyval)
    (tool_payload : pyval) (state : pyval * list pyval) :
  forallb VertexAIProvider.well_keyed (before ++ bad :: after) = true ->
  VertexAIProvider.convert_messages rt py_str
    (PStr VertexAIProvider.default_instruction, []) before = Ok state ->
  known_role bad = false ->
  raises (VertexAIProvider.convert_openai_to_vertexai rt py_str
            (PList (before ++ bad :: after)) tool_payload)
    ValueError.
Proof.
  intros Hkeys Hbefore Hrole.
  unfold VertexAIProvider.convert_openai_to_vertexai.
  rewrite Hkeys, convert_messages_app, Hbefore. cbn [bind].
  assert (Hbad : VertexAIProvider.well_keyed bad = true).
  { rewrite forallb_app in Hkeys. apply andb_true_iff in Hkeys.
    destruct Hkeys as [_ Hk]. simpl in Hk. apply andb_true_iff in Hk. tauto. }
  cbn [VertexAIProvider.convert_messages].
  destruct state as [instruction contents].
  unfold VertexAIProvider.convert_message.
  unfold VertexAIProvider.well_keyed in Hbad.
  destruct bad as [| z | s | l | d]; try discriminate.
  unfold known_role, role_of in Hrole. unfold item.
  destruct (assoc "role" d) as [r|]; [|discriminate].
  cbn [bind].
  destruct (eq_str r "system"); [discriminate|].
  destruct (eq_str r "user"); [discriminate|].
  destruct (eq_str r "assistant"); [discriminate|].
  destruct (eq_str r "tool"); [discriminate|].
  cbn [bind]. eexists. reflexivity.
Qed.

End Convert.

End ConvertExtras.

(** ** Further example data *)

Definition weather_call : string * pyval :=
  ("get_weather", PDict [("city", PStr "Paris")]).

Definition time_call : string * pyval :=
  ("get_time", PDict [("zone", PStr "CET")]).

(** The JSON text of a function-call part, of a text part, and of an event
    with the given parts. *)
Definition call_part_text (call : string * pyval) : string :=
  "{" ++ quoted "functionCall" ++ ": {" ++ quoted "name" ++ ": "
  ++ quoted (fst call) ++ ", " ++ quoted "args" ++ ": " ++ dumps (snd call) ++ "}}".

Definition text_part_text (text : string) : string :=
  "{" ++ quoted "text" ++ ": " ++ quoted text ++ "}".

Definition event_text (parts : list string) : string :=
  "{" ++ quoted "candidates" ++ ": [{" ++ quoted "content" ++ ": {"
  ++ quoted "parts" ++ ": [" ++ String.concat ", " parts ++ "]}}]}".

Definition event_of (parts : list pyval) : pyval :=
  PDict [("candidates", PList [PDict [("content", PDict [("parts", PList parts)])]])].

Definition two_calls_document : string :=
  event_text [call_part_text weather_call; call_part_text time_call].

Definition mixed_document : string :=
  event_text [call_part_text weather_call; text_part_text "done"].

Definition more_documents : list (string * pyval) :=
  [ (two_calls_document,
     event_of [EventExtras.call_part weather_call; EventExtras.call_part time_call]);
    (mixed_document,
     event_of [EventExtras.call_part weather_call; PDict [("text", PStr "done")]]);
    (text_document "Hello", text_event "Hello") ].

(** The runtime of the examples, with these documents. *)
Definition events_runtime : Runtime :=
  {| uuid4 := uuid4 test_runtime;
     clock := clock test_runtime;
     decode_utf8 := decode_utf8 test_runtime;
     json_loads := fun text =>
       match assoc text more_documents with
       | Some v => Ok v
       | None => Raise (Exc ValueError "Expecting value")
       end;
     json_dumps := dumps |}.

Definition gemini_request : ChatRequest := hello_request "gemini" 0.


Definition two_calls_piece : string := "data: " ++ two_calls_document.

Definition mixed_piece : string := "data: " ++ mixed_document.

Definition claude_request : ChatRequest := hello_request "claude" 0.

Definition hello_delta : string :=
  "event: content_block_delta" ++ newline ++ "data: " ++ delta_document "Hello".

Definition plain (role text : string) : pyval :=
  PDict [("role", PStr role); ("content", PStr text)].

Lemma input_to_string_app_witness :
  input_to_string (PList ([plain "system" "Be brief."] ++ [plain "user" "Hello?"])%list)
  = Ok "Be brief.Hello?".
Proof.
  apply (TextExtras.input_to_string_app
           [plain "system" "Be brief."] [plain "user" "Hello?"]
           "Be brief." "Hello?" eq_refl eq_refl).
Defined.

Lemma parse_response_app_witness :
  yielded (AnthropicProvider.parse_response test_runtime claude_request
             ([hello_delta] ++ ["event: message_stop"])%list fresh_sys)
  = (yielded (AnthropicProvider.parse_response test_runtime claude_request
                [hello_delta] fresh_sys)
     ++ yielded (AnthropicProvider.parse_response test_runtime claude_request
                   ["event: message_stop"]
                   {| uuid_calls := 1; clock_calls := 1 |}))%list.
Proof.
  apply (proj1 (StreamExtras.parse_response_app test_runtime claude_request
                  [hello_delta] ["event: message_stop"] fresh_sys
                  {| uuid_calls := 1; clock_calls := 1 |}
                  (yielded (AnthropicProvider.parse_response test_runtime
                              claude_request [hello_delta] fresh_sys)))).
  reflexivity.
Defined.


Lemma anthropic_stream_never_raises_witness :
  outcome (AnthropicProvider.parse_response test_runtime claude_request
             anthropic_lines fresh_sys) = Ok tt
  /\ (length (yielded (AnthropicProvider.parse_response test_runtime claude_request
                         anthropic_lines fresh_sys))
      <= length anthropic_lines)%nat.
Proof.
  apply (StreamExtras.anthropic_stream_never_raises test_runtime claude_request
           anthropic_lines fresh_sys).
  repeat constructor; eexists; reflexivity.
Defined.

Lemma vertexai_call_parts_witness :
  length (yielded (VertexAIProvider.parse_piece events_runtime gemini_request
                     two_calls_piece fresh_sys)) = 6%nat
  /\ outcome (VertexAIProvider.parse_piece events_runtime gemini_request
                two_calls_piece fresh_sys) = Ok tt.
Proof.
  destruct (EventExtras.vertexai_call_parts events_runtime gemini_request
              two_calls_piece fresh_sys
              [("parts", PList [EventExtras.call_part weather_call;
                                EventExtras.call_part time_call])]
              weather_call [time_call] eq_refl eq_refl) as [Hrun Hlen].
  rewrite Hrun. split; reflexivity.
Defined.

Lemma vertexai_mixed_parts_witness :
  length (yielded (VertexAIProvider.parse_piece events_runtime gemini_request
                     mixed_piece fresh_sys)) = 3%nat
  /\ raises (outcome (VertexAIProvider.parse_piece events_runtime gemini_request
                        mixed_piece fresh_sys)) KeyError.
Proof.
  rewrite (EventExtras.vertexai_mixed_parts events_runtime gemini_request
             mixed_piece fresh_sys
             [("parts", PList [EventExtras.call_part weather_call;
                               PDict [("text", PStr "done")]])]
             [("text", PStr "done")] weather_call [] eq_refl eq_refl eq_refl).
  split; [reflexivity|]. eexists. reflexivity.
Defined.

Lemma vertexai_calls_joined_witness :
  exists completion,
    join_chunks failing_provider
      (yielded (VertexAIProvider.parse_piece events_runtime gemini_request
                  two_calls_piece fresh_sys))
    = Ok (Some (completion,
                OutStrOfList
                  [ PStr "get_weather"; PStr "get_time";
                    PStr (dumps (snd weather_call));
                    PStr (dumps (snd time_call)) ])).
Proof.
  eexists.
  apply (EventExtras.vertexai_calls_joined events_runtime gemini_request
           Q ChatRequest unit unit failing_provider
           two_calls_piece fresh_sys
           [("parts", PList [EventExtras.call_part weather_call;
                             EventExtras.call_part time_call])]
           weather_call [time_call] eq_refl eq_refl).
Defined.

Lemma anthropic_deltas_joined_witness :
  exists completion,
    join_chunks failing_provider
      (yielded (AnthropicProvider.parse_response test_runtime claude_request
                  ([hello_delta; hello_delta] ++ ["event: message_stop"])%list
                  fresh_sys))
    = Ok (Some (completion, OutStr "HelloHello")).
Proof.
  eexists.
  apply (AnthropicExtras.anthropic_deltas_joined test_runtime claude_request
           Q ChatRequest unit unit failing_provider
           [hello_delta; hello_delta] [Some "Hello"; Some "Hello"]
           "event: message_stop" fresh_sys).
  - repeat constructor; eexists; repeat split; reflexivity.
  - eexists. split; reflexivity.
  - reflexivity.
Defined.

(** A rendering for the values of f-strings that are not strings. *)
Definition no_rendering (v : pyval) : string := EmptyString.

Definition conversation : list pyval :=
  [ plain "system" "Be brief."; plain "user" "Hello?";
    plain "assistant" "Hi there!"; plain "user" "Bye." ].

Lemma convert_contents_are_turns_witness :
  exists instruction contents,
    VertexAIProvider.vertexai_format (PStr "Be brief.")
      [ VertexAIProvider.text_content "user" (PStr "Hello?");
        VertexAIProvider.text_content "model" (PStr "Hi there!");
        VertexAIProvider.text_content "user" (PStr "Bye.") ] PNone
    = VertexAIProvider.vertexai_format instruction contents PNone
    /\ length contents = length (filter ConvertExtras.is_turn conversation)
    /\ forallb ConvertExtras.known_role conversation = true.
Proof.
  apply (ConvertExtras.convert_contents_are_turns test_runtime no_rendering
           conversation PNone).
  reflexivity.
Defined.

Lemma convert_unknown_role_witness :
  raises (VertexAIProvider.convert_openai_to_vertexai test_runtime no_rendering
            (PList ([plain "user" "Hello?"]
                    ++ plain "developer" "Be brief." :: [plain "user" "Bye."])%list)
            PNone)
    ValueError.
Proof.
  apply (ConvertExtras.convert_unknown_role test_runtime no_rendering
           [plain "user" "Hello?"] [plain "user" "Bye."]
           (plain "developer" "Be brief.") PNone
           (PStr VertexAIProvider.default_instruction,
            [VertexAIProvider.text_content "user" (PStr "Hello?")]));
    reflexivity.
Defined.
